(** * Churnobyl retraining pipeline: a shallow embedding

    The development follows [churnobyl/src/data.py] and
    [churnobyl/engine.py].  Python values coming out of the YAML
    configuration are modelled by a small universe of dynamic values,
    exceptions by an error result, and printing by an explicit output
    log.  Third-party routines (Box, pandera, polars, scikit-learn) are
    modelled from their documented behaviour; where that behaviour is
    floating-point or pseudo-random it is a Section variable. *)

From Stdlib Require Import List String Ascii ZArith QArith Qround Bool Lia Permutation Arith.
Import ListNotations.
Open Scope string_scope.
Open Scope list_scope.

Set Implicit Arguments.
Set Warnings "-register-all".

(* ===================================================================== *)
(** * Python values, exceptions and results *)
(* ===================================================================== *)

Module Py.

(** A Python [float]: a finite double is kept as the rational it denotes. *)
Inductive pyfloat : Type :=
| FFin (q : Q)
| FPosInf
| FNegInf
| FNaN.

(** The values a YAML document yields once it is wrapped in a [Box]:
    [VList] is a [BoxList]/[list], [VBox] is a [Box]/[dict] with its keys
    in insertion order. *)
Inductive value : Type :=
| VNone
| VBool (b : bool)
| VInt (z : Z)
| VFloat (f : pyfloat)
| VStr (s : string)
| VList (l : list value)
| VBox (m : list (string * value)).

(** Why a [ConfigValidationError] was raised; one constructor per [raise]
    site of [validate_data_config], in source order.  The source formats
    these into the message of the exception. *)
Inductive config_error : Type :=
| UnknownStage (stage : string)            (* "Stage '..' not in DataStages[..]" *)
| InvalidStrategy (strategy : value)       (* "Strategy '..' not valid data loading strategy..." *)
| UnknownSplitArg (arg : string)           (* "Unknown split argument '..'..." *)
| RatioOutOfRange                          (* "Split should be a ratio with float dtype. It should be between 0.0 and 1.0" *)
| StratifyNotBool                          (* "Stratify should either be true or false" *)
| UnknownTransformParam (param : string)   (* ".. not present in transformation parameters [..]" *)
| DuplicateColumns.                        (* "Columns should be unique within the transform parameters" *)

(** The exceptions met.  The messages of the exceptions this repository
    raises are kept as written; those of library exceptions are
    shortened. *)
Inductive exn : Type :=
| ConfigValidationError (why : config_error)  (* src.exceptions.ConfigValidationError *)
| Exception (msg : string)                    (* the builtin, generic Exception *)
| BoxKeyError (key : string)
| AttributeError (attr : string)
| TypeError (msg : string)
| ValueError (msg : string)
| OverflowError
| ColumnNotFoundError (col : string)
| SchemaError
| OSError (msg : string)                      (* OSError or a subclass, as FileNotFoundError *)
| IndexError
| FrozenInstanceError (field : string).

Inductive result (A : Type) : Type :=
| Ok (a : A)
| Raise (e : exn).

Arguments Ok {A} a.
Arguments Raise {A} e.

Definition bind {A B} (r : result A) (k : A -> result B) : result B :=
  match r with
  | Ok a => k a
  | Raise e => Raise e
  end.

Definition is_cve {A} (r : result A) : bool :=
  match r with
  | Raise (ConfigValidationError _) => true
  | _ => false
  end.

Definition raises {A} (r : result A) : bool :=
  match r with
  | Raise _ => true
  | Ok _ => false
  end.

End Py.

Import Py.

Notation "x <- c ;; k" := (bind c (fun x => k))
  (at level 61, c at next level, right associativity).
Notation "c ;;; k" := (bind c (fun _ => k))
  (at level 61, right associativity).

(** [for x in l: body(x)], stopping at the first exception. *)
Fixpoint for_each {A} (l : list A) (body : A -> result unit) : result unit :=
  match l with
  | [] => Ok tt
  | x :: l' => body x ;;; for_each l' body
  end.

Definition str_in (s : string) (l : list string) : bool :=
  existsb (String.eqb s) l.

Arguments str_in : simpl never.

(* ===================================================================== *)
(** * Box and builtin operations used by the configuration validator *)
(* ===================================================================== *)

Module Box.

Fixpoint lookup (k : string) (m : list (string * value)) : option value :=
  match m with
  | [] => None
  | (k', v) :: m' => if String.eqb k k' then Some v else lookup k m'
  end.

(** ** Attribute access

    [box.key] on a [Box] built with its default flags
    ([conversion_box=True], [default_box=False]): the key itself when the
    box holds it, else the key whose "safe" form is [key], else
    [BoxKeyError].  A character is a code point below 256. *)

Definition between (lo hi : nat) (c : ascii) : bool :=
  (lo <=? nat_of_ascii c)%nat && (nat_of_ascii c <=? hi)%nat.

(** A character a Python identifier may start with: a letter or "_". *)
Definition identifier_start (c : ascii) : bool :=
  between 65 90 c || between 97 122 c || between 95 95 c
  || between 170 170 c || between 181 181 c || between 186 186 c
  || between 192 214 c || between 216 246 c || between 248 255 c.

(** A character a Python identifier may hold: [f"x{c}".isidentifier()]. *)
Definition identifier_part (c : ascii) : bool :=
  identifier_start c || between 48 57 c || between 183 183 c.

(** [s.isidentifier()] *)
Definition isidentifier (s : string) : bool :=
  match s with
  | EmptyString => false
  | String c s' => identifier_start c && forallb identifier_part (list_ascii_of_string s')
  end.

(** [keyword.kwlist] *)
Definition kwlist : list string :=
  [ "False"; "None"; "True"; "and"; "as"; "assert"; "async"; "await"; "break";
    "class"; "continue"; "def"; "del"; "elif"; "else"; "except"; "finally";
    "for"; "from"; "global"; "if"; "import"; "in"; "is"; "lambda"; "nonlocal";
    "not"; "or"; "pass"; "raise"; "return"; "try"; "while"; "with"; "yield" ].

Definition iskeyword (s : string) : bool := str_in s kwlist.

(** The default [box_safe_prefix]. *)
Definition box_safe_prefix : string := "x".

(** The loop of [Box._safe_attr]: the characters kept so far and the
    position of the last character an identifier may hold.  A run of
    other characters inside the key leaves one "_". *)
Fixpoint safe_chars (attr : list ascii) (i : nat) (out : list ascii)
    (last_safe : nat) : list ascii * nat :=
  match attr with
  | [] => (out, last_safe)
  | character :: rest =>
      if identifier_part character
      then safe_chars rest (S i) (out ++ [character]) i
      else match out with
           | [] => safe_chars rest (S i) out last_safe
           | _ :: _ =>
               if (last_safe =? i - 1)%nat
               then safe_chars rest (S i) (out ++ ["_"%char]) last_safe
               else safe_chars rest (S i) out last_safe
           end
  end.

(** [Box._safe_attr(attr)] for a string key: the key turned into a name
    that can be written as an attribute. *)
Definition _safe_attr (attr : string) : string :=
  if isidentifier attr && negb (iskeyword attr) then attr
  else
    let no_letter := negb (existsb identifier_start (list_ascii_of_string attr)) in
    let attr := if no_letter then String.append box_safe_prefix attr else attr in
    if no_letter && isidentifier attr && negb (iskeyword attr) then attr
    else
      let (out, last_safe) := safe_chars (list_ascii_of_string attr) 0 [] 0 in
      let out := string_of_list_ascii (firstn (last_safe + 1) out) in
      let out :=
        match out with
        | String c _ => if between 48 57 c then String.append box_safe_prefix out else out
        | EmptyString => out
        end in
      if iskeyword out then String.append box_safe_prefix out else out.

(** The entry of the box's table of safe keys for [safe]: the table is
    filled as the keys are stored, a later key takes the entry of an
    earlier one with the same safe form. *)
Fixpoint safe_key (safe : string) (m : list (string * value)) : option string :=
  match m with
  | [] => None
  | (k, _) :: m' =>
      match safe_key safe m' with
      | Some k' => Some k'
      | None => if String.eqb (_safe_attr k) safe then Some k else None
      end
  end.

(** [box.key].  Anything that is not a [Box] has no such attribute.  The
    names this program reads ([data], [load], [strategy], ...) are not
    names of methods of [Box], which would be found before the safe
    keys. *)
Definition getattr (b : value) (k : string) : result value :=
  match b with
  | VBox m =>
      match lookup k m with
      | Some v => Ok v
      | None =>
          match safe_key (_safe_attr k) m with
          | Some k' =>
              match lookup k' m with
              | Some v => Ok v
              | None => Raise (BoxKeyError k)
              end
          | None => Raise (BoxKeyError k)
          end
      end
  | _ => Raise (AttributeError k)
  end.

(** [box.to_dict()]: only a [Box] has the method. *)
Definition to_dict (b : value) : result (list (string * value)) :=
  match b with
  | VBox m => Ok m
  | _ => Raise (AttributeError "to_dict")
  end.

Definition keys (m : list (string * value)) : list string := map fst m.

(** [dict.get(key)]: [None] when the key is missing. *)
Definition get (m : list (string * value)) (k : string) : value :=
  match lookup k m with
  | Some v => v
  | None => VNone
  end.

End Box.

Module Builtins.

(** [hash(v)] succeeds on scalars; lists and (unfrozen) boxes are
    unhashable. *)
Definition hashable (v : value) : bool :=
  match v with
  | VList _ | VBox _ => false
  | _ => true
  end.

(** 2^1024 - 2^970: the least magnitude [float(int)] cannot represent. *)
Definition float_overflow_bound : Z := (2 ^ 1024 - 2 ^ 970)%Z.

Section Float.

(** [float(str)]: Python's parser of float literals. *)
Variable float_of_string : string -> option pyfloat.

(** [float(v)].  For an [int] the rational before rounding to the nearest
    double is kept; rounding is monotone and fixes 1, so comparisons with
    1.0 are not affected. *)
Definition float (v : value) : result pyfloat :=
  match v with
  | VFloat f => Ok f
  | VInt z =>
      if (float_overflow_bound <=? Z.abs z)%Z then Raise OverflowError
      else Ok (FFin (inject_Z z))
  | VBool b => Ok (FFin (if b then 1 else 0))
  | VStr s =>
      match float_of_string s with
      | Some f => Ok f
      | None => Raise (ValueError "could not convert string to float")
      end
  | VNone | VList _ | VBox _ =>
      Raise (TypeError "float() argument must be a string or a real number")
  end.

End Float.

(** [f > 1.0] *)
Definition gt_one (f : pyfloat) : bool :=
  match f with
  | FFin q => negb (Qle_bool q 1)
  | FPosInf => true
  | FNegInf | FNaN => false
  end.

(** [isinstance(v, bool)] *)
Definition is_bool (v : value) : bool :=
  match v with
  | VBool _ => true
  | _ => false
  end.

(** A number as Python compares it: [True == 1 == 1.0]. *)
Definition as_number (v : value) : option Q :=
  match v with
  | VBool b => Some (if b then 1 else 0)%Q
  | VInt z => Some (inject_Z z)
  | VFloat (FFin q) => Some q
  | _ => None
  end.

(** [a == b] on hashable values. *)
Definition py_eq (a b : value) : bool :=
  match a, b with
  | VNone, VNone => true
  | VStr s, VStr t => String.eqb s t
  | VFloat FPosInf, VFloat FPosInf => true
  | VFloat FNegInf, VFloat FNegInf => true
  | _, _ =>
      match as_number a, as_number b with
      | Some p, Some q => Qeq_bool p q
      | _, _ => false
      end
  end.

(** [for x in v]: what iterating a value yields.  A string yields its
    characters, a dict its keys; scalars are not iterable. *)
Fixpoint chars (s : string) : list value :=
  match s with
  | EmptyString => []
  | String c s' => VStr (String c EmptyString) :: chars s'
  end.

Definition iter (v : value) : result (list value) :=
  match v with
  | VList l => Ok l
  | VStr s => Ok (chars s)
  | VBox m => Ok (map (fun kv => VStr (fst kv)) m)
  | _ => Raise (TypeError "object is not iterable")
  end.

(** [set(l)], as the list of its first occurrences. *)
Fixpoint set_of (l : list value) : list value :=
  match l with
  | [] => []
  | x :: l' => x :: filter (fun y => negb (py_eq x y)) (set_of l')
  end.

(** [len(set(l))]: building the set hashes every element. *)
Definition len_set (l : list value) : result nat :=
  if forallb hashable l then Ok (List.length (set_of l))
  else Raise (TypeError "unhashable type").

End Builtins.

(* ===================================================================== *)
(** * Configuration validation: [validate_data_config] *)
(* ===================================================================== *)

(** Keys of [DataLoaderStrategyFactory]. *)
Definition DataLoaderStrategyFactory_keys : list string := ["dir"; "aws_s3"].

Definition data_stages : list string := ["load"; "split"; "transform"].
Definition split_args : list string := ["ratio"; "stratify"].
Definition transform_params : list string := ["scale"; "dummy"; "ordinal"].

(** [strategy not in DataLoaderStrategyFactory.keys()]: membership in the
    keys of a dict hashes the candidate first. *)
Definition not_in_factory (strategy : value) : result bool :=
  if Builtins.hashable strategy then
    Ok match strategy with
       | VStr s => negb (str_in s DataLoaderStrategyFactory_keys)
       | _ => true
       end
  else Raise (TypeError "unhashable type").

(** The two nested loops that fill [cols]. *)
Fixpoint collect_cols (transform_config : list (string * value))
    (params : list string) : result (list value) :=
  match params with
  | [] => Ok []
  | param :: rest =>
      here <- Builtins.iter (Box.get transform_config param) ;;
      more <- collect_cols transform_config rest ;;
      Ok (here ++ more)
  end.

Section ValidateDataConfig.

Variable float_of_string : string -> option pyfloat.

(** [# Validating base data args] *)
Definition validate_base_args (data_config : value) : result unit :=
  data_dict <- Box.to_dict data_config ;;
  for_each (Box.keys data_dict) (fun stage =>
    if negb (str_in stage data_stages)
    then Raise (ConfigValidationError (UnknownStage stage))
    else Ok tt).

(** [# Validating load args] *)
Definition validate_load_args (data_config : value) : result unit :=
  load_config <- Box.getattr data_config "load" ;;
  strategy <- Box.getattr load_config "strategy" ;;
  unknown <- not_in_factory strategy ;;
  if unknown : bool
  then Raise (ConfigValidationError (InvalidStrategy strategy))
  else Ok tt.

(** [# Validating split args] *)
Definition validate_split_args (data_config : value) : result unit :=
  split_config <- Box.getattr data_config "split" ;;
  split_dict <- Box.to_dict split_config ;;
  for_each (Box.keys split_dict) (fun arg =>
    if negb (str_in arg split_args)
    then Raise (ConfigValidationError (UnknownSplitArg arg))
    else Ok tt) ;;;
  ratio <- Box.getattr split_config "ratio" ;;
  ratio_f <- Builtins.float float_of_string ratio ;;
  (if Builtins.gt_one ratio_f
   then Raise (ConfigValidationError RatioOutOfRange)
   else Ok tt) ;;;
  stratify <- Box.getattr split_config "stratify" ;;
  if negb (Builtins.is_bool stratify)
  then Raise (ConfigValidationError StratifyNotBool)
  else Ok tt.

(** [# Validating transform args] *)
Definition validate_transform_args (data_config : value) : result unit :=
  transform_box <- Box.getattr data_config "transform" ;;
  transform_config <- Box.to_dict transform_box ;;
  for_each (Box.keys transform_config) (fun param =>
    if negb (str_in param transform_params)
    then Raise (ConfigValidationError (UnknownTransformParam param))
    else Ok tt) ;;;
  cols <- collect_cols transform_config transform_params ;;
  n <- Builtins.len_set cols ;;
  if negb (List.length cols =? n)%nat
  then Raise (ConfigValidationError DuplicateColumns)
  else Ok tt.

(** The function runs its four blocks in this order and returns [None];
    the first exception ends it. *)
Definition validate_data_config (config : value) : result unit :=
  data_config <- Box.getattr config "data" ;;
  validate_base_args data_config ;;;
  validate_load_args data_config ;;;
  validate_split_args data_config ;;;
  validate_transform_args data_config.

End ValidateDataConfig.

(** A result that is not the failure of the uniqueness check. *)
Definition not_duplicate_error {A} (r : result A) : Prop :=
  r <> Raise (ConfigValidationError DuplicateColumns).

(** ** Reading a configuration without running the validator

    The predicates below describe a configuration by its content; they
    are what the statements about [validate_data_config] are phrased
    with. *)

Module Config.

(** [config.data.<name>], when both exist. *)
Definition section (config : value) (name : string) : option value :=
  match config with
  | VBox top =>
      match Box.lookup "data" top with
      | Some (VBox data) => Box.lookup name data
      | _ => None
      end
  | _ => None
  end.

(** A mapping holds a key outside [allowed]. *)
Definition has_key_outside (allowed : list string) (v : option value) : bool :=
  match v with
  | Some (VBox m) => existsb (fun k => negb (str_in k allowed)) (Box.keys m)
  | _ => false
  end.

Definition unknown_data_key (config : value) : bool :=
  match config with
  | VBox top => has_key_outside data_stages (Box.lookup "data" top)
  | _ => false
  end.

Definition unknown_split_key (config : value) : bool :=
  has_key_outside split_args (section config "split").

Definition unknown_transform_key (config : value) : bool :=
  has_key_outside transform_params (section config "transform").

(** [config.data.load.strategy], when present. *)
Definition strategy (config : value) : option value :=
  match section config "load" with
  | Some (VBox load) => Box.lookup "strategy" load
  | _ => None
  end.

(** The load strategy is a value other than "dir" and "aws_s3". *)
Definition strategy_outside (config : value) : bool :=
  match strategy config with
  | Some (VStr s) => negb (str_in s DataLoaderStrategyFactory_keys)
  | Some _ => true
  | None => false
  end.

(** The load section can be read: it has a strategy that can be hashed. *)
Definition load_readable (config : value) : bool :=
  match strategy config with
  | Some v => Builtins.hashable v
  | None => false
  end.

(** The split section can be read: [ratio] is there and [float] accepts
    it, [stratify] is there. *)
Definition split_readable (float_of_string : string -> option pyfloat)
    (config : value) : bool :=
  match section config "split" with
  | Some (VBox split) =>
      match Box.lookup "ratio" split, Box.lookup "stratify" split with
      | Some ratio, Some _ =>
          negb (raises (Builtins.float float_of_string ratio))
      | _, _ => false
      end
  | _ => false
  end.

(** The three column lists of the transform section, when each is a list
    of strings. *)
Fixpoint strs (l : list value) : option (list string) :=
  match l with
  | [] => Some []
  | VStr s :: l' => option_map (cons s) (strs l')
  | _ :: _ => None
  end.

Definition column_list (transform : list (string * value)) (param : string)
  : option (list string) :=
  match Box.lookup param transform with
  | Some (VList l) => strs l
  | _ => None
  end.

Definition columns_of (transform : list (string * value)) : option (list string) :=
  match column_list transform "scale", column_list transform "dummy",
        column_list transform "ordinal" with
  | Some s, Some d, Some o => Some (s ++ d ++ o)
  | _, _, _ => None
  end.

Definition transform_columns (config : value) : option (list string) :=
  match section config "transform" with
  | Some (VBox t) => columns_of t
  | _ => None
  end.

(** Some name occurs twice in the list. *)
Fixpoint has_duplicate (l : list string) : bool :=
  match l with
  | [] => false
  | x :: l' => str_in x l' || has_duplicate l'
  end.

(** The hypothesis of the unknown-key property as the specification words
    it: any of the four defects. *)
Definition unknown_key (config : value) : bool :=
  unknown_data_key config || unknown_split_key config
  || unknown_transform_key config || strategy_outside config.


(** Everything ahead of the uniqueness check can be read. *)
Definition readable (float_of_string : string -> option pyfloat)
    (config : value) : bool :=
  load_readable config && split_readable float_of_string config
  && match section config "transform" with
     | Some (VBox _) => true
     | _ => false
     end.

End Config.

(** ** Sample configurations *)

Module Samples.

Definition columns (l : list string) : value := VList (map VStr l).

Definition load_dir : value :=
  VBox [("strategy", VStr "dir"); ("args", VBox [("dir", VStr "./data")])].

Definition split_with (ratio : value) : value :=
  VBox [("ratio", ratio); ("stratify", VBool true)].

Definition transform_ok : value :=
  VBox [("scale", columns ["tenure"; "MonthlyCharges"; "TotalCharges"]);
        ("dummy", columns ["PaymentMethod"; "Contract"; "InternetService"]);
        ("ordinal", columns ["gender"; "Partner"; "Dependents"])].

Definition config_of (load split transform : value) : value :=
  VBox [("SEED", VInt 69420);
        ("data", VBox [("load", load); ("split", split); ("transform", transform)])].

(** ratio: 0.2 *)
Definition ratio_fifth : value := VFloat (FFin (1 # 5)).
(** ratio: -0.5 *)
Definition ratio_negative : value := VFloat (FFin (- 1 # 2)).

Definition config_ok : value :=
  config_of load_dir (split_with ratio_fifth) transform_ok.

(** A configuration that is fine but for its negative split ratio. *)
Definition config_negative_ratio : value :=
  config_of load_dir (split_with ratio_negative) transform_ok.



(** [tenure] listed under both scale and ordinal. *)
Definition transform_duplicate : value :=
  VBox [("scale", columns ["tenure"; "MonthlyCharges"]);
        ("dummy", columns ["Contract"]);
        ("ordinal", columns ["gender"; "tenure"])].

Definition config_duplicate : value :=
  config_of load_dir (split_with ratio_fifth) transform_duplicate.

Definition config_duplicate_null_ratio : value :=
  config_of load_dir (split_with VNone) transform_duplicate.

(** A [float(str)] that accepts nothing: enough where no ratio is a string. *)
Definition no_float_of_string (s : string) : option pyfloat := None.

End Samples.

(* ===================================================================== *)
(** * Data frames *)
(* ===================================================================== *)

(** A polars frame: named, typed columns; a cell may be null.  The three
    dtypes are the ones the schema of this pipeline speaks of. *)
Module Polars.

Inductive series : Type :=
| Int64 (cells : list (option Z))
| Float64 (cells : list (option pyfloat))
| String_ (cells : list (option string)).   (* pl.String *)

Definition DataFrame : Type := list (string * series).

Definition len (s : series) : nat :=
  match s with
  | Int64 l => List.length l
  | Float64 l => List.length l
  | String_ l => List.length l
  end.

(** [df.height] *)
Definition height (df : DataFrame) : nat :=
  match df with
  | [] => 0
  | (_, s) :: _ => len s
  end.

Fixpoint column (name : string) (df : DataFrame) : option series :=
  match df with
  | [] => None
  | (n, s) :: df' => if String.eqb name n then Some s else column name df'
  end.

Definition columns (df : DataFrame) : list string := map fst df.

Definition same_dtype (a b : series) : bool :=
  match a, b with
  | Int64 _, Int64 _ | Float64 _, Float64 _ | String_ _, String_ _ => true
  | _, _ => false
  end.

(** Two frames with the same column names and dtypes, in the same order. *)
Fixpoint same_schema (a b : DataFrame) : bool :=
  match a, b with
  | [], [] => true
  | (n, s) :: a', (m, t) :: b' =>
      String.eqb n m && same_dtype s t && same_schema a' b'
  | _, _ => false
  end.

Definition append_series (a b : series) : series :=
  match a, b with
  | Int64 x, Int64 y => Int64 (x ++ y)
  | Float64 x, Float64 y => Float64 (x ++ y)
  | String_ x, String_ y => String_ (x ++ y)
  | _, _ => a
  end.

(** [a.vstack(b)] for frames of the same schema. *)
Fixpoint vstack (a b : DataFrame) : DataFrame :=
  match a, b with
  | (n, s) :: a', (_, t) :: b' => (n, append_series s t) :: vstack a' b'
  | _, _ => a
  end.

(** The keyword arguments a call passes besides the frames. *)
Inductive concat_kwarg : Type :=
| How_vertical            (* how="vertical" *)
| Ignore_index.           (* ignore_index=True *)

(** [pl.concat(items, how="vertical")]: the frames stacked in order; frames
    of different schemas are refused, and so is an empty list. *)
Fixpoint concat_vertical (first : DataFrame) (rest : list DataFrame)
  : result DataFrame :=
  match rest with
  | [] => Ok first
  | df :: rest' =>
      if same_schema first df then concat_vertical (vstack first df) rest'
      else Raise SchemaError
  end.

(** [pl.concat(items, **kwargs)].  Its keywords are [how], [rechunk] and
    [parallel]; any other keyword is a [TypeError] at the call. *)
Definition concat (items : list DataFrame) (kwargs : list concat_kwarg)
  : result DataFrame :=
  if existsb (fun k => match k with Ignore_index => true | _ => false end) kwargs
  then Raise (TypeError "concat() got an unexpected keyword argument 'ignore_index'")
  else match items with
       | [] => Raise (ValueError "cannot concat empty list")
       | df :: rest => concat_vertical df rest
       end.

(** [pl.col(..).str.replace(pattern, value)] for a one-character pattern
    without regex meaning: the first match is replaced, the rest of the
    string is kept ([n=1] is the default of [str.replace]). *)
Fixpoint str_replace (pattern : ascii) (value : string) (s : string) : string :=
  match s with
  | EmptyString => EmptyString
  | String c s' =>
      if Ascii.eqb c pattern then String.append value s'
      else String c (str_replace pattern value s')
  end.

(** The column [name] replaced, in place, by [s]. *)
Fixpoint with_column (name : string) (s : series) (df : DataFrame) : DataFrame :=
  match df with
  | [] => []
  | (n, t) :: df' =>
      if String.eqb name n then (n, s) :: df' else (n, t) :: with_column name s df'
  end.

(** [df.drop(name)] *)
Fixpoint remove (name : string) (df : DataFrame) : DataFrame :=
  match df with
  | [] => []
  | (n, s) :: df' =>
      if String.eqb name n then remove name df' else (n, s) :: remove name df'
  end.

Definition drop (name : string) (df : DataFrame) : result DataFrame :=
  match column name df with
  | Some _ => Ok (remove name df)
  | None => Raise (ColumnNotFoundError name)
  end.

(** [df.select(name)] *)
Definition select (name : string) (df : DataFrame) : result DataFrame :=
  match column name df with
  | Some s => Ok [(name, s)]
  | None => Raise (ColumnNotFoundError name)
  end.

(** Rows picked by position, in the order of [idx]. *)
Definition gather {A} (idx : list nat) (l : list A) : list A :=
  flat_map (fun i => match nth_error l i with
                     | Some x => [x]
                     | None => []
                     end) idx.

Definition take_series (idx : list nat) (s : series) : series :=
  match s with
  | Int64 l => Int64 (gather idx l)
  | Float64 l => Float64 (gather idx l)
  | String_ l => String_ (gather idx l)
  end.

Definition take (idx : list nat) (df : DataFrame) : DataFrame :=
  map (fun ns => (fst ns, take_series idx (snd ns))) df.

End Polars.

(** A pandas frame, as [pl.DataFrame.to_pandas] delivers it: an [int64]
    column has no missing value, a [float64] column marks them by NaN, an
    [object] column holds Python objects ([None] where a value is
    missing). *)
Module Pandas.

Inductive dtype : Type := DInt64 | DFloat64 | DObject.

Inductive series : Type :=
| SInt64 (cells : list Z)
| SFloat64 (cells : list pyfloat)
| SObject (cells : list value).

Definition DataFrame : Type := list (string * series).

Definition dtype_of (s : series) : dtype :=
  match s with
  | SInt64 _ => DInt64
  | SFloat64 _ => DFloat64
  | SObject _ => DObject
  end.

(** [str(dtype)] *)
Definition dtype_name (d : dtype) : string :=
  match d with
  | DInt64 => "int64"
  | DFloat64 => "float64"
  | DObject => "object"
  end.

Definition dtype_eqb (a b : dtype) : bool :=
  match a, b with
  | DInt64, DInt64 | DFloat64, DFloat64 | DObject, DObject => true
  | _, _ => false
  end.

(** The elements of a series as Python objects. *)
Definition objects (s : series) : list value :=
  match s with
  | SInt64 l => map VInt l
  | SFloat64 l => map VFloat l
  | SObject l => l
  end.

(** [pd.isna] on an element. *)
Definition isna (v : value) : bool :=
  match v with
  | VNone | VFloat FNaN => true
  | _ => false
  end.

Fixpoint column (name : string) (df : DataFrame) : option series :=
  match df with
  | [] => None
  | (n, s) :: df' => if String.eqb name n then Some s else column name df'
  end.

Fixpoint set_column (name : string) (s : series) (df : DataFrame) : DataFrame :=
  match df with
  | [] => []
  | (n, t) :: df' =>
      if String.eqb name n then (n, s) :: df' else (n, t) :: set_column name s df'
  end.

Definition opt_float (o : option pyfloat) : pyfloat :=
  match o with Some f => f | None => FNaN end.

Definition opt_int_float (o : option Z) : pyfloat :=
  match o with Some z => FFin (inject_Z z) | None => FNaN end.

Definition opt_str (o : option string) : value :=
  match o with Some s => VStr s | None => VNone end.

Fixpoint all_some {A} (l : list (option A)) : option (list A) :=
  match l with
  | [] => Some []
  | Some x :: l' => option_map (cons x) (all_some l')
  | None :: _ => None
  end.

Definition of_polars_series (s : Polars.series) : series :=
  match s with
  | Polars.Int64 l =>
      match all_some l with
      | Some zs => SInt64 zs
      | None => SFloat64 (map opt_int_float l)   (* nulls turn the column into floats *)
      end
  | Polars.Float64 l => SFloat64 (map opt_float l)
  | Polars.String_ l => SObject (map opt_str l)
  end.

(** [data.to_pandas()] *)
Definition of_polars (df : Polars.DataFrame) : DataFrame :=
  map (fun ns => (fst ns, of_polars_series (snd ns))) df.

End Pandas.

(** Elements with their positions; rows are numbered from [start]. *)
Fixpoint indexed {A} (start : nat) (l : list A) : list (nat * A) :=
  match l with
  | [] => []
  | x :: l' => (start, x) :: indexed (S start) l'
  end.

(* ===================================================================== *)
(** * Schema validation (pandera) *)
(* ===================================================================== *)

Module Pandera.

Inductive Check : Type :=
| isin (allowed : list value)
| greater_than_or_equal_to (min_value : Q).

(** [pa.Column(dtype, checks, nullable, unique, coerce, required, ...)];
    [regex], [description] and [title] carry no validation. *)
Record Column : Type := {
  dtype : Pandas.dtype;
  checks : option (list Check);
  nullable : bool;
  unique : bool;
  coerce : bool;
  required : bool
}.

(** [pa.DataFrameSchema(columns, coerce, strict, ...)] *)
Record DataFrameSchema : Type := {
  columns : list (string * Column);
  schema_coerce : bool;
  strict : bool
}.

(** Why a row of the failure table is there: its [check]. *)
Inductive reason : Type :=
| column_in_dataframe            (* a required column is missing *)
| column_in_schema               (* strict: a column the schema does not know *)
| coerce_dtype (d : Pandas.dtype)   (* an element that cannot be cast to [d] *)
| wrong_dtype (d : Pandas.dtype)    (* "dtype('d')": the column is not of dtype [d] *)
| not_nullable
| check_failed (c : Check)       (* an element does not satisfy the check *)
| check_error (c : Check).       (* evaluating the check raised *)

(** One row of [SchemaErrors.failure_cases].  [fc_column] is [None] on
    the rows about the frame as a whole (a missing or an unknown column,
    whose name is then the [failure_case]); [fc_value] is the
    [failure_case] cell, left [None] where it holds the text of an
    exception; [fc_index] is [None] on the rows that are not about one
    element. *)
Record failure_case : Type := {
  fc_column : option string;
  fc_check : reason;
  fc_value : option value;
  fc_index : option nat
}.

Inductive outcome : Type :=
| Valid (validated : Pandas.DataFrame)
| SchemaErrors (failure_cases : list failure_case) (data : Pandas.DataFrame).

(** A check on one element: [None] when the comparison itself raises. *)
Definition check_element (c : Check) (v : value) : option bool :=
  match c with
  | isin allowed => Some (existsb (fun a => Builtins.py_eq a v) allowed)
  | greater_than_or_equal_to m =>
      match v with
      | VFloat FPosInf => Some true
      | VFloat FNegInf => Some false
      | _ =>
          match Builtins.as_number v with
          | Some q => Some (Qle_bool m q)
          | None => None
          end
      end
  end.

Definition not_na (iv : nat * value) : bool := negb (Pandas.isna (snd iv)).

Definition fails (c : Check) (iv : nat * value) : bool :=
  match check_element c (snd iv) with
  | Some true => false
  | _ => true
  end.

Definition evaluates (c : Check) (iv : nat * value) : bool :=
  match check_element c (snd iv) with
  | Some _ => true
  | None => false
  end.

(** One check over a column.  Missing values are left out
    ([ignore_na=True]); a check that raises gives one row for the column,
    otherwise each failing element gives a row. *)
Definition run_check (name : string) (cells : list value) (c : Check)
  : list failure_case :=
  let live := filter not_na (indexed 0 cells) in
  if forallb (evaluates c) live then
    map (fun iv => {| fc_column := Some name; fc_check := check_failed c;
                      fc_value := Some (snd iv); fc_index := Some (fst iv) |})
        (filter (fails c) live)
  else [{| fc_column := Some name; fc_check := check_error c;
           fc_value := None; fc_index := None |}].

Definition check_nullable (name : string) (spec : Column) (cells : list value)
  : list failure_case :=
  if nullable spec then []
  else map (fun iv => {| fc_column := Some name; fc_check := not_nullable;
                         fc_value := Some (snd iv); fc_index := Some (fst iv) |})
           (filter (fun iv => Pandas.isna (snd iv)) (indexed 0 cells)).

(** The dtype check: its row shows the dtype the column has. *)
Definition check_dtype (name : string) (spec : Column) (s : Pandas.series)
  : list failure_case :=
  if Pandas.dtype_eqb (Pandas.dtype_of s) (dtype spec) then []
  else [{| fc_column := Some name; fc_check := wrong_dtype (dtype spec);
           fc_value := Some (VStr (Pandas.dtype_name (Pandas.dtype_of s)));
           fc_index := None |}].

Definition checks_of (spec : Column) : list Check :=
  match checks spec with
  | Some cs => cs
  | None => []
  end.

(** The checks of one column, in the order pandera runs them: nullable,
    dtype, then the column's own checks.  [unique] is [False] on every
    column of this schema and is not modelled. *)
Definition validate_column (name : string) (spec : Column) (s : Pandas.series)
  : list failure_case :=
  check_nullable name spec (Pandas.objects s)
  ++ check_dtype name spec s
  ++ flat_map (run_check name (Pandas.objects s)) (checks_of spec).

Section Validate.

(** [series.astype(d)] between two different dtypes when the target is not
    [object]: pandas' cast, which may fail. *)
Variable astype : Pandas.dtype -> Pandas.series -> option Pandas.series.

(** Whether one element can be cast to [d] on its own (pandera's
    [coerce_value], numpy's constructor of the dtype): what pandera tries
    on every element of a column whose cast failed. *)
Variable coerce_value : Pandas.dtype -> value -> bool.

Definition coerce_series (d : Pandas.dtype) (s : Pandas.series)
  : option Pandas.series :=
  if Pandas.dtype_eqb (Pandas.dtype_of s) d then Some s
  else match d with
       | Pandas.DObject => Some (Pandas.SObject (Pandas.objects s))
       | _ => astype d s
       end.

(** The series the checks of a column run on: the coerced one, or the
    original when the schema does not coerce or the cast fails. *)
Definition checked_series (schema : DataFrameSchema) (spec : Column)
    (s : Pandas.series) : Pandas.series :=
  if schema_coerce schema || coerce spec then
    match coerce_series (dtype spec) s with
    | Some s' => s'
    | None => s
    end
  else s.

(** A cast that failed: one row for each element that cannot be cast on
    its own, with the element and its position. *)
Definition coerce_failures (schema : DataFrameSchema) (name : string)
    (spec : Column) (s : Pandas.series) : list failure_case :=
  if schema_coerce schema || coerce spec then
    match coerce_series (dtype spec) s with
    | Some _ => []
    | None =>
        map (fun iv => {| fc_column := Some name;
                          fc_check := coerce_dtype (dtype spec);
                          fc_value := Some (snd iv); fc_index := Some (fst iv) |})
            (filter (fun iv => negb (coerce_value (dtype spec) (snd iv)))
                    (indexed 0 (Pandas.objects s)))
    end
  else [].

(** A required column the frame does not have: a row about the frame,
    with the name of the column as its failure case.  The checks of the
    column are then left out. *)
Definition presence_failures (df : Pandas.DataFrame) (entry : string * Column)
  : list failure_case :=
  let (name, spec) := entry in
  match Pandas.column name df with
  | None =>
      if required spec
      then [{| fc_column := None; fc_check := column_in_dataframe;
               fc_value := Some (VStr name); fc_index := None |}]
      else []
  | Some _ => []
  end.

Definition coercion_failures (schema : DataFrameSchema) (df : Pandas.DataFrame)
    (entry : string * Column) : list failure_case :=
  let (name, spec) := entry in
  match Pandas.column name df with
  | None => []
  | Some s => coerce_failures schema name spec s
  end.

Definition column_failures (schema : DataFrameSchema) (df : Pandas.DataFrame)
    (entry : string * Column) : list failure_case :=
  let (name, spec) := entry in
  match Pandas.column name df with
  | None => []
  | Some s => validate_column name spec (checked_series schema spec s)
  end.

Definition strict_failures (schema : DataFrameSchema) (df : Pandas.DataFrame)
  : list failure_case :=
  if strict schema then
    map (fun n => {| fc_column := None; fc_check := column_in_schema;
                     fc_value := Some (VStr n); fc_index := None |})
        (filter (fun n => negb (str_in n (map fst (columns schema)))) (map fst df))
  else [].

(** Every row of the failure table, [SchemaErrors.failure_cases].  The
    table is sorted by [schema_context], descending: first the rows about
    the frame ([DataFrameSchema]), then the rows about its columns
    ([Column]), which are the rows of the casts that failed followed by
    the rows of the checks of each column, in schema order.  (pandas
    sorts with quicksort, which keeps rows of one context in the order
    they were collected only on short tables; nothing below depends on
    the order of the rows.)  The [drop_duplicates] that follows removes
    nothing when no column is declared twice or with a check twice, as in
    the schema of this program: rows then differ in their column, check
    or index. *)
Definition failures (schema : DataFrameSchema) (df : Pandas.DataFrame)
  : list failure_case :=
  (strict_failures schema df ++ flat_map (presence_failures df) (columns schema))
  ++ flat_map (coercion_failures schema df) (columns schema)
  ++ flat_map (column_failures schema df) (columns schema).

(** The frame after coercion, which is also [SchemaErrors.data]. *)
Definition coerced (schema : DataFrameSchema) (df : Pandas.DataFrame)
  : Pandas.DataFrame :=
  map (fun ns =>
         match find (fun e => String.eqb (fst ns) (fst e)) (columns schema) with
         | Some (_, spec) => (fst ns, checked_series schema spec (snd ns))
         | None => ns
         end) df.

(** [schema.validate(df, lazy=True)]: every failure is collected and
    raised at once as [SchemaErrors].  A cast that fails leaves the
    column with a dtype the dtype check refuses, so a failure always has
    a row.  (The program never validates with [lazy=False].) *)
Definition validate (schema : DataFrameSchema) (df : Pandas.DataFrame) : outcome :=
  match failures schema df with
  | [] => Valid (coerced schema df)
  | first :: rest => SchemaErrors (first :: rest) (coerced schema df)
  end.

End Validate.

End Pandera.

(* ===================================================================== *)
(** * [data.py]: the schema table *)
(* ===================================================================== *)

Definition strs_of (l : list string) : list value := map VStr l.

(** The module-level dict [checks]. *)
Definition checks : list (string * list Pandera.Check) :=
  [ ("customerID", []);
    ("gender", [Pandera.isin (strs_of ["Male"; "Female"])]);
    ("SeniorCitizen", [Pandera.isin [VInt 0; VInt 1]]);
    ("Partner", [Pandera.isin (strs_of ["Yes"; "No"])]);
    ("Dependents", [Pandera.isin (strs_of ["Yes"; "No"])]);
    ("tenure", [Pandera.greater_than_or_equal_to 0]);
    ("PhoneService", [Pandera.isin (strs_of ["No"; "Yes"])]);
    ("MultipleLines", [Pandera.isin (strs_of ["No"; "Yes"; "No phone service"])]);
    ("InternetService", [Pandera.isin (strs_of ["DSL"; "Fiber optic"; "No"])]);
    ("OnlineSecurity", [Pandera.isin (strs_of ["No"; "Yes"; "No internet service"])]);
    ("OnlineBackup", [Pandera.isin (strs_of ["Yes"; "No"; "No internet service"])]);
    ("DeviceProtection", [Pandera.isin (strs_of ["No"; "Yes"; "No internet service"])]);
    ("TechSupport", [Pandera.isin (strs_of ["No"; "Yes"; "No internet service"])]);
    ("StreamingTV", [Pandera.isin (strs_of ["No"; "Yes"; "No internet service"])]);
    ("StreamingMovies", [Pandera.isin (strs_of ["No"; "Yes"; "No internet service"])]);
    ("Contract", [Pandera.isin (strs_of ["Month-to-month"; "One year"; "Two year"])]);
    ("PaperlessBilling", [Pandera.isin (strs_of ["Yes"; "No"])]);
    ("PaymentMethod",
      [Pandera.isin (strs_of ["Electronic check"; "Mailed check";
                              "Bank transfer (automatic)";
                              "Credit card (automatic)"])]);
    ("MonthlyCharges", []);
    ("TotalCharges", []);
    ("Churn", [Pandera.isin (strs_of ["No"; "Yes"])]) ].

(** [checks.get(name)] *)
Fixpoint checks_get_in (table : list (string * list Pandera.Check)) (name : string)
  : option (list Pandera.Check) :=
  match table with
  | [] => None
  | (n, cs) :: table' =>
      if String.eqb name n then Some cs else checks_get_in table' name
  end.

Definition checks_get (name : string) : option (list Pandera.Check) :=
  checks_get_in checks name.

(** Every column of the schema is declared with [nullable=False],
    [unique=False], [coerce=False], [required=True]. *)
Definition pa_Column (dtype : Pandas.dtype) (cs : option (list Pandera.Check))
  : Pandera.Column :=
  {| Pandera.dtype := dtype; Pandera.checks := cs; Pandera.nullable := false;
     Pandera.unique := false; Pandera.coerce := false; Pandera.required := true |}.

(** [DataSchema]: its columns in source order.  [PaperlessBilling] is the
    one column declared with [checks=None]. *)
Definition DataSchema : Pandera.DataFrameSchema :=
  {| Pandera.columns :=
       [ ("customerID", pa_Column Pandas.DObject (checks_get "customerID"));
         ("gender", pa_Column Pandas.DObject (checks_get "gender"));
         ("SeniorCitizen", pa_Column Pandas.DInt64 (checks_get "SeniorCitizen"));
         ("Partner", pa_Column Pandas.DObject (checks_get "Partner"));
         ("Dependents", pa_Column Pandas.DObject (checks_get "Dependents"));
         ("tenure", pa_Column Pandas.DInt64 (checks_get "tenure"));
         ("PhoneService", pa_Column Pandas.DObject (checks_get "PhoneService"));
         ("MultipleLines", pa_Column Pandas.DObject (checks_get "MultipleLines"));
         ("InternetService", pa_Column Pandas.DObject (checks_get "InternetService"));
         ("OnlineSecurity", pa_Column Pandas.DObject (checks_get "OnlineSecurity"));
         ("OnlineBackup", pa_Column Pandas.DObject (checks_get "OnlineBackup"));
         ("DeviceProtection", pa_Column Pandas.DObject (checks_get "DeviceProtection"));
         ("TechSupport", pa_Column Pandas.DObject (checks_get "TechSupport"));
         ("StreamingTV", pa_Column Pandas.DObject (checks_get "StreamingTV"));
         ("StreamingMovies", pa_Column Pandas.DObject (checks_get "StreamingMovies"));
         ("Contract", pa_Column Pandas.DObject (checks_get "Contract"));
         ("PaperlessBilling", pa_Column Pandas.DObject None);
         ("PaymentMethod", pa_Column Pandas.DObject (checks_get "PaymentMethod"));
         ("MonthlyCharges", pa_Column Pandas.DFloat64 (checks_get "MonthlyCharges"));
         ("TotalCharges", pa_Column Pandas.DObject (checks_get "TotalCharges"));
         ("Churn", pa_Column Pandas.DObject (checks_get "Churn")) ];
     Pandera.schema_coerce := true;
     Pandera.strict := false |}.

(** The categorical columns, as the specification lists them. *)
Definition categorical_columns : list string :=
  [ "gender"; "SeniorCitizen"; "Partner"; "Dependents"; "PhoneService";
    "MultipleLines"; "InternetService"; "OnlineSecurity"; "OnlineBackup";
    "DeviceProtection"; "TechSupport"; "StreamingTV"; "StreamingMovies";
    "Contract"; "PaperlessBilling"; "PaymentMethod"; "Churn" ].

(** The allowed values of a categorical column: the [isin] list the
    [checks] table gives it. *)
Definition allowed_values (name : string) : list value :=
  match checks_get name with
  | Some [Pandera.isin allowed] => allowed
  | _ => []
  end.

(* ===================================================================== *)
(** * Schema violations, told from the frame *)
(* ===================================================================== *)

(** What can be wrong with a frame under a schema, said of its columns
    and cells rather than of the table pandera builds.  The
    specification speaks of "schema violations" and "row-level failures";
    these are the kinds the schema of this program can meet. *)
Module Violation.

Inductive t : Type :=
| Missing (name : string)
    (* a required column is not in the frame *)
| Uncoercible (name : string) (d : Pandas.dtype) (i : nat) (v : value)
    (* the column cannot be cast to [d]; element [i] is one that cannot *)
| WrongDtype (name : string) (d actual : Pandas.dtype)
    (* the column cannot be cast to [d] and keeps its own dtype *)
| Null (name : string) (i : nat) (v : value)
    (* element [i] of a column that is not nullable is missing *)
| FailedCheck (name : string) (c : Pandera.Check) (i : nat) (v : value).
    (* element [i] does not satisfy the check [c] of its column *)

Section Occurs.

Variable astype : Pandas.dtype -> Pandas.series -> option Pandas.series.
Variable coerce_value : Pandas.dtype -> value -> bool.

(** [checked d s s']: a column [s] that the schema wants of dtype [d] and
    coerces is checked as [s'].  It is kept when it has the dtype, boxed
    into objects when [d] is [object], cast by pandas otherwise, and left
    as it is when that cast fails. *)
Inductive checked (d : Pandas.dtype) (s : Pandas.series) : Pandas.series -> Prop :=
| kept : Pandas.dtype_of s = d -> checked d s s
| boxed :
    Pandas.dtype_of s <> d -> d = Pandas.DObject ->
    checked d s (Pandas.SObject (Pandas.objects s))
| cast (s' : Pandas.series) :
    Pandas.dtype_of s <> d -> d <> Pandas.DObject -> astype d s = Some s' ->
    checked d s s'
| not_cast :
    Pandas.dtype_of s <> d -> d <> Pandas.DObject -> astype d s = None ->
    checked d s s.

(** The cast of a column to [d] fails. *)
Definition cast_fails (d : Pandas.dtype) (s : Pandas.series) : Prop :=
  Pandas.dtype_of s <> d /\ d <> Pandas.DObject /\ astype d s = None.

(** The violation is there in the frame, under a schema that coerces
    the column. *)
Definition occurs (schema : Pandera.DataFrameSchema) (df : Pandas.DataFrame)
    (x : t) : Prop :=
  match x with
  | Missing name =>
      exists spec,
        In (name, spec) (Pandera.columns schema)
        /\ Pandera.required spec = true
        /\ Pandas.column name df = None
  | Uncoercible name d i v =>
      exists spec s,
        In (name, spec) (Pandera.columns schema)
        /\ Pandera.schema_coerce schema || Pandera.coerce spec = true
        /\ Pandera.dtype spec = d
        /\ Pandas.column name df = Some s
        /\ cast_fails d s
        /\ nth_error (Pandas.objects s) i = Some v
        /\ coerce_value d v = false
  | WrongDtype name d actual =>
      exists spec s,
        In (name, spec) (Pandera.columns schema)
        /\ Pandera.schema_coerce schema || Pandera.coerce spec = true
        /\ Pandera.dtype spec = d
        /\ Pandas.column name df = Some s
        /\ cast_fails d s
        /\ Pandas.dtype_of s = actual
  | Null name i v =>
      exists spec s s',
        In (name, spec) (Pandera.columns schema)
        /\ Pandera.schema_coerce schema || Pandera.coerce spec = true
        /\ Pandera.nullable spec = false
        /\ Pandas.column name df = Some s
        /\ checked (Pandera.dtype spec) s s'
        /\ nth_error (Pandas.objects s') i = Some v
        /\ Pandas.isna v = true
  | FailedCheck name c i v =>
      exists spec s s',
        In (name, spec) (Pandera.columns schema)
        /\ Pandera.schema_coerce schema || Pandera.coerce spec = true
        /\ In c (Pandera.checks_of spec)
        /\ Pandas.column name df = Some s
        /\ checked (Pandera.dtype spec) s s'
        /\ (forall j u,
              nth_error (Pandas.objects s') j = Some u ->
              Pandas.isna u = false -> Pandera.check_element c u <> None)
        /\ nth_error (Pandas.objects s') i = Some v
        /\ Pandas.isna v = false
        /\ Pandera.check_element c v = Some false
  end.

End Occurs.

(** The violation has its row in a failure table.  The row of an element
    that cannot be cast is told by its check, element and position. *)
Definition reported (x : t) (table : list Pandera.failure_case) : Prop :=
  match x with
  | Missing name =>
      In {| Pandera.fc_column := None; Pandera.fc_check := Pandera.column_in_dataframe;
            Pandera.fc_value := Some (VStr name); Pandera.fc_index := None |} table
  | Uncoercible name d i v =>
      exists column,
        In {| Pandera.fc_column := column; Pandera.fc_check := Pandera.coerce_dtype d;
              Pandera.fc_value := Some v; Pandera.fc_index := Some i |} table
  | WrongDtype name d actual =>
      In {| Pandera.fc_column := Some name; Pandera.fc_check := Pandera.wrong_dtype d;
            Pandera.fc_value := Some (VStr (Pandas.dtype_name actual));
            Pandera.fc_index := None |} table
  | Null name i v =>
      In {| Pandera.fc_column := Some name; Pandera.fc_check := Pandera.not_nullable;
            Pandera.fc_value := Some v; Pandera.fc_index := Some i |} table
  | FailedCheck name c i v =>
      In {| Pandera.fc_column := Some name; Pandera.fc_check := Pandera.check_failed c;
            Pandera.fc_value := Some v; Pandera.fc_index := Some i |} table
  end.

End Violation.

(** What the program prints. *)
Inductive printed : Type :=
| PStr (s : string)
| PLoadError (key : string) (e : exn)   (* f"Error loading {key}: {e}" *)
| PFailureCases (failure_cases : list Pandera.failure_case)
| PData (data : Pandas.DataFrame).

Definition newline : string := String (ascii_of_nat 10) EmptyString.

(* ===================================================================== *)
(** * [data.py]: the loading strategies *)
(* ===================================================================== *)

(** A CSV file as text: per column, its header and the text of its
    fields. *)
Definition csv : Type := list (string * list string).

(** What the loaders see of the outside: the local file system, the
    bucket listing of the S3 client, and polars' dtype inference. *)
Record world : Type := {
  is_dir : string -> bool;                     (* Path.is_dir() *)
  glob_csv : string -> list string;            (* list(dir.glob("*.csv")) *)
  read_text : string -> option csv;            (* the CSV at a path or URL, if it can be read *)
  list_objects_v2 : string -> option string -> list string;
                                               (* the keys under "Contents" *)
  infer_series : list string -> Polars.series  (* a column parsed with its inferred dtype *)
}.

(** A field read with dtype [pl.String]: an empty field is null. *)
Definition string_field (f : string) : option string :=
  if String.eqb f "" then None else Some f.

(** [pl.scan_csv(path, dtypes={name: pl.String for name in as_string})],
    collected. *)
Definition scan_column (w : world) (as_string : list string)
    (nf : string * list string) : string * Polars.series :=
  (fst nf,
   if str_in (fst nf) as_string
   then Polars.String_ (map string_field (snd nf))
   else infer_series w (snd nf)).

Definition scan_csv (w : world) (path : string) (as_string : list string)
  : result Polars.DataFrame :=
  match read_text w path with
  | None => Raise (OSError path)
  | Some table => Ok (map (scan_column w as_string) table)
  end.

(** [.with_columns(pl.col("TotalCharges").str.replace(pattern=" ",
    value="0").alias("TotalCharges"))] *)
Definition replace_TotalCharges (df : Polars.DataFrame) : result Polars.DataFrame :=
  match Polars.column "TotalCharges" df with
  | Some (Polars.String_ l) =>
      Ok (Polars.with_column "TotalCharges"
            (Polars.String_ (map (option_map (Polars.str_replace " " "0")) l)) df)
  | Some _ => Raise SchemaError
  | None => Raise (ColumnNotFoundError "TotalCharges")
  end.

(** The frame one CSV gives once it is scanned and collected: the body of
    the [try] in the S3 strategy, and what the lazy frame [_read(path)] of
    the dir strategy evaluates to. *)
Definition _read (w : world) (path : string) : result Polars.DataFrame :=
  df <- scan_csv w path ["TotalCharges"] ;;
  replace_TotalCharges df.

Fixpoint map_result {A B} (f : A -> result B) (l : list A) : result (list B) :=
  match l with
  | [] => Ok []
  | x :: l' =>
      y <- f x ;;
      ys <- map_result f l' ;;
      Ok (y :: ys)
  end.

Record DirDataLoaderStrategy : Type := { dir : string }.

(** [DirDataLoaderStrategy.__call__].  The message of the first
    exception formats the builtin [dir], not [self.dir].

    [_read] returns a lazy frame.  [list(map(_read, paths))] builds one
    for each path, in order: [scan_csv] opens its file then, so a file
    that cannot be read ends the call before anything is evaluated.  The
    one [.collect()] on the concatenation then runs the [with_columns]
    step of every frame and stacks the results. *)
Definition DirDataLoaderStrategy_call (w : world) (self : DirDataLoaderStrategy)
  : result Polars.DataFrame :=
  if is_dir w (dir self) then
    let paths := glob_csv w (dir self) in
    if (List.length paths =? 0)%nat then
      Raise (Exception "No `.csv` present in the directory <built-in function dir>")
    else
      scanned <- map_result (fun path => scan_csv w path ["TotalCharges"]) paths ;;
      frames <- map_result replace_TotalCharges scanned ;;
      Polars.concat frames [Polars.How_vertical]
  else Raise (Exception "Path provided is not a directory").

Record AwsS3DataLoaderStrategy : Type := {
  bucket_name : string;
  folder_path : string;
  session : string          (* the boto3 session, by name *)
}.

(** [key.endswith(suffix)] *)
Definition endswith (key suffix : string) : bool :=
  let n := String.length key in
  let m := String.length suffix in
  (m <=? n)%nat && String.eqb (substring (n - m) m key) suffix.

(** The [for obj in objects.get("Contents", [])] loop: the frames loaded
    so far and what was printed. *)
Fixpoint s3_loop (w : world) (s3_url : string) (keys : list string)
    (dataframes : list Polars.DataFrame) (out : list printed)
  : list Polars.DataFrame * list printed :=
  match keys with
  | [] => (dataframes, out)
  | key :: keys' =>
      if endswith key ".csv" then
        let file_url := String.append s3_url (String.append "/" key) in
        match _read w file_url with
        | Ok dataframe =>
            s3_loop w s3_url keys' (dataframes ++ [dataframe])
              (out ++ [PStr (String.append "Loaded: " key)])
        | Raise e =>
            s3_loop w s3_url keys' dataframes (out ++ [PLoadError key e])
        end
      else s3_loop w s3_url keys' dataframes out
  end.

Definition s3_location (w : world) (self : AwsS3DataLoaderStrategy)
  : string * list string :=
  if String.eqb (folder_path self) "" then
    (String.append "s3://" (bucket_name self),
     list_objects_v2 w (bucket_name self) None)
  else
    (String.append "s3://"
       (String.append (bucket_name self) (String.append "/" (folder_path self))),
     list_objects_v2 w (bucket_name self) (Some (folder_path self))).

(** [AwsS3DataLoaderStrategy.__call__]: what it prints and how it ends. *)
Definition AwsS3DataLoaderStrategy_call (w : world) (self : AwsS3DataLoaderStrategy)
  : list printed * result Polars.DataFrame :=
  let (s3_url, keys) := s3_location w self in
  let (dataframes, out) := s3_loop w s3_url keys [] [] in
  if (List.length dataframes =? 0)%nat then
    (out, Raise (Exception "No data found. Check the contents in the bucket and folder"))
  else (out, Polars.concat dataframes [Polars.Ignore_index]).

(** A loading strategy, as [DataLoaderStrategyFactory] builds them. *)
Inductive strategy : Type :=
| Dir (self : DirDataLoaderStrategy)
| AwsS3 (self : AwsS3DataLoaderStrategy).

Definition strategy_call (w : world) (s : strategy)
  : list printed * result Polars.DataFrame :=
  match s with
  | Dir self => ([], DirDataLoaderStrategy_call w self)
  | AwsS3 self => AwsS3DataLoaderStrategy_call w self
  end.

(** ** Describing what a loader finds and returns *)

Module Loading.

(** The files a strategy tries to read, in order. *)
Definition sources (w : world) (s : strategy) : list string :=
  match s with
  | Dir self => glob_csv w (dir self)
  | AwsS3 self =>
      let (s3_url, keys) := s3_location w self in
      map (fun key => String.append s3_url (String.append "/" key))
          (filter (fun key => endswith key ".csv") keys)
  end.

(** The strategy finds no matching CSV: an existing directory without
    [.csv] files, or a bucket listing none of whose [.csv] objects loads. *)
Definition finds_no_csv (w : world) (s : strategy) : bool :=
  match s with
  | Dir self => is_dir w (dir self) && (List.length (sources w s) =? 0)%nat
  | AwsS3 _ => forallb (fun url => raises (_read w url)) (sources w s)
  end.

(** The frames that do load, in order. *)
Fixpoint loaded (w : world) (urls : list string) : list Polars.DataFrame :=
  match urls with
  | [] => []
  | url :: urls' =>
      match _read w url with
      | Ok df => df :: loaded w urls'
      | Raise _ => loaded w urls'
      end
  end.

(** The first space of a string replaced by "0" (what the code does). *)
Definition replace_first_space (s : string) : string :=
  Polars.str_replace " " "0" s.

(** Every space of a string replaced by "0" (what the specification
    says). *)
Fixpoint replace_every_space (s : string) : string :=
  match s with
  | EmptyString => EmptyString
  | String c s' =>
      if Ascii.eqb c " " then String "0" (replace_every_space s')
      else String c (replace_every_space s')
  end.

Fixpoint has_space (s : string) : bool :=
  match s with
  | EmptyString => false
  | String c s' => Ascii.eqb c " " || has_space s'
  end.

(** The frame a CSV is expected to load as: [TotalCharges] as strings with
    the first space of each value replaced, the other columns as polars
    infers them. *)
Definition expected_column (w : world) (nf : string * list string)
  : string * Polars.series :=
  (fst nf,
   if String.eqb (fst nf) "TotalCharges"
   then Polars.String_
          (map (fun f => option_map replace_first_space (string_field f)) (snd nf))
   else infer_series w (snd nf)).

Definition expected_frame (w : world) (table : csv) : Polars.DataFrame :=
  map (expected_column w) table.

End Loading.

Module LoadSamples.

(** Every column read as text: enough for the sample below. *)
Definition infer_text (fields : list string) : Polars.series :=
  Polars.String_ (map string_field fields).

Definition telco_csv : csv :=
  [ ("customerID", ["7590-VHVEG"; "4472-LVYGI"; "0000-AAAAA"]);
    ("TotalCharges", ["29.85"; " "; "1 2 3"]);
    ("Churn", ["No"; "No"; "Yes"]) ].

(** A directory [data] holding one CSV, an empty directory [empty], a
    bucket [churn] holding a text file and a CSV that cannot be read, and
    a bucket [telco] holding the CSV of the directory. *)
Definition sample_world : world :=
  {| is_dir := fun p => String.eqb p "data" || String.eqb p "empty";
     glob_csv := fun p => if String.eqb p "data" then ["data/telco.csv"] else [];
     read_text := fun p =>
       if String.eqb p "data/telco.csv" || String.eqb p "s3://telco/telco.csv"
       then Some telco_csv else None;
     list_objects_v2 := fun bucket prefix =>
       if String.eqb bucket "churn" then ["raw/readme.txt"; "raw/broken.csv"]
       else if String.eqb bucket "telco" then ["telco.csv"]
       else [];
     infer_series := infer_text |}.

Definition data_dir : strategy := Dir {| dir := "data" |}.
Definition empty_dir : strategy := Dir {| dir := "empty" |}.
Definition churn_bucket : strategy :=
  AwsS3 {| bucket_name := "churn"; folder_path := "raw"; session := "default" |}.
Definition telco_bucket : strategy :=
  AwsS3 {| bucket_name := "telco"; folder_path := ""; session := "default" |}.

End LoadSamples.

(** ** Sample frames *)

Module Frames.

Definition text (l : list string) : Polars.series :=
  Polars.String_ (map Some l).
Definition ints (l : list Z) : Polars.series :=
  Polars.Int64 (map Some l).
Definition floats (l : list Q) : Polars.series :=
  Polars.Float64 (map (fun q => Some (FFin q)) l).

(** Two customers; [gender] and [PaperlessBilling] are left open. *)
Definition telco (gender PaperlessBilling : list string) : Polars.DataFrame :=
  [ ("customerID", text ["7590-VHVEG"; "5575-GNVDE"]);
    ("gender", text gender);
    ("SeniorCitizen", ints [0; 1]%Z);
    ("Partner", text ["Yes"; "No"]);
    ("Dependents", text ["No"; "No"]);
    ("tenure", ints [1; 34]%Z);
    ("PhoneService", text ["No"; "Yes"]);
    ("MultipleLines", text ["No phone service"; "No"]);
    ("InternetService", text ["DSL"; "DSL"]);
    ("OnlineSecurity", text ["No"; "Yes"]);
    ("OnlineBackup", text ["Yes"; "No"]);
    ("DeviceProtection", text ["No"; "Yes"]);
    ("TechSupport", text ["No"; "No"]);
    ("StreamingTV", text ["No"; "No"]);
    ("StreamingMovies", text ["No"; "No"]);
    ("Contract", text ["Month-to-month"; "One year"]);
    ("PaperlessBilling", text PaperlessBilling);
    ("PaymentMethod", text ["Electronic check"; "Mailed check"]);
    ("MonthlyCharges", floats [597 # 20; 1139 # 20]);
    ("TotalCharges", text ["29.85"; "1889.5"]);
    ("Churn", text ["No"; "Yes"]) ].

Definition valid : Polars.DataFrame := telco ["Female"; "Male"] ["Yes"; "No"].

(** A value outside ["Yes"; "No"] in [PaperlessBilling], all else valid. *)
Definition paperless_bad : Polars.DataFrame :=
  telco ["Female"; "Male"] ["Maybe"; "No"].

(** Both rows hold a [gender] outside ["Male"; "Female"]. *)
Definition gender_bad : Polars.DataFrame :=
  telco ["F"; "M"] ["Yes"; "No"].

(** A cast that always fails: enough where no column needs one. *)
Definition no_astype (d : Pandas.dtype) (s : Pandas.series) : option Pandas.series :=
  None.

(** No element can be cast on its own either. *)
Definition no_coerce_value (d : Pandas.dtype) (v : value) : bool := false.

End Frames.

(* ===================================================================== *)
(** * Effects: a log of what was done, then a result *)
(* ===================================================================== *)

Module Log.

(** A computation that leaves entries of type [E] behind (lines printed,
    files written, tasks run) and ends in a value or an exception. *)
Definition t (E A : Type) : Type := (list E * result A)%type.

Definition ret {E A} (a : A) : t E A := ([], Ok a).

Definition emit {E} (e : E) : t E unit := ([e], Ok tt).

Definition lift {E A} (r : result A) : t E A := ([], r).

Definition bind {E A B} (c : t E A) (k : A -> t E B) : t E B :=
  match c with
  | (log, Ok a) => let (log', r) := k a in (log ++ log', r)
  | (log, Raise e) => (log, Raise e)
  end.

End Log.

Notation "x <~ c ;; k" := (Log.bind c (fun x => k))
  (at level 61, c at next level, right associativity).
Notation "c ;;~ k" := (Log.bind c (fun _ => k))
  (at level 61, right associativity).

(* ===================================================================== *)
(** * Dataclasses and [TransformerOutput] *)
(* ===================================================================== *)

(** Instances of the classes [@dataclass] builds, as Python has them: an
    object is its class and its instance dictionary, objects live in a
    heap and are referred to by their position in it. *)
Module Dataclasses.

(** A class made by [@dataclass(frozen=..)]: its fields in the order of
    the class body. *)
Record dataclass : Type := {
  cls_name : string;
  cls_fields : list string;
  cls_frozen : bool
}.

Section Instances.

(** What an attribute holds. *)
Variable V : Type.

Record instance : Type := {
  type_of : dataclass;
  attrs : list (string * V)        (* the instance [__dict__], in insertion order *)
}.

Fixpoint dict_get (name : string) (d : list (string * V)) : option V :=
  match d with
  | [] => None
  | (n, v) :: d' => if String.eqb name n then Some v else dict_get name d'
  end.

(** [d[name] = v]: the entry is rebound where it stands, a new one goes to
    the end. *)
Fixpoint dict_set (name : string) (v : V) (d : list (string * V))
  : list (string * V) :=
  match d with
  | [] => [(name, v)]
  | (n, u) :: d' =>
      if String.eqb name n then (n, v) :: d' else (n, u) :: dict_set name v d'
  end.

(** [del d[name]] *)
Fixpoint dict_del (name : string) (d : list (string * V)) : list (string * V) :=
  match d with
  | [] => []
  | (n, u) :: d' =>
      if String.eqb name n then d' else (n, u) :: dict_del name d'
  end.

(** [object.__setattr__(obj, name, v)]: binds the attribute, whatever the
    class of the object says. *)
Definition object_setattr (obj : instance) (name : string) (v : V) : instance :=
  {| type_of := type_of obj; attrs := dict_set name v (attrs obj) |}.

(** [object.__delattr__(obj, name)] *)
Definition object_delattr (obj : instance) (name : string) : result instance :=
  match dict_get name (attrs obj) with
  | Some _ => Ok {| type_of := type_of obj; attrs := dict_del name (attrs obj) |}
  | None => Raise (AttributeError name)
  end.

(** [obj.name = v] and [setattr(obj, name, v)] call the [__setattr__] of
    the class.  The one [@dataclass(frozen=True)] generates raises
    [FrozenInstanceError] for an instance of the class itself, whatever
    the name; without [frozen] the class inherits [object.__setattr__]. *)
Definition setattr (obj : instance) (name : string) (v : V) : result instance :=
  if cls_frozen (type_of obj) then Raise (FrozenInstanceError name)
  else Ok (object_setattr obj name v).

(** [del obj.name] and [delattr(obj, name)], likewise. *)
Definition delattr (obj : instance) (name : string) : result instance :=
  if cls_frozen (type_of obj) then Raise (FrozenInstanceError name)
  else object_delattr obj name.

(** [obj.name] *)
Definition getattr (obj : instance) (name : string) : result V :=
  match dict_get name (attrs obj) with
  | Some v => Ok v
  | None => Raise (AttributeError name)
  end.

(** [cls(args)]: the generated [__init__] binds each field to its
    argument, in order; in a frozen class it does so through
    [object.__setattr__], the class's own [__setattr__] being closed. *)
Definition init (cls : dataclass) (args : list V) : result instance :=
  if (List.length args =? List.length (cls_fields cls))%nat then
    Ok (fold_left (fun self fa => object_setattr self (fst fa) (snd fa))
                  (combine (cls_fields cls) args)
                  {| type_of := cls; attrs := [] |})
  else Raise (TypeError "__init__() got the wrong number of arguments").

(** Statements that act on the objects of a heap. *)
Inductive statement : Type :=
| Construct (cls : dataclass) (args : list V)            (* cls(args) *)
| Read (obj : nat) (name : string)                       (* obj.name *)
| Assign (obj : nat) (name : string) (v : V)             (* obj.name = v *)
| Delete (obj : nat) (name : string)                     (* del obj.name *)
| ObjectSetattr (obj : nat) (name : string) (v : V)      (* object.__setattr__(obj, name, v) *)
| ObjectDelattr (obj : nat) (name : string)              (* object.__delattr__(obj, name) *)
| DictSetitem (obj : nat) (name : string) (v : V).       (* obj.__dict__[name] = v *)

(** The statements that go through the class of the object: all but the
    two calls of the methods of [object] and the write to the instance
    dictionary. *)
Definition ordinary (st : statement) : bool :=
  match st with
  | ObjectSetattr _ _ _ | ObjectDelattr _ _ | DictSetitem _ _ _ => false
  | _ => true
  end.

Fixpoint heap_set (heap : list instance) (obj : nat) (o : instance)
  : list instance :=
  match heap, obj with
  | [], _ => []
  | _ :: rest, O => o :: rest
  | x :: rest, S n => x :: heap_set rest n o
  end.

(** A statement on an object rebinds the object in the heap. *)
Definition on_object (heap : list instance) (obj : nat) (name : string)
    (f : instance -> result instance) : result (list instance) :=
  match nth_error heap obj with
  | Some o =>
      o' <- f o ;;
      Ok (heap_set heap obj o')
  | None => Raise (AttributeError name)
  end.

Definition exec (heap : list instance) (st : statement)
  : result (list instance) :=
  match st with
  | Construct cls args =>
      o <- init cls args ;;
      Ok (heap ++ [o])
  | Read obj name =>
      on_object heap obj name (fun o => getattr o name ;;; Ok o)
  | Assign obj name v => on_object heap obj name (fun o => setattr o name v)
  | Delete obj name => on_object heap obj name (fun o => delattr o name)
  | ObjectSetattr obj name v =>
      on_object heap obj name (fun o => Ok (object_setattr o name v))
  | ObjectDelattr obj name =>
      on_object heap obj name (fun o => object_delattr o name)
  | DictSetitem obj name v =>
      on_object heap obj name (fun o => Ok (object_setattr o name v))
  end.

(** A run of statements, each under its own [try]: the heap at the end
    and the exceptions met. *)
Fixpoint run (heap : list instance) (prog : list statement)
  : list instance * list exn :=
  match prog with
  | [] => (heap, [])
  | st :: prog' =>
      match exec heap st with
      | Ok heap' => run heap' prog'
      | Raise e => let (final, es) := run heap prog' in (final, e :: es)
      end
  end.

End Instances.

Arguments Construct {V} cls args.
Arguments Read {V} obj name.
Arguments Assign {V} obj name v.
Arguments Delete {V} obj name.
Arguments ObjectSetattr {V} obj name v.
Arguments ObjectDelattr {V} obj name.
Arguments DictSetitem {V} obj name v.

End Dataclasses.

(** [@dataclass class DirDataLoaderStrategy]: not frozen, its [__call__]
    rebinds [self.dir]. *)
Definition DirDataLoaderStrategy_class : Dataclasses.dataclass :=
  {| Dataclasses.cls_name := "DirDataLoaderStrategy";
     Dataclasses.cls_fields := ["dir"];
     Dataclasses.cls_frozen := false |}.

(** [@dataclass(frozen=True) class TransformerOutput] *)
Definition TransformerOutput_class : Dataclasses.dataclass :=
  {| Dataclasses.cls_name := "TransformerOutput";
     Dataclasses.cls_fields := ["X_train"; "X_test"; "y_train"; "y_test"];
     Dataclasses.cls_frozen := true |}.

Section TransformerOutputClass.

(** [t.Union[np.ndarray, spmatrix]] *)
Variable ndarray : Type.

(** A [TransformerOutput] by its four fields. *)
Record TransformerOutput : Type := {
  X_train : ndarray;
  X_test : ndarray;
  y_train : ndarray;
  y_test : ndarray
}.

(** The object [TransformerOutput(X_train, X_test, y_train, y_test)]
    builds. *)
Definition TransformerOutput_object (t : TransformerOutput)
  : Dataclasses.instance ndarray :=
  {| Dataclasses.type_of := TransformerOutput_class;
     Dataclasses.attrs :=
       [ ("X_train", X_train t); ("X_test", X_test t);
         ("y_train", y_train t); ("y_test", y_test t) ] |}.

(** What [DataEngine.transform] does with its bundle, as statements on
    the heap: it constructs it, reads [X_train] and [y_train] for the
    first [np.savez], [X_test] and [y_test] for the second, and returns
    it.  [bundle] is the place the new object takes. *)
Definition transform_statements (t : TransformerOutput) (bundle : nat)
  : list (Dataclasses.statement ndarray) :=
  [ Dataclasses.Construct TransformerOutput_class
      [X_train t; X_test t; y_train t; y_test t];
    Dataclasses.Read bundle "X_train";
    Dataclasses.Read bundle "y_train";
    Dataclasses.Read bundle "X_test";
    Dataclasses.Read bundle "y_test" ].

End TransformerOutputClass.

(* ===================================================================== *)
(** * [sklearn.model_selection.train_test_split] *)
(* ===================================================================== *)

Module Sklearn.

Fixpoint insert_sorted (x : string) (l : list string) : list string :=
  match l with
  | [] => [x]
  | y :: l' => if String.leb x y then x :: y :: l' else y :: insert_sorted x l'
  end.

(** [np.unique(y)]: the distinct labels, sorted. *)
Fixpoint unique (labels : list string) : list string :=
  match labels with
  | [] => []
  | x :: l' =>
      let u := unique l' in
      if str_in x u then u else insert_sorted x u
  end.

(** The positions holding a given label, in increasing order. *)
Definition positions_of (labels : list string) (c : string) : list nat :=
  map fst (filter (fun il => String.eqb (snd il) c) (indexed 0 labels)).

Definition sum (l : list nat) : nat := fold_right Nat.add 0%nat l.

Fixpoint minimum (l : list nat) : nat :=
  match l with
  | [] => 0
  | [x] => x
  | x :: l' => Nat.min x (minimum l')
  end.

(** [a.take(indices, mode="clip")]: a position past the end reads the
    last element. *)
Definition take_clip (a : list nat) (indices : list nat) : list nat :=
  map (fun i => nth (Nat.min i (List.length a - 1)) a 0%nat) indices.

(** The label of each row of [y], as text: [" ".join(row.astype("str"))]
    over the one column of the frame.  A string column gives its strings
    ("None" for a null). *)
Definition label_text (o : option string) : string :=
  match o with
  | Some s => s
  | None => "None"
  end.

Section ModelSelection.

(** [ceil(test_size * n_samples)], evaluated in double precision. *)
Variable ceil_mul : pyfloat -> nat -> Z.

(** [rng.permutation(n)] for the generator seeded with [random_state], at
    its [draw]-th use. *)
Variable rng_permutation : Z -> nat -> nat -> list nat.

(** [_approximate_mode(class_counts, n_draws, rng)], likewise. *)
Variable approximate_mode : Z -> nat -> list nat -> nat -> list nat.

(** The text of the numbers of a numeric label column. *)
Variable number_text : Polars.series -> list string.

Definition labels_of (y : Polars.DataFrame) : list string :=
  match y with
  | [(_, Polars.String_ l)] => map label_text l
  | [(_, s)] => number_text s
  | _ => []
  end.

(** [_validate_shuffle_split(n_samples, test_size, train_size=None)]:
    the sizes of the two parts, [(n_train, n_test)]. *)
Definition validate_shuffle_split (n_samples : nat) (test_size : value)
  : result (nat * nat) :=
  n_test <-
    match test_size with
    | VFloat (FFin q) =>
        if Qle_bool q 0 || Qle_bool 1 q
        then Raise (ValueError "test_size should be in the (0, 1) range")
        else Ok (ceil_mul (FFin q) n_samples)
    | VInt z =>
        if (Z.of_nat n_samples <=? z)%Z || (z <=? 0)%Z
        then Raise (ValueError "test_size should be positive and smaller than the number of samples")
        else Ok z
    | VNone => Ok (ceil_mul (FFin (1 # 4)) n_samples)   (* default_test_size=0.25 *)
    | _ => Raise (ValueError "The 'test_size' parameter of train_test_split must be a float, an int or None")
    end ;;
  let n_train := (Z.of_nat n_samples - n_test)%Z in
  if (n_train =? 0)%Z
  then Raise (ValueError "the resulting train set will be empty")
  else if (n_test <=? 0)%Z || (Z.of_nat n_samples <=? n_test)%Z
  then (* the splitter checks the two integer sizes once more *)
    Raise (ValueError "test_size should be positive and smaller than the number of samples")
  else Ok (Z.to_nat n_train, Z.to_nat n_test).

(** [ShuffleSplit._iter_indices]: the first split, [(train, test)]. *)
Definition shuffle_split (random_state : Z) (n_samples n_train n_test : nat)
  : list nat * list nat :=
  let permutation := rng_permutation random_state 0 n_samples in
  let ind_test := firstn n_test permutation in
  let ind_train := firstn n_train (skipn n_test permutation) in
  (ind_train, ind_test).

(** The loop over the classes of [StratifiedShuffleSplit._iter_indices]:
    class [i] is shuffled at draw [draw + i] and gives its first [n_i]
    rows to the train part and the next [t_i] to the test part. *)
Fixpoint stratified_classes (random_state : Z) (draw : nat)
    (class_indices : list (list nat)) (n_i t_i : list nat)
  : list nat * list nat :=
  match class_indices, n_i, t_i with
  | indices :: rest, n :: n_rest, t :: t_rest =>
      let permutation := rng_permutation random_state draw (List.length indices) in
      let perm_indices_class_i := take_clip indices permutation in
      let (train, test) := stratified_classes random_state (S draw) rest n_rest t_rest in
      (firstn n perm_indices_class_i ++ train,
       firstn t (skipn n perm_indices_class_i) ++ test)
  | _, _, _ => ([], [])
  end.

(** [rng.permutation(l)]: the list in a shuffled order. *)
Definition shuffled (random_state : Z) (draw : nat) (l : list nat) : list nat :=
  take_clip l (rng_permutation random_state draw (List.length l)).

(** [StratifiedShuffleSplit._iter_indices]: the first split. *)
Definition stratified_shuffle_split (random_state : Z) (labels : list string)
    (n_train n_test : nat) : result (list nat * list nat) :=
  let classes := unique labels in
  let n_classes := List.length classes in
  let class_indices := map (positions_of labels) classes in
  let class_counts := map (@List.length nat) class_indices in
  if (minimum class_counts <? 2)%nat then
    Raise (ValueError "The least populated class in y has only 1 member")
  else if (n_train <? n_classes)%nat then
    Raise (ValueError "The train_size should be greater or equal to the number of classes")
  else if (n_test <? n_classes)%nat then
    Raise (ValueError "The test_size should be greater or equal to the number of classes")
  else
    let n_i := approximate_mode random_state 0 class_counts n_train in
    let class_counts_remaining := map (fun cn => (fst cn - snd cn)%nat)
                                      (combine class_counts n_i) in
    let t_i := approximate_mode random_state 1 class_counts_remaining n_test in
    let (train, test) := stratified_classes random_state 2 class_indices n_i t_i in
    Ok (shuffled random_state (2 + n_classes) train,
        shuffled random_state (3 + n_classes) test).

(** The seeds numpy's generator takes: an int of [[0, 2**32 - 1]]. *)
Definition valid_seed (random_state : Z) : bool :=
  (0 <=? random_state)%Z && (random_state <=? 4294967295)%Z.

(** [train_test_split(X, y, test_size=.., random_state=.., stratify=..)]
    with the default [shuffle=True]: [X_train, X_test, y_train, y_test].
    The parameters are validated at the call: an int [random_state]
    outside the range of a seed is refused ([InvalidParameterError], a
    [ValueError]). *)
Definition train_test_split (X y : Polars.DataFrame) (test_size : value)
    (random_state : Z) (stratify : option Polars.DataFrame)
  : result (Polars.DataFrame * Polars.DataFrame * Polars.DataFrame * Polars.DataFrame) :=
  let n_samples := Polars.height X in
  if negb (valid_seed random_state) then
    Raise (ValueError "The 'random_state' parameter of train_test_split must be an int in the range [0, 4294967295]")
  else if negb (n_samples =? Polars.height y)%nat then
    Raise (ValueError "Found input variables with inconsistent numbers of samples")
  else
    sizes <- validate_shuffle_split n_samples test_size ;;
    let (n_train, n_test) := sizes : nat * nat in
    split <-
      match stratify with
      | Some labels =>
          stratified_shuffle_split random_state (labels_of labels) n_train n_test
      | None => Ok (shuffle_split random_state n_samples n_train n_test)
      end ;;
    let (train, test) := split : list nat * list nat in
    Ok (Polars.take train X, Polars.take test X,
        Polars.take train y, Polars.take test y).

End ModelSelection.

End Sklearn.

(* ===================================================================== *)
(** * [data.py]: [DataEngine] *)
(* ===================================================================== *)

(** [if v:] *)
Definition truthy (v : value) : bool :=
  match v with
  | VNone => false
  | VBool b => b
  | VInt z => negb (z =? 0)%Z
  | VFloat (FFin q) => negb (Qeq_bool q 0)
  | VFloat _ => true
  | VStr s => negb (String.eqb s "")
  | VList l => negb (List.length l =? 0)%nat
  | VBox m => negb (List.length m =? 0)%nat
  end.

(** A file written under the artifact directory. *)
Inductive written (preprocessor ndarray : Type) : Type :=
| Pickle (path : string) (obj : preprocessor)              (* cpickle.dump *)
| Savez (path : string) (features labels : ndarray).       (* np.savez *)

Arguments Pickle {preprocessor ndarray} path obj.
Arguments Savez {preprocessor ndarray} path features labels.

Module DataEngine.

Section Validate.

Variable astype : Pandas.dtype -> Pandas.series -> option Pandas.series.
Variable coerce_value : Pandas.dtype -> value -> bool.

(** [DataEngine.validate(data)]: what it prints and how it ends.  Only
    [SchemaErrors] is caught, which is what pandera raises for a failed
    validation with [lazy=True]. *)
Definition validate (data : Polars.DataFrame)
  : Log.t printed Polars.DataFrame :=
  match Pandera.validate astype coerce_value DataSchema (Pandas.of_polars data) with
  | Pandera.SchemaErrors failure_cases err_data =>
      ([ PStr "Schema errors and failure cases:";
         PFailureCases failure_cases;
         PStr (String.append newline "DataFrame object that failed validation:");
         PData err_data ],
       Raise (Exception "Schema errors and failure cases"))
  | Pandera.Valid _ => ([], Ok data)
  end.

End Validate.

Section Split.

Variable ceil_mul : pyfloat -> nat -> Z.
Variable rng_permutation : Z -> nat -> nat -> list nat.
Variable approximate_mode : Z -> nat -> list nat -> nat -> list nat.
Variable number_text : Polars.series -> list string.

(** [DataEngine.split(config, data, seed)] *)
Definition split (config : value) (data : Polars.DataFrame) (seed : Z)
  : result (Polars.DataFrame * Polars.DataFrame * Polars.DataFrame * Polars.DataFrame) :=
  X <- Polars.drop "Churn" data ;;
  y <- Polars.select "Churn" data ;;
  stratify <- Box.getattr config "stratify" ;;
  if truthy stratify then
    ratio <- Box.getattr config "ratio" ;;
    Sklearn.train_test_split ceil_mul rng_permutation approximate_mode number_text
      X y ratio seed (Some y)
  else
    ratio <- Box.getattr config "ratio" ;;
    Sklearn.train_test_split ceil_mul rng_permutation approximate_mode number_text
      X y ratio seed None.

End Split.

Section Transform.

Variables preprocessor ndarray : Type.

(** [ColumnTransformer([...scale, ...dummy, ...ordinal]).fit(frame)] *)
Variable fit_features : value -> value -> value -> Pandas.DataFrame -> result preprocessor.
(** [LabelBinarizer().fit(frame)] *)
Variable fit_labels : Pandas.DataFrame -> result preprocessor.
(** [preprocessor.transform(frame)] *)
Variable transform_with : preprocessor -> Pandas.DataFrame -> result ndarray.
(** [_save_to_pickle(path_, preprocessor)]: [open(str(path), "wb")] and
    [cpickle.dump], either of which may raise. *)
Variable save_to_pickle : string -> preprocessor -> result unit.
(** [np.savez(path, features=.., labels=..)], which may raise. *)
Variable savez : string -> ndarray -> ndarray -> result unit.

Definition path_join (dir name : string) : string :=
  String.append dir (String.append "/" name).

(** A write, entered in the log once it is done; one that raises ends
    the run and is not entered (what it leaves of its file is not
    modelled). *)
Definition write (done : written preprocessor ndarray) (r : result unit)
  : Log.t (written preprocessor ndarray) unit :=
  Log.lift r ;;~ Log.emit done.

(** [DataEngine.transform(config, X_train, X_test, y_train, y_test,
    artifact_dir)]: the files it writes and the bundle it returns.  The
    four frames are named [frame_*] here, the fields of the bundle keep
    the names [X_train], [X_test], [y_train], [y_test]. *)
Definition transform (config : value)
    (frame_X_train frame_X_test frame_y_train frame_y_test : Polars.DataFrame)
    (artifact_dir : string)
  : Log.t (written preprocessor ndarray) (TransformerOutput ndarray) :=
  scale <~ Log.lift (Box.getattr config "scale") ;;
  dummy <~ Log.lift (Box.getattr config "dummy") ;;
  ordinal <~ Log.lift (Box.getattr config "ordinal") ;;
  feature_transformer <~
    Log.lift (fit_features scale dummy ordinal (Pandas.of_polars frame_X_train)) ;;
  label_transformer <~ Log.lift (fit_labels (Pandas.of_polars frame_y_train)) ;;
  write (Pickle (path_join artifact_dir "feature_transformer_.pkl")
           feature_transformer)
        (save_to_pickle (path_join artifact_dir "feature_transformer_.pkl")
           feature_transformer) ;;~
  write (Pickle (path_join artifact_dir "label_binarizer.pkl")
           label_transformer)
        (save_to_pickle (path_join artifact_dir "label_binarizer.pkl")
           label_transformer) ;;~
  a <~ Log.lift (transform_with feature_transformer (Pandas.of_polars frame_X_train)) ;;
  b <~ Log.lift (transform_with feature_transformer (Pandas.of_polars frame_X_test)) ;;
  c <~ Log.lift (transform_with label_transformer (Pandas.of_polars frame_y_train)) ;;
  d <~ Log.lift (transform_with label_transformer (Pandas.of_polars frame_y_test)) ;;
  let transformed_dataset :=
    {| X_train := a; X_test := b; y_train := c; y_test := d |} in
  write (Savez (path_join artifact_dir "train_dataset")
           (X_train transformed_dataset) (y_train transformed_dataset))
        (savez (path_join artifact_dir "train_dataset")
           (X_train transformed_dataset) (y_train transformed_dataset)) ;;~
  write (Savez (path_join artifact_dir "test_dataset")
           (X_test transformed_dataset) (y_test transformed_dataset))
        (savez (path_join artifact_dir "test_dataset")
           (X_test transformed_dataset) (y_test transformed_dataset)) ;;~
  Log.ret transformed_dataset.

End Transform.

End DataEngine.

(* ===================================================================== *)
(** * [engine.py]: the tasks and the flow *)
(* ===================================================================== *)

Module Engine.

(** The tasks, by the [name] their [@task] decorator gives them. *)
Inductive task : Type :=
| setup_pipeline_task        (* "setup_pipeline" *)
| data_loader_task           (* "data_loader" *)
| data_validator_task        (* "data_validator" *)
| data_split_task            (* "data_split" *)
| data_transformer_task      (* "data_transformer" *)
| train_models_task          (* "train_models" *)
| tune_models_task           (* "tune_models" *)
| make_plots_and_viz_task    (* "make_plots_and_viz" *)
| push_artifacts_task.       (* "push_artifacts" *)

Definition task_eqb (a b : task) : bool :=
  match a, b with
  | setup_pipeline_task, setup_pipeline_task
  | data_loader_task, data_loader_task
  | data_validator_task, data_validator_task
  | data_split_task, data_split_task
  | data_transformer_task, data_transformer_task
  | train_models_task, train_models_task
  | tune_models_task, tune_models_task
  | make_plots_and_viz_task, make_plots_and_viz_task
  | push_artifacts_task, push_artifacts_task => true
  | _, _ => false
  end.

(** What a flow run leaves behind: the task runs it starts, the further
    attempts of a task with [retries], and the lines of its logger. *)
Inductive event : Type :=
| Run (t : task)
| Retry (t : task)
| Info (msg : string).

(** The task runs of a log, in order. *)
Fixpoint runs (log : list event) : list task :=
  match log with
  | [] => []
  | Run t :: log' => t :: runs log'
  | _ :: log' => runs log'
  end.

(** Further attempts of a failed task; the body is a function of its
    arguments, so an attempt ends as the one before. *)
Fixpoint attempts {A} (name : task) (retries : nat) (body : result A)
  : Log.t event A :=
  match body, retries with
  | Raise _, S retries' => Log.emit (Retry name) ;;~ attempts name retries' body
  | _, _ => Log.lift body
  end.

(** A call of a function decorated with [@task(name=.., retries=..)]. *)
Definition task_run {A} (name : task) (retries : nat) (body : result A)
  : Log.t event A :=
  Log.emit (Run name) ;;~ attempts name retries body.

Definition logger_info (msg : string) : Log.t event unit := Log.emit (Info msg).

Section Flow.

Variables Results TunerOutput Study ndarray : Type.

(** What [engine.py] imports: [Pilot] (src.utils), [DataEngine]
    (src.data), [LearnLab] (src.model) and [Vizard] (src.visualize), each
    as a function of its arguments. *)
Record imports : Type := {
  Pilot_setup : string -> result (value * string * string * string * string);
  Pilot_push_artifacts : TunerOutput -> string -> string -> result unit;
  DataEngine_load : value -> result Polars.DataFrame;
  DataEngine_validate : Polars.DataFrame -> result Polars.DataFrame;
  DataEngine_split :
    value -> Polars.DataFrame -> value ->
    result (Polars.DataFrame * Polars.DataFrame * Polars.DataFrame * Polars.DataFrame);
  DataEngine_transform :
    value -> Polars.DataFrame -> Polars.DataFrame -> Polars.DataFrame ->
    Polars.DataFrame -> string -> result (TransformerOutput ndarray);
  LearnLab_train_experiments : value -> TransformerOutput ndarray -> result Results;
  LearnLab_tune_models :
    value -> TransformerOutput ndarray -> string -> result TunerOutput;
  studies : TunerOutput -> list Study;
  Vizard_plot_target_dist : Polars.DataFrame -> string -> result unit;
  Vizard_plot_cust_info : Polars.DataFrame -> string -> result unit;
  Vizard_plot_num_dist : Polars.DataFrame -> string -> result unit;
  Vizard_plot_training_results : Results -> string -> result unit;
  Vizard_plot_optuna_study : Study -> string -> result unit
}.

Variable env : imports.

Definition setup_pipeline (config_filepath : string) :=
  task_run setup_pipeline_task 0 (Pilot_setup env config_filepath).

Definition data_loader (config : value) :=
  task_run data_loader_task 3
    (data <- Box.getattr config "data" ;;
     load <- Box.getattr data "load" ;;
     DataEngine_load env load).

Definition data_validator (data : Polars.DataFrame) :=
  task_run data_validator_task 0 (DataEngine_validate env data).

Definition data_splits (config : value) (data : Polars.DataFrame) :=
  task_run data_split_task 0
    (data_config <- Box.getattr config "data" ;;
     split <- Box.getattr data_config "split" ;;
     seed <- Box.getattr config "SEED" ;;
     DataEngine_split env split data seed).

Definition data_transformer (config : value)
    (frame_X_train frame_X_test frame_y_train frame_y_test : Polars.DataFrame)
    (artifact_dir : string) :=
  task_run data_transformer_task 0
    (data_config <- Box.getattr config "data" ;;
     transform <- Box.getattr data_config "transform" ;;
     DataEngine_transform env transform frame_X_train frame_X_test
       frame_y_train frame_y_test artifact_dir).

Definition train_models (config : value) (transformed_ds : TransformerOutput ndarray) :=
  task_run train_models_task 0
    (model <- Box.getattr config "model" ;;
     train <- Box.getattr model "train" ;;
     LearnLab_train_experiments env train transformed_ds).

Definition tune_models (config : value) (transformed_ds : TransformerOutput ndarray)
    (model_dir : string) :=
  task_run tune_models_task 0
    (model <- Box.getattr config "model" ;;
     tune <- Box.getattr model "tune" ;;
     LearnLab_tune_models env tune transformed_ds model_dir).

(** The keyword arguments of [visualize_insights]; [kwargs.get(k)] is
    [None] for a keyword that was not passed. *)
Record viz_kwargs : Type := {
  kw_data : option Polars.DataFrame;
  kw_results : option Results;
  kw_tuner : option TunerOutput;
  kw_viz_dir : option string
}.

Definition visualize_insights_body (kwargs : viz_kwargs) : result unit :=
  match kw_data kwargs, kw_viz_dir kwargs with
  | Some data, Some viz_dir => Vizard_plot_target_dist env data viz_dir
  | _, _ => Ok tt
  end ;;;
  match kw_data kwargs, kw_viz_dir kwargs with
  | Some data, Some viz_dir => Vizard_plot_cust_info env data viz_dir
  | _, _ => Ok tt
  end ;;;
  match kw_data kwargs, kw_viz_dir kwargs with
  | Some data, Some viz_dir => Vizard_plot_num_dist env data viz_dir
  | _, _ => Ok tt
  end ;;;
  match kw_results kwargs, kw_viz_dir kwargs with
  | Some results, Some viz_dir => Vizard_plot_training_results env results viz_dir
  | _, _ => Ok tt
  end ;;;
  match kw_tuner kwargs, kw_viz_dir kwargs with
  | Some tuner, Some viz_dir =>
      match studies env tuner with
      | study :: _ => Vizard_plot_optuna_study env study viz_dir
      | [] => Raise IndexError
      end
  | _, _ => Ok tt
  end.

Definition visualize_insights (kwargs : viz_kwargs) :=
  task_run make_plots_and_viz_task 2 (visualize_insights_body kwargs).

Definition push_artifacts (tuner : TunerOutput) (viz_dir artifact_dir : string) :=
  task_run push_artifacts_task 3 (Pilot_push_artifacts env tuner viz_dir artifact_dir).

(** [workflow(config_path)]: the flow. *)
Definition workflow (config_path : string) : Log.t event unit :=
  setup <~ setup_pipeline config_path ;;
  let '(config, ROOT_DIR, viz_dir, model_dir, artifact_dir) := setup in
  logger_info "Setup has been configured" ;;~
  data <~ data_loader config ;;
  logger_info "Data has been loaded" ;;~
  splits <~ data_splits config data ;;
  let '(frame_X_train, frame_X_test, frame_y_train, frame_y_test) := splits in
  logger_info "Data splits have been made" ;;~
  transformed_ds <~
    data_transformer config frame_X_train frame_X_test frame_y_train frame_y_test
      artifact_dir ;;
  logger_info "Data transformers have been applied" ;;~
  results <~ train_models config transformed_ds ;;
  tuner <~ tune_models config transformed_ds model_dir ;;
  logger_info "Best model has been acquired" ;;~
  visualize_insights {| kw_data := Some data; kw_results := Some results;
                        kw_tuner := Some tuner; kw_viz_dir := Some viz_dir |} ;;~
  logger_info "Visualizations have been drawn" ;;~
  push_artifacts tuner viz_dir artifact_dir ;;~
  logger_info "Artifacts have been uploaded to remote destination".

(** The same imports with another [DataEngine.validate]. *)
Definition with_validate (e : imports)
    (validate : Polars.DataFrame -> result Polars.DataFrame) : imports :=
  {| Pilot_setup := Pilot_setup e;
     Pilot_push_artifacts := Pilot_push_artifacts e;
     DataEngine_load := DataEngine_load e;
     DataEngine_validate := validate;
     DataEngine_split := DataEngine_split e;
     DataEngine_transform := DataEngine_transform e;
     LearnLab_train_experiments := LearnLab_train_experiments e;
     LearnLab_tune_models := LearnLab_tune_models e;
     studies := studies e;
     Vizard_plot_target_dist := Vizard_plot_target_dist e;
     Vizard_plot_cust_info := Vizard_plot_cust_info e;
     Vizard_plot_num_dist := Vizard_plot_num_dist e;
     Vizard_plot_training_results := Vizard_plot_training_results e;
     Vizard_plot_optuna_study := Vizard_plot_optuna_study e |}.

End Flow.

(** The order of the stages as the specification gives it. *)
Definition specified_order : list task :=
  [ data_loader_task; data_validator_task; data_split_task; data_transformer_task;
    train_models_task; tune_models_task; make_plots_and_viz_task;
    push_artifacts_task ].

(** The order of the task calls in the body of [workflow]. *)
Definition coded_order : list task :=
  [ setup_pipeline_task; data_loader_task; data_split_task; data_transformer_task;
    train_models_task; tune_models_task; make_plots_and_viz_task;
    push_artifacts_task ].

End Engine.

(** A flow whose task runs follow [order]: they are a prefix of it, and
    all of it when the flow ends without an exception. *)
Definition follows {A} (order : list Engine.task) (c : Log.t Engine.event A) : Prop :=
  (exists k, Engine.runs (fst c) = firstn k order)
  /\ (forall a, snd c = Ok a -> Engine.runs (fst c) = order).

(* ===================================================================== *)
(** * Describing a split *)
(* ===================================================================== *)

Module Splitting.

(** Every column of the frame has as many cells as the frame has rows. *)
Definition well_formed (df : Polars.DataFrame) : bool :=
  forallb (fun ns => (Polars.len (snd ns) =? Polars.height df)%nat) df.

(** What is taken for granted of numpy's generator: [rng.permutation(n)]
    is a permutation of [0 .. n-1]. *)
Definition permutation_contract (rng_permutation : Z -> nat -> nat -> list nat) : Prop :=
  forall seed draw n, Permutation (rng_permutation seed draw n) (seq 0 n).

(** What is taken for granted of [_approximate_mode]: it hands out
    [n_draws] rows over the classes, no class more than it has. *)
Definition mode_contract (approximate_mode : Z -> nat -> list nat -> nat -> list nat)
  : Prop :=
  forall seed draw class_counts n_draws,
    (n_draws <= Sklearn.sum class_counts)%nat ->
    Forall2 le (approximate_mode seed draw class_counts n_draws) class_counts
    /\ Sklearn.sum (approximate_mode seed draw class_counts n_draws) = n_draws.

(** The labels can be stratified into parts of the given sizes: every
    class has two rows or more and neither part is smaller than the
    number of classes. *)
Definition stratifiable (labels : list string) (n_train n_test : nat) : bool :=
  let classes := Sklearn.unique labels in
  let class_counts := map (fun c => List.length (Sklearn.positions_of labels c)) classes in
  (2 <=? Sklearn.minimum class_counts)%nat
  && (List.length classes <=? n_train)%nat
  && (List.length classes <=? n_test)%nat.

(** [ceil(q * n)] in exact arithmetic; it is the double-precision value
    whenever [q * n] is itself a double, as for 0.5 * 4 or 0.75 * 2. *)
Definition exact_ceil_mul (f : pyfloat) (n : nat) : Z :=
  match f with
  | FFin q => Qceiling (q * inject_Z (Z.of_nat n))
  | _ => 0%Z
  end.

(** A generator that leaves every order as it is. *)
Definition identity_permutation (seed : Z) (draw n : nat) : list nat := seq 0 n.

(** Rows handed out to the classes in order, each class as many as it
    can take. *)
Fixpoint greedy (class_counts : list nat) (n_draws : nat) : list nat :=
  match class_counts with
  | [] => []
  | c :: rest => Nat.min c n_draws :: greedy rest (n_draws - Nat.min c n_draws)
  end.

Definition greedy_mode (seed : Z) (draw : nat) (class_counts : list nat)
    (n_draws : nat) : list nat :=
  greedy class_counts n_draws.

Definition no_number_text (s : Polars.series) : list string := [].

(** [DataEngine.split] under the three sample routines above. *)
Definition sample_split (config : value) (data : Polars.DataFrame) (seed : Z) :=
  DataEngine.split exact_ceil_mul identity_permutation greedy_mode no_number_text
    config data seed.

(** Four customers, two of each class. *)
Definition four_rows : Polars.DataFrame :=
  [ ("customerID", Frames.text ["a"; "b"; "c"; "d"]);
    ("tenure", Frames.ints [1; 34; 2; 45]%Z);
    ("Churn", Frames.text ["No"; "Yes"; "No"; "Yes"]) ].

(** ratio: 0.5, stratify: true *)
Definition half_stratified : value :=
  VBox [("ratio", VFloat (FFin (1 # 2))); ("stratify", VBool true)].

(** ratio: 0.75, stratify: false *)
Definition three_quarters : value :=
  VBox [("ratio", VFloat (FFin (3 # 4))); ("stratify", VBool false)].

End Splitting.

(** ** A sample flow *)

Module FlowSamples.

Definition flow_config : value :=
  VBox [ ("SEED", VInt 69420);
         ("data", VBox [ ("load", Samples.load_dir);
                         ("split", VBox [("ratio", VFloat (FFin (1 # 2)));
                                         ("stratify", VBool false)]);
                         ("transform", Samples.transform_ok) ]);
         ("model", VBox [("train", VBox []); ("tune", VBox [])]) ].

Definition seed_of (v : value) : Z :=
  match v with
  | VInt z => z
  | _ => 0%Z
  end.

(** Arrays are stood for by the number of rows they were made from. *)
Definition rows (p : unit) (df : Pandas.DataFrame) : result nat :=
  Ok (match df with
      | [] => 0%nat
      | (_, s) :: _ => List.length (Pandas.objects s)
      end).

(** The imports of a run whose loader delivers a frame that does not fit
    the schema; every other step succeeds. *)
Definition sample_imports : Engine.imports unit unit unit nat :=
  {| Engine.Pilot_setup := fun _ => Ok (flow_config, ".", "viz", "models", "artifacts");
     Engine.Pilot_push_artifacts := fun _ _ _ => Ok tt;
     Engine.DataEngine_load := fun _ => Ok Frames.gender_bad;
     Engine.DataEngine_validate := fun data =>
       snd (DataEngine.validate Frames.no_astype Frames.no_coerce_value data);
     Engine.DataEngine_split := fun config data seed =>
       Splitting.sample_split config data (seed_of seed);
     Engine.DataEngine_transform := fun config a b c d dir =>
       snd (DataEngine.transform (fun _ _ _ _ => Ok tt) (fun _ => Ok tt) rows
              (fun _ _ => Ok tt) (fun _ _ _ => Ok tt) config a b c d dir);
     Engine.LearnLab_train_experiments := fun _ _ => Ok tt;
     Engine.LearnLab_tune_models := fun _ _ _ => Ok tt;
     Engine.studies := fun _ => [tt];
     Engine.Vizard_plot_target_dist := fun _ _ => Ok tt;
     Engine.Vizard_plot_cust_info := fun _ _ => Ok tt;
     Engine.Vizard_plot_num_dist := fun _ _ => Ok tt;
     Engine.Vizard_plot_training_results := fun _ _ => Ok tt;
     Engine.Vizard_plot_optuna_study := fun _ _ => Ok tt |}.

End FlowSamples.

(* ===================================================================== *)
(** * Further descriptions used by the properties of the code *)
(* ===================================================================== *)

Module Accepted.

Definition allowed_keys (allowed : list string) (m : list (string * value)) : bool :=
  forallb (fun k => str_in k allowed) (Box.keys m).

Definition present (m : list (string * value)) (k : string) : bool :=
  match Box.lookup k m with
  | Some _ => true
  | None => false
  end.

(** The load section names one of the two strategies:
    [load_config.strategy] reads as "dir" or "aws_s3". *)
Definition load_ok (d : list (string * value)) : bool :=
  match Box.lookup "load" d with
  | Some load =>
      match Box.getattr load "strategy" with
      | Ok (VStr s) => str_in s DataLoaderStrategyFactory_keys
      | _ => false
      end
  | None => false
  end.

(** The split section has allowed keys, a ratio that [float] turns into a
    number not above 1, and a boolean stratify. *)
Definition split_ok (float_of_string : string -> option pyfloat)
    (d : list (string * value)) : bool :=
  match Box.lookup "split" d with
  | Some (VBox split) =>
      allowed_keys split_args split
      && match Box.lookup "ratio" split with
         | Some ratio =>
             match Builtins.float float_of_string ratio with
             | Ok f => negb (Builtins.gt_one f)
             | Raise _ => false
             end
         | None => false
         end
      && match Box.lookup "stratify" split with
         | Some (VBool _) => true
         | _ => false
         end
  | _ => false
  end.

(** The transform section has allowed keys and holds the three
    parameters. *)
Definition transform_ok (d : list (string * value)) : bool :=
  match Box.lookup "transform" d with
  | Some (VBox t) =>
      allowed_keys transform_params t
      && present t "scale" && present t "dummy" && present t "ordinal"
  | _ => false
  end.

(** What a configuration looks like when the validator lets it through;
    [config.data] is what the attribute reads as. *)
Definition shape (float_of_string : string -> option pyfloat) (config : value) : bool :=
  match Box.getattr config "data" with
  | Ok (VBox d) =>
      allowed_keys data_stages d && load_ok d
      && split_ok float_of_string d && transform_ok d
  | _ => false
  end.

(** The first key of a mapping outside an allow-list. *)
Definition first_outside (allowed : list string) (m : list (string * value))
  : option string :=
  find (fun k => negb (str_in k allowed)) (Box.keys m).

End Accepted.

Module MoreSamples.

(** Column lists over names that repeat nowhere, and a stratify given as
    text. *)
Definition config_text_stratify : value :=
  Samples.config_of Samples.load_dir
    (VBox [("ratio", Samples.ratio_fifth); ("stratify", VStr "true")])
    Samples.transform_ok.

(** ratio: 1.5, and nothing else in the split section. *)
Definition config_ratio_above : value :=
  Samples.config_of Samples.load_dir
    (VBox [("ratio", VFloat (FFin (3 # 2)))])
    (VStr "not a mapping").

(** Two keys outside the allow-list of the data section, the first being
    [fetch], and no load section at all. *)
Definition config_two_unknown : value :=
  VBox [("data", VBox [("split", Samples.split_with Samples.ratio_fifth);
                       ("fetch", VNone); ("clean", VNone)])].

(** A configuration none of whose top-level keys is [data] and whose
    load section has no key [strategy]: the keys "data!" and "strategy!"
    are the ones [config.data] and [load_config.strategy] read. *)
Definition config_converted_keys : value :=
  VBox [("SEED", VInt 69420);
        ("data!",
         VBox [("load", VBox [("strategy!", VStr "dir")]);
               ("split", Samples.split_with Samples.ratio_fifth);
               ("transform", Samples.transform_ok)])].

End MoreSamples.

Module Loading2.

(** The URL the S3 strategy reads a key from. *)
Definition s3_url_of (s3_url key : string) : string :=
  String.append s3_url (String.append "/" key).

(** The line the S3 strategy prints for one [.csv] key. *)
Definition s3_line (w : world) (s3_url key : string) : printed :=
  match _read w (s3_url_of s3_url key) with
  | Ok _ => PStr (String.append "Loaded: " key)
  | Raise e => PLoadError key e
  end.

(** The first file of a list that cannot be opened, if any. *)
Fixpoint first_unreadable (w : world) (paths : list string) : option string :=
  match paths with
  | [] => None
  | path :: paths' =>
      match read_text w path with
      | Some _ => first_unreadable w paths'
      | None => Some path
      end
  end.

Fixpoint count_spaces (s : string) : nat :=
  match s with
  | EmptyString => 0
  | String c s' => (if Ascii.eqb c " " then 1 else 0) + count_spaces s'
  end.

Definition total_height (frames : list Polars.DataFrame) : nat :=
  fold_right Nat.add 0%nat (map Polars.height frames).

(** A CSV without the [TotalCharges] column. *)
Definition short_csv : csv :=
  [ ("customerID", ["1111-AAAAA"]); ("Churn", ["No"]) ].

(** Directories: [pair] holds the sample CSV twice, [mixed] holds it
    followed by a CSV without [TotalCharges] and a file that cannot be
    read. *)
Definition sample_dirs : world :=
  {| is_dir := fun p => String.eqb p "pair" || String.eqb p "mixed";
     glob_csv := fun p =>
       if String.eqb p "pair" then ["pair/a.csv"; "pair/b.csv"]
       else if String.eqb p "mixed" then ["mixed/a.csv"; "mixed/short.csv"; "mixed/gone.csv"]
       else [];
     read_text := fun p =>
       if String.eqb p "pair/a.csv" || String.eqb p "pair/b.csv"
          || String.eqb p "mixed/a.csv"
       then Some LoadSamples.telco_csv
       else if String.eqb p "mixed/short.csv" then Some short_csv
       else None;
     list_objects_v2 := fun bucket prefix => [];
     infer_series := LoadSamples.infer_text |}.

End Loading2.

Module MoreFrames.

(** The valid sample with a missing [gender] in its first row. *)
Definition gender_null : Polars.DataFrame :=
  Polars.with_column "gender" (Polars.String_ [None; Some "Male"]) Frames.valid.

(** The valid sample with a negative [tenure] in its second row. *)
Definition tenure_negative : Polars.DataFrame :=
  Polars.with_column "tenure" (Frames.ints [1; -3]%Z) Frames.valid.

(** The valid sample without its [Contract] column. *)
Definition no_contract : Polars.DataFrame := Polars.remove "Contract" Frames.valid.

(** The names of the columns of the schema. *)
Definition schema_names : list string := map fst (Pandera.columns DataSchema).

End MoreFrames.

Module MoreSplits.

(** ratio: 1 (an int, a number of rows), stratify: false *)
Definition one_row : value :=
  VBox [("ratio", VInt 1); ("stratify", VBool false)].

(** ratio: 1.0, stratify: false *)
Definition whole : value :=
  VBox [("ratio", VFloat (FFin 1)); ("stratify", VBool false)].

(** Three customers; the class "Yes" has one row. *)
Definition lone_class : Polars.DataFrame :=
  [ ("customerID", Frames.text ["a"; "b"; "c"]);
    ("Churn", Frames.text ["No"; "Yes"; "No"]) ].

End MoreSplits.

Module MoreTransform.

(** The pickle files of a log of written files, in order. *)
Definition pickles {preprocessor ndarray} (log : list (written preprocessor ndarray))
  : list (string * preprocessor) :=
  flat_map (fun w => match w with
                     | Pickle path obj => [(path, obj)]
                     | Savez _ _ _ => []
                     end) log.

(** A [transform] that cannot encode a frame of more than one row. *)
Definition one_row_only (p : unit) (df : Pandas.DataFrame) : result nat :=
  match df with
  | (_, s) :: _ =>
      if (List.length (Pandas.objects s) <=? 1)%nat
      then Ok (List.length (Pandas.objects s))
      else Raise (ValueError "Found unknown categories")
  | [] => Ok 0%nat
  end.

(** A [_save_to_pickle] on a disk that takes the first pickle and is full
    at the second. *)
Definition disk_full_after_one (path : string) (p : unit) : result unit :=
  if String.eqb path "artifacts/feature_transformer_.pkl"
  then Ok tt
  else Raise (OSError "No space left on device").

End MoreTransform.

Module MoreFlow.

(** The sample imports with a loader that finds nothing. *)
Definition no_data : Engine.imports unit unit unit nat :=
  {| Engine.Pilot_setup := Engine.Pilot_setup FlowSamples.sample_imports;
     Engine.Pilot_push_artifacts := Engine.Pilot_push_artifacts FlowSamples.sample_imports;
     Engine.DataEngine_load := fun _ => Raise (Exception "No data found in directory");
     Engine.DataEngine_validate := Engine.DataEngine_validate FlowSamples.sample_imports;
     Engine.DataEngine_split := Engine.DataEngine_split FlowSamples.sample_imports;
     Engine.DataEngine_transform := Engine.DataEngine_transform FlowSamples.sample_imports;
     Engine.LearnLab_train_experiments :=
       Engine.LearnLab_train_experiments FlowSamples.sample_imports;
     Engine.LearnLab_tune_models := Engine.LearnLab_tune_models FlowSamples.sample_imports;
     Engine.studies := Engine.studies FlowSamples.sample_imports;
     Engine.Vizard_plot_target_dist :=
       Engine.Vizard_plot_target_dist FlowSamples.sample_imports;
     Engine.Vizard_plot_cust_info := Engine.Vizard_plot_cust_info FlowSamples.sample_imports;
     Engine.Vizard_plot_num_dist := Engine.Vizard_plot_num_dist FlowSamples.sample_imports;
     Engine.Vizard_plot_training_results :=
       Engine.Vizard_plot_training_results FlowSamples.sample_imports;
     Engine.Vizard_plot_optuna_study :=
       Engine.Vizard_plot_optuna_study FlowSamples.sample_imports |}.

(** The sample configuration without its [SEED]. *)
Definition config_no_seed : value :=
  VBox [ ("data", VBox [ ("load", Samples.load_dir);
                         ("split", VBox [("ratio", VFloat (FFin (1 # 2)));
                                         ("stratify", VBool false)]);
                         ("transform", Samples.transform_ok) ]);
         ("model", VBox [("train", VBox []); ("tune", VBox [])]) ].

(** The sample imports with that configuration. *)
Definition no_seed : Engine.imports unit unit unit nat :=
  {| Engine.Pilot_setup := fun _ => Ok (config_no_seed, ".", "viz", "models", "artifacts");
     Engine.Pilot_push_artifacts := Engine.Pilot_push_artifacts FlowSamples.sample_imports;
     Engine.DataEngine_load := Engine.DataEngine_load FlowSamples.sample_imports;
     Engine.DataEngine_validate := Engine.DataEngine_validate FlowSamples.sample_imports;
     Engine.DataEngine_split := Engine.DataEngine_split FlowSamples.sample_imports;
     Engine.DataEngine_transform := Engine.DataEngine_transform FlowSamples.sample_imports;
     Engine.LearnLab_train_experiments :=
       Engine.LearnLab_train_experiments FlowSamples.sample_imports;
     Engine.LearnLab_tune_models := Engine.LearnLab_tune_models FlowSamples.sample_imports;
     Engine.studies := Engine.studies FlowSamples.sample_imports;
     Engine.Vizard_plot_target_dist :=
       Engine.Vizard_plot_target_dist FlowSamples.sample_imports;
     Engine.Vizard_plot_cust_info := Engine.Vizard_plot_cust_info FlowSamples.sample_imports;
     Engine.Vizard_plot_num_dist := Engine.Vizard_plot_num_dist FlowSamples.sample_imports;
     Engine.Vizard_plot_training_results :=
       Engine.Vizard_plot_training_results FlowSamples.sample_imports;
     Engine.Vizard_plot_optuna_study :=
       Engine.Vizard_plot_optuna_study FlowSamples.sample_imports |}.

(** The sample imports with a tuner that holds no study. *)
Definition no_study : Engine.imports unit unit unit nat :=
  {| Engine.Pilot_setup := Engine.Pilot_setup FlowSamples.sample_imports;
     Engine.Pilot_push_artifacts := Engine.Pilot_push_artifacts FlowSamples.sample_imports;
     Engine.DataEngine_load := Engine.DataEngine_load FlowSamples.sample_imports;
     Engine.DataEngine_validate := Engine.DataEngine_validate FlowSamples.sample_imports;
     Engine.DataEngine_split := Engine.DataEngine_split FlowSamples.sample_imports;
     Engine.DataEngine_transform := Engine.DataEngine_transform FlowSamples.sample_imports;
     Engine.LearnLab_train_experiments :=
       Engine.LearnLab_train_experiments FlowSamples.sample_imports;
     Engine.LearnLab_tune_models := Engine.LearnLab_tune_models FlowSamples.sample_imports;
     Engine.studies := fun _ => [];
     Engine.Vizard_plot_target_dist :=
       Engine.Vizard_plot_target_dist FlowSamples.sample_imports;
     Engine.Vizard_plot_cust_info := Engine.Vizard_plot_cust_info FlowSamples.sample_imports;
     Engine.Vizard_plot_num_dist := Engine.Vizard_plot_num_dist FlowSamples.sample_imports;
     Engine.Vizard_plot_training_results :=
       Engine.Vizard_plot_training_results FlowSamples.sample_imports;
     Engine.Vizard_plot_optuna_study :=
       Engine.Vizard_plot_optuna_study FlowSamples.sample_imports |}.

End MoreFlow.

(* ===================================================================== *)
(** * Properties of the configuration validator *)
(* ===================================================================== *)

Section MonadLemmas.

Lemma bind_ok {A B} (r : result A) (k : A -> result B) (b : B) :
  bind r k = Ok b -> exists a, r = Ok a /\ k a = Ok b.
Proof. destruct r as [a|e]; simpl; [eauto | discriminate]. Qed.

Lemma is_cve_bind_l {A B} (r : result A) (k : A -> result B) :
  is_cve r = true -> is_cve (bind r k) = true.
Proof. destruct r as [a|[]]; simpl; congruence. Qed.

(** A loop that rejects the elements failing [ok]. *)
Lemma for_each_reject (ok : string -> bool) (err : string -> config_error)
    (l : list string) :
  for_each l (fun x => if negb (ok x)
                       then Raise (ConfigValidationError (err x))
                       else Ok tt)
  = if forallb ok l then Ok tt
    else match find (fun x => negb (ok x)) l with
         | Some x => Raise (ConfigValidationError (err x))
         | None => Ok tt
         end.
Proof.
  induction l as [|x l IH]; simpl; [reflexivity|].
  destruct (ok x); simpl; [exact IH | reflexivity].
Qed.

Lemma for_each_reject_cve (ok : string -> bool) (err : string -> config_error)
    (l : list string) :
  existsb (fun x => negb (ok x)) l = true ->
  is_cve (for_each l (fun x => if negb (ok x)
                               then Raise (ConfigValidationError (err x))
                               else Ok tt)) = true.
Proof.
  induction l as [|x l IH]; simpl; [discriminate|].
  destruct (ok x); simpl; [exact IH | reflexivity].
Qed.

Lemma for_each_reject_cases (ok : string -> bool) (err : string -> config_error)
    (l : list string) :
  let r := for_each l (fun x => if negb (ok x)
                                then Raise (ConfigValidationError (err x))
                                else Ok tt) in
  r = Ok tt \/ is_cve r = true.
Proof.
  induction l as [|x l IH]; simpl; [now left|].
  destruct (ok x); simpl; [exact IH | now right].
Qed.

End MonadLemmas.

Section ConfigValidation.

Variable float_of_string : string -> option pyfloat.

(** Each block either passes or raises, and what it raises is known. *)

Lemma base_args_cases (d : list (string * value)) :
  validate_base_args (VBox d) = Ok tt \/ is_cve (validate_base_args (VBox d)) = true.
Proof. unfold validate_base_args; simpl. apply for_each_reject_cases. Qed.

Lemma base_args_unknown (d : list (string * value)) :
  Config.has_key_outside data_stages (Some (VBox d)) = true ->
  is_cve (validate_base_args (VBox d)) = true.
Proof.
  unfold validate_base_args; simpl. intros H.
  apply (for_each_reject_cve (fun k => str_in k data_stages)); exact H.
Qed.

Lemma load_args_cases (d : list (string * value)) (load : list (string * value))
    (v : value) :
  Box.lookup "load" d = Some (VBox load) ->
  Box.lookup "strategy" load = Some v ->
  Builtins.hashable v = true ->
  (validate_load_args (VBox d) = Ok tt
   /\ exists s, v = VStr s /\ str_in s DataLoaderStrategyFactory_keys = true)
  \/ validate_load_args (VBox d) = Raise (ConfigValidationError (InvalidStrategy v)).
Proof.
  intros Hl Hs Hh. unfold validate_load_args; simpl.
  rewrite Hl; simpl. rewrite Hs; simpl.
  unfold not_in_factory. rewrite Hh; simpl.
  destruct v; try (now right).
  simpl. destruct (str_in s DataLoaderStrategyFactory_keys) eqn:E; simpl.
  - left. split; [reflexivity | eauto].
  - now right.
Qed.

Lemma split_args_cases (d split : list (string * value)) (ratio stratify : value) :
  Box.lookup "split" d = Some (VBox split) ->
  Box.lookup "ratio" split = Some ratio ->
  Box.lookup "stratify" split = Some stratify ->
  raises (Builtins.float float_of_string ratio) = false ->
  validate_split_args float_of_string (VBox d) = Ok tt
  \/ is_cve (validate_split_args float_of_string (VBox d)) = true.
Proof.
  intros Hs Hr Hst Hf. unfold validate_split_args; simpl.
  rewrite Hs; simpl.
  destruct (for_each_reject_cases (fun k => str_in k split_args)
              UnknownSplitArg (Box.keys split)) as [E|E]; simpl in E.
  2:{ right. now apply is_cve_bind_l. }
  rewrite E; simpl. rewrite Hr; simpl.
  destruct (Builtins.float float_of_string ratio) as [f|e]; [|discriminate]; simpl.
  destruct (Builtins.gt_one f); simpl; [now right|].
  rewrite Hst; simpl.
  destruct (Builtins.is_bool stratify); simpl; [now left | now right].
Qed.

Lemma split_args_unknown (d split : list (string * value)) :
  Box.lookup "split" d = Some (VBox split) ->
  Config.has_key_outside split_args (Some (VBox split)) = true ->
  is_cve (validate_split_args float_of_string (VBox d)) = true.
Proof.
  intros Hs Hk. unfold validate_split_args; simpl. rewrite Hs; simpl.
  apply is_cve_bind_l.
  apply (for_each_reject_cve (fun k => str_in k split_args)); exact Hk.
Qed.

Lemma transform_args_unknown (d t : list (string * value)) :
  Box.lookup "transform" d = Some (VBox t) ->
  Config.has_key_outside transform_params (Some (VBox t)) = true ->
  is_cve (validate_transform_args (VBox d)) = true.
Proof.
  intros Ht Hk. unfold validate_transform_args; simpl. rewrite Ht; simpl.
  apply is_cve_bind_l.
  apply (for_each_reject_cve (fun k => str_in k transform_params)); exact Hk.
Qed.

(** Shape of a configuration whose [data] entry is a mapping. *)
Lemma section_inv (config : value) (name : string) (v : value) :
  Config.section config name = Some v ->
  exists top d, config = VBox top /\ Box.lookup "data" top = Some (VBox d)
                /\ Box.lookup name d = Some v.
Proof.
  unfold Config.section. destruct config as [| | | | |l|top]; try discriminate.
  destruct (Box.lookup "data" top) as [[| | | | |l|d]|] eqn:E; try discriminate.
  intros H. exists top, d. auto.
Qed.

Lemma load_readable_inv (config : value) :
  Config.load_readable config = true ->
  exists top d load v,
    config = VBox top /\ Box.lookup "data" top = Some (VBox d)
    /\ Box.lookup "load" d = Some (VBox load)
    /\ Box.lookup "strategy" load = Some v /\ Builtins.hashable v = true.
Proof.
  unfold Config.load_readable, Config.strategy. intros H.
  destruct (Config.section config "load") as [[| | | | |l|load]|] eqn:E;
    try discriminate.
  destruct (Box.lookup "strategy" load) as [v|] eqn:Ev; [|discriminate].
  apply section_inv in E. destruct E as (top & d & -> & Hd & Hl).
  exists top, d, load, v. auto.
Qed.

Lemma split_readable_inv (config : value) :
  Config.split_readable float_of_string config = true ->
  exists split ratio stratify,
    Config.section config "split" = Some (VBox split)
    /\ Box.lookup "ratio" split = Some ratio
    /\ Box.lookup "stratify" split = Some stratify
    /\ raises (Builtins.float float_of_string ratio) = false.
Proof.
  unfold Config.split_readable. intros H.
  destruct (Config.section config "split") as [[| | | | |l|split]|] eqn:E;
    try discriminate.
  destruct (Box.lookup "ratio" split) as [ratio|] eqn:Er; [|discriminate].
  destruct (Box.lookup "stratify" split) as [stratify|] eqn:Es; [|discriminate].
  exists split, ratio, stratify. repeat split; auto.
  now apply negb_true_iff in H.
Qed.

Lemma has_key_outside_inv (allowed : list string) (o : option value) :
  Config.has_key_outside allowed o = true ->
  exists m, o = Some (VBox m).
Proof.
  destruct o as [[| | | | |l|m]|]; simpl; try discriminate. eauto.
Qed.

(** With a readable load section the first two blocks pass or raise the
    custom error. *)
Lemma load_block_cases (top d : list (string * value)) :
  Config.load_readable (VBox top) = true ->
  Box.lookup "data" top = Some (VBox d) ->
  validate_load_args (VBox d) = Ok tt \/ is_cve (validate_load_args (VBox d)) = true.
Proof.
  intros H Hd. apply load_readable_inv in H.
  destruct H as (top' & d' & load & v & Heq & Hd' & Hl & Hs & Hh).
  injection Heq as <-. rewrite Hd in Hd'. injection Hd' as <-.
  destruct (load_args_cases d Hl Hs Hh) as [[E _]|E]; [now left|].
  right. now rewrite E.
Qed.

Lemma split_block_cases (top d : list (string * value)) :
  Config.split_readable float_of_string (VBox top) = true ->
  Box.lookup "data" top = Some (VBox d) ->
  validate_split_args float_of_string (VBox d) = Ok tt
  \/ is_cve (validate_split_args float_of_string (VBox d)) = true.
Proof.
  intros H Hd. apply split_readable_inv in H.
  destruct H as (split & ratio & stratify & Hsec & Hr & Hst & Hf).
  apply section_inv in Hsec. destruct Hsec as (top' & d' & Heq & Hd' & Hs).
  injection Heq as <-. rewrite Hd in Hd'. injection Hd' as <-.
  eapply split_args_cases; eauto.
Qed.

Lemma validate_unfold (top d : list (string * value)) :
  Box.lookup "data" top = Some (VBox d) ->
  validate_data_config float_of_string (VBox top)
  = (validate_base_args (VBox d) ;;;
     validate_load_args (VBox d) ;;;
     validate_split_args float_of_string (VBox d) ;;;
     validate_transform_args (VBox d)).
Proof.
  intros Hd. unfold validate_data_config, Box.getattr. now rewrite Hd.
Qed.

Lemma is_cve_seq {A} (r : result unit) (k : result A) :
  r = Ok tt \/ is_cve r = true -> is_cve k = true -> is_cve (r ;;; k) = true.
Proof.
  intros [->|H] Hk; [exact Hk | now apply is_cve_bind_l].
Qed.

(** C3, upper bound only: a ratio above [1.0] is refused once the split
    block gets to it. *)
Lemma ratio_above_one_rejected (d split : list (string * value)) (ratio : value)
    (f : pyfloat) :
  Box.lookup "split" d = Some (VBox split) ->
  Config.has_key_outside split_args (Some (VBox split)) = false ->
  Box.lookup "ratio" split = Some ratio ->
  Builtins.float float_of_string ratio = Ok f ->
  Builtins.gt_one f = true ->
  validate_split_args float_of_string (VBox d)
  = Raise (ConfigValidationError RatioOutOfRange).
Proof.
  intros Hs Hk Hr Hf Hgt. unfold validate_split_args; simpl. rewrite Hs; simpl.
  rewrite (for_each_reject (fun k => str_in k split_args)).
  simpl in Hk.
  assert (forallb (fun k => str_in k split_args) (Box.keys split) = true) as ->.
  { apply forallb_forall. intros k Hin.
    destruct (str_in k split_args) eqn:E; [reflexivity|].
    assert (existsb (fun k => negb (str_in k split_args)) (Box.keys split) = true).
    { apply existsb_exists. exists k. now rewrite E. }
    congruence. }
  simpl. rewrite Hr; simpl. rewrite Hf; simpl. now rewrite Hgt.
Qed.

End ConfigValidation.

(** C3 (the code departs from the claim).  A configuration that is valid
    but for its split ratio of -0.5 passes [validate_data_config]: the
    function returns normally and raises no [ConfigValidationError],
    because only [float(ratio) > 1.0] is tested. *)
Theorem negative_ratio_accepted :
  forall float_of_string,
    validate_data_config float_of_string Samples.config_negative_ratio = Ok tt.
Proof. intros f. reflexivity. Qed.

(** The same holds of every negative ratio, not of -0.5 alone. *)
Lemma every_negative_ratio_accepted :
  forall float_of_string (q : Q),
    (q < 0)%Q ->
    validate_data_config float_of_string
      (Samples.config_of Samples.load_dir (Samples.split_with (VFloat (FFin q)))
         Samples.transform_ok)
    = Ok tt.
Proof.
  intros f q Hq.
  assert (Builtins.gt_one (FFin q) = false) as Hgt.
  { unfold Builtins.gt_one. apply negb_false_iff, Qle_bool_iff.
    apply Qlt_le_weak. apply Qlt_trans with (y := 0%Q); [exact Hq | reflexivity]. }
  cbv - [Builtins.gt_one]. now rewrite Hgt.
Qed.




(** What the amended C5 leaves aside: with any of the four defects the
    validator never returns normally, whatever it raises. *)
Lemma raises_seq {A} (r : result unit) (k : result A) :
  raises k = true -> raises (r ;;; k) = true.
Proof. destruct r as [[]|e]; simpl; auto. Qed.

Lemma raises_bind_l {A B} (r : result A) (k : A -> result B) :
  raises r = true -> raises (bind r k) = true.
Proof. destruct r; simpl; congruence. Qed.

Lemma is_cve_raises {A} (r : result A) : is_cve r = true -> raises r = true.
Proof. destruct r as [a|[]]; simpl; congruence. Qed.

Lemma unknown_key_always_raises :
  forall float_of_string config,
    Config.unknown_key config = true ->
    raises (validate_data_config float_of_string config) = true.
Proof.
  intros fos config H. unfold Config.unknown_key in H.
  repeat (apply orb_true_iff in H; destruct H as [H|H]).
  - destruct config as [| | | | |l|top]; try discriminate. simpl in H.
    destruct (has_key_outside_inv _ _ H) as [d Hd]. rewrite Hd in H.
    rewrite (validate_unfold fos _ Hd).
    apply raises_bind_l, is_cve_raises. now apply base_args_unknown.
  - unfold Config.unknown_split_key in H.
    destruct (has_key_outside_inv _ _ H) as [split Hsp]. rewrite Hsp in H.
    apply section_inv in Hsp. destruct Hsp as (top & d & -> & Hd & Hsp).
    rewrite (validate_unfold fos _ Hd).
    do 2 apply raises_seq. apply raises_bind_l, is_cve_raises.
    now apply split_args_unknown with (split := split).
  - unfold Config.unknown_transform_key in H.
    destruct (has_key_outside_inv _ _ H) as [t Ht]. rewrite Ht in H.
    apply section_inv in Ht. destruct Ht as (top & d & -> & Hd & Ht).
    rewrite (validate_unfold fos _ Hd).
    do 3 apply raises_seq. apply is_cve_raises.
    now apply transform_args_unknown with (t := t).
  - unfold Config.strategy_outside, Config.strategy in H.
    destruct (Config.section config "load") as [[| | | | |l|load]|] eqn:E;
      try discriminate.
    destruct (Box.lookup "strategy" load) as [v|] eqn:Ev; [|discriminate].
    apply section_inv in E. destruct E as (top & d & -> & Hd & Hl).
    rewrite (validate_unfold fos _ Hd).
    apply raises_seq, raises_bind_l.
    unfold validate_load_args, Box.getattr. rewrite Hl; simpl. rewrite Ev; simpl.
    unfold not_in_factory.
    destruct v; simpl; try reflexivity. simpl in H. now rewrite H.
Qed.

(* ===================================================================== *)
(** * Uniqueness of the transform columns *)
(* ===================================================================== *)

Section ColumnSets.

Lemma str_in_In (x : string) (l : list string) : str_in x l = true <-> In x l.
Proof.
  unfold str_in. rewrite existsb_exists. split.
  - intros (y & Hy & E). apply String.eqb_eq in E. now subst.
  - intros H. exists x. split; [exact H | apply String.eqb_refl].
Qed.

(** [has_duplicate] decides the absence of [NoDup]. *)
Lemma has_duplicate_NoDup (l : list string) :
  Config.has_duplicate l = false <-> NoDup l.
Proof.
  induction l as [|x l IH]; simpl.
  - split; [constructor | reflexivity].
  - rewrite orb_false_iff, IH. split.
    + intros [Hx Hl]. constructor; [|exact Hl].
      intros Hin. apply str_in_In in Hin. congruence.
    + intros H. inversion H as [|? ? Hx Hl]; subst. split; [|exact Hl].
      destruct (str_in x l) eqn:E; [|reflexivity].
      apply str_in_In in E. contradiction.
Qed.

Lemma strs_map (l : list value) (s : list string) :
  Config.strs l = Some s -> l = map VStr s.
Proof.
  revert s. induction l as [|v l IH]; simpl; intros s H.
  - injection H as <-. reflexivity.
  - destruct v; try discriminate.
    destruct (Config.strs l) as [s'|]; [|discriminate].
    injection H as <-. simpl. now rewrite (IH s').
Qed.

Lemma hashable_strs (l : list string) :
  forallb Builtins.hashable (map VStr l) = true.
Proof. induction l; simpl; auto. Qed.

Lemma filter_length_lt {A} (p : A -> bool) (l : list A) (x : A) :
  In x l -> p x = false -> (List.length (filter p l) < List.length l)%nat.
Proof.
  induction l as [|a l IH]; simpl; [contradiction|].
  intros [->|Hin] Hp.
  - rewrite Hp. pose proof (filter_length_le p l). lia.
  - specialize (IH Hin Hp). destruct (p a); simpl; lia.
Qed.

Lemma set_of_length_le (l : list value) :
  (List.length (Builtins.set_of l) <= List.length l)%nat.
Proof.
  induction l as [|a l IH]; simpl; [lia|].
  pose proof (filter_length_le (fun y => negb (Builtins.py_eq a y))
                (Builtins.set_of l)). lia.
Qed.

Lemma In_set_of_strs (x : string) (l : list string) :
  In x l -> In (VStr x) (Builtins.set_of (map VStr l)).
Proof.
  induction l as [|a l IH]; simpl; [contradiction|].
  intros H. destruct (String.eqb a x) eqn:E.
  - apply String.eqb_eq in E. subst. now left.
  - right. destruct H as [->|H]; [now rewrite String.eqb_refl in E|].
    apply filter_In. split; [now apply IH|]. simpl. now rewrite E.
Qed.

(** [len(cols) == len(set(cols))] holds exactly when no name repeats. *)
Lemma set_of_distinct (l : list string) :
  Config.has_duplicate l = false ->
  Builtins.set_of (map VStr l) = map VStr l.
Proof.
  induction l as [|x l IH]; simpl; [reflexivity|].
  intros H. apply orb_false_iff in H. destruct H as [Hx Hl].
  rewrite (IH Hl). f_equal.
  apply forallb_filter_id. apply forallb_forall.
  intros v Hv. apply in_map_iff in Hv. destruct Hv as (y & <- & Hy).
  simpl. destruct (String.eqb x y) eqn:E; [|reflexivity].
  apply String.eqb_eq in E. subst.
  apply str_in_In in Hy. congruence.
Qed.

Lemma set_of_repeated (l : list string) :
  Config.has_duplicate l = true ->
  (List.length (Builtins.set_of (map VStr l)) < List.length l)%nat.
Proof.
  induction l as [|x l IH]; [discriminate|].
  cbn [Config.has_duplicate map Builtins.set_of List.length].
  intros H. apply orb_true_iff in H.
  pose proof (set_of_length_le (map VStr l)) as Hle.
  rewrite length_map in Hle.
  pose proof (filter_length_le (fun y => negb (Builtins.py_eq (VStr x) y))
                (Builtins.set_of (map VStr l))) as Hfl.
  destruct H as [Hx|Hl].
  - apply str_in_In, In_set_of_strs in Hx.
    assert (negb (Builtins.py_eq (VStr x) (VStr x)) = false) as Hp
      by (simpl; now rewrite String.eqb_refl).
    pose proof (filter_length_lt (fun y => negb (Builtins.py_eq (VStr x) y))
                  _ _ Hx Hp) as Hlt.
    lia.
  - specialize (IH Hl). lia.
Qed.

Lemma len_set_strs (l : list string) :
  exists n, Builtins.len_set (map VStr l) = Ok n
            /\ ((List.length (map VStr l) =? n)%nat = negb (Config.has_duplicate l)).
Proof.
  unfold Builtins.len_set. rewrite hashable_strs.
  eexists. split; [reflexivity|].
  rewrite length_map. destruct (Config.has_duplicate l) eqn:E; simpl.
  - apply Nat.eqb_neq. pose proof (set_of_repeated l E). lia.
  - apply Nat.eqb_eq. rewrite (set_of_distinct l E). now rewrite length_map.
Qed.

End ColumnSets.

Section UniquenessCheck.

Variable float_of_string : string -> option pyfloat.

Lemma nde_bind {A B} (r : result A) (k : A -> result B) :
  not_duplicate_error r -> (forall a, r = Ok a -> not_duplicate_error (k a)) ->
  not_duplicate_error (bind r k).
Proof.
  unfold not_duplicate_error. destruct r as [a|e]; simpl; intros Hr Hk.
  - now apply Hk.
  - intros E. apply Hr. congruence.
Qed.

Lemma nde_ok {A} (a : A) : not_duplicate_error (Ok a).
Proof. discriminate. Qed.

Lemma nde_getattr (b : value) (k : string) : not_duplicate_error (Box.getattr b k).
Proof.
  unfold not_duplicate_error, Box.getattr.
  destruct b; try discriminate. destruct (Box.lookup k m); [discriminate|].
  destruct (Box.safe_key (Box._safe_attr k) m) as [k'|]; [|discriminate].
  destruct (Box.lookup k' m); discriminate.
Qed.

Lemma nde_to_dict (b : value) : not_duplicate_error (Box.to_dict b).
Proof. unfold not_duplicate_error, Box.to_dict. destruct b; discriminate. Qed.

Lemma nde_for_each (ok : string -> bool) (err : string -> config_error)
    (l : list string) :
  (forall x, err x <> DuplicateColumns) ->
  not_duplicate_error
    (for_each l (fun x => if negb (ok x)
                          then Raise (ConfigValidationError (err x))
                          else Ok tt)).
Proof.
  intros Herr. rewrite for_each_reject. unfold not_duplicate_error.
  destruct (forallb ok l); [discriminate|].
  destruct (find (fun x => negb (ok x)) l) as [x|]; [|discriminate].
  intros E. injection E as E. now apply (Herr x).
Qed.

Lemma nde_float (v : value) : not_duplicate_error (Builtins.float float_of_string v).
Proof.
  unfold not_duplicate_error, Builtins.float. destruct v; try discriminate.
  - destruct (Builtins.float_overflow_bound <=? Z.abs z)%Z; discriminate.
  - destruct (float_of_string s); discriminate.
Qed.

Lemma nde_not_in_factory (v : value) : not_duplicate_error (not_in_factory v).
Proof.
  unfold not_duplicate_error, not_in_factory.
  destruct (Builtins.hashable v); discriminate.
Qed.

Ltac nde_step :=
  first [ apply nde_ok | apply nde_getattr | apply nde_to_dict | apply nde_float
        | apply nde_not_in_factory
        | apply nde_for_each; discriminate
        | apply nde_bind; [|intros ? _]
        | match goal with
          | |- not_duplicate_error (if ?b then _ else _) => destruct b
          end
        | discriminate ].

Lemma nde_base (data_config : value) :
  not_duplicate_error (validate_base_args data_config).
Proof. unfold validate_base_args. repeat nde_step. Qed.

Lemma nde_load (data_config : value) :
  not_duplicate_error (validate_load_args data_config).
Proof. unfold validate_load_args. repeat nde_step. Qed.

Lemma nde_split (data_config : value) :
  not_duplicate_error (validate_split_args float_of_string data_config).
Proof. unfold validate_split_args. repeat nde_step. Qed.

Lemma collect_cols_strs (t : list (string * value)) (s d o : list string) :
  Config.column_list t "scale" = Some s ->
  Config.column_list t "dummy" = Some d ->
  Config.column_list t "ordinal" = Some o ->
  collect_cols t transform_params = Ok (map VStr (s ++ d ++ o)).
Proof.
  unfold Config.column_list, transform_params, collect_cols, Box.get.
  intros Hs Hd Ho.
  destruct (Box.lookup "scale" t) as [[| | | | |ls|]|]; try discriminate.
  destruct (Box.lookup "dummy" t) as [[| | | | |ld|]|]; try discriminate.
  destruct (Box.lookup "ordinal" t) as [[| | | | |lo|]|]; try discriminate.
  apply strs_map in Hs, Hd, Ho. subst. simpl.
  now rewrite app_nil_r, !map_app.
Qed.

(** The transform block on a section whose column lists are lists of
    names: the key loop, then the uniqueness test. *)
Lemma transform_args_columns (d t : list (string * value)) (cols : list string) :
  Box.lookup "transform" d = Some (VBox t) ->
  Config.columns_of t = Some cols ->
  validate_transform_args (VBox d)
  = (for_each (Box.keys t) (fun param =>
       if negb (str_in param transform_params)
       then Raise (ConfigValidationError (UnknownTransformParam param))
       else Ok tt) ;;;
     if Config.has_duplicate cols
     then Raise (ConfigValidationError DuplicateColumns)
     else Ok tt).
Proof.
  intros Ht Hc. unfold Config.columns_of in Hc.
  destruct (Config.column_list t "scale") as [s|] eqn:Es; [|discriminate].
  destruct (Config.column_list t "dummy") as [dm|] eqn:Ed; [|discriminate].
  destruct (Config.column_list t "ordinal") as [o|] eqn:Eo; [|discriminate].
  injection Hc as <-.
  unfold validate_transform_args, Box.getattr, Box.to_dict. rewrite Ht.
  cbn [bind].
  destruct (for_each (Box.keys t) _) as [[]|e]; cbn [bind]; [|reflexivity].
  rewrite (collect_cols_strs t Es Ed Eo). cbn [bind].
  destruct (len_set_strs (s ++ dm ++ o)) as (n & -> & Hn). cbn [bind].
  now rewrite Hn, negb_involutive.
Qed.

Lemma transform_columns_inv (config : value) (cols : list string) :
  Config.transform_columns config = Some cols ->
  exists top d t, config = VBox top /\ Box.lookup "data" top = Some (VBox d)
                  /\ Box.lookup "transform" d = Some (VBox t)
                  /\ Config.columns_of t = Some cols.
Proof.
  unfold Config.transform_columns. intros H.
  destruct (Config.section config "transform") as [[| | | | |l|t]|] eqn:E;
    try discriminate.
  apply section_inv in E. destruct E as (top & d & -> & Hd & Ht).
  exists top, d, t. auto.
Qed.

End UniquenessCheck.

(** C10, as the specification words it, fails: two column lists share
    [tenure], yet the error is a [TypeError] from [float(None)], raised in
    the split block before the uniqueness check is reached. *)
Lemma duplicate_columns_counterexample :
  Config.transform_columns Samples.config_duplicate_null_ratio
  = Some ["tenure"; "MonthlyCharges"; "Contract"; "gender"; "tenure"]
  /\ Config.has_duplicate
       ["tenure"; "MonthlyCharges"; "Contract"; "gender"; "tenure"] = true
  /\ is_cve (validate_data_config Samples.no_float_of_string
               Samples.config_duplicate_null_ratio) = false.
Proof. repeat split; reflexivity. Qed.

(** C10, amended.  Let the scale, dummy and ordinal entries of the
    transform section be lists of column names and [cols] their
    concatenation.  If some name occurs twice in [cols] (in two lists or
    twice in one) and the validator can read what precedes the check (a
    load strategy that can be hashed, a split ratio [float] accepts, a
    stratify entry), [validate_data_config] raises
    [ConfigValidationError].  If the names of [cols] are all distinct, it
    never raises the error of the uniqueness check. *)
Theorem duplicate_columns_rejected :
  forall float_of_string config cols,
    Config.transform_columns config = Some cols ->
    (Config.readable float_of_string config = true ->
     Config.has_duplicate cols = true ->
     is_cve (validate_data_config float_of_string config) = true)
    /\ (Config.has_duplicate cols = false ->
        validate_data_config float_of_string config
        <> Raise (ConfigValidationError DuplicateColumns)).
Proof.
  intros fos config cols Hc.
  destruct (transform_columns_inv _ Hc) as (top & d & t & -> & Hd & Ht & Hcols).
  rewrite (validate_unfold fos _ Hd).
  rewrite (@transform_args_columns d t cols Ht Hcols).
  split.
  - intros Hr Hdup. unfold Config.readable in Hr.
    apply andb_true_iff in Hr. destruct Hr as [Hr _].
    apply andb_true_iff in Hr. destruct Hr as [Hl Hs].
    apply is_cve_seq; [apply base_args_cases|].
    apply is_cve_seq; [now apply (load_block_cases top)|].
    apply is_cve_seq; [now apply (split_block_cases fos top)|].
    apply is_cve_seq;
      [apply (for_each_reject_cases (fun k => str_in k transform_params))|].
    now rewrite Hdup.
  - intros Hnd. rewrite Hnd.
    apply nde_bind; [apply nde_base | intros ? _].
    apply nde_bind; [apply nde_load | intros ? _].
    apply nde_bind; [apply nde_split | intros ? _].
    apply nde_bind; [apply nde_for_each; discriminate | intros ? _].
    apply nde_ok.
Qed.

Lemma duplicate_columns_rejected_witness :
  Config.transform_columns Samples.config_duplicate
  = Some ["tenure"; "MonthlyCharges"; "Contract"; "gender"; "tenure"]
  /\ is_cve (validate_data_config Samples.no_float_of_string
               Samples.config_duplicate) = true.
Proof.
  split; [reflexivity|].
  apply (duplicate_columns_rejected Samples.no_float_of_string
           Samples.config_duplicate
           (cols := ["tenure"; "MonthlyCharges"; "Contract"; "gender"; "tenure"]));
    reflexivity.
Defined.

(** With distinct columns and sound sections the validator returns. *)
Example config_ok_accepted :
  forall float_of_string,
    validate_data_config float_of_string Samples.config_ok = Ok tt.
Proof. intros f. reflexivity. Qed.

(* ===================================================================== *)
(** * Loading *)
(* ===================================================================== *)

Section Loaders.

Variable w : world.

Lemma s3_loop_loaded (s3_url : string) (keys : list string)
    (dataframes : list Polars.DataFrame) (out : list printed) :
  fst (s3_loop w s3_url keys dataframes out)
  = dataframes
    ++ Loading.loaded w
         (map (fun key => String.append s3_url (String.append "/" key))
              (filter (fun key => endswith key ".csv") keys)).
Proof.
  revert dataframes out.
  induction keys as [|key keys IH]; intros dataframes out; simpl.
  - now rewrite app_nil_r.
  - destruct (endswith key ".csv"); simpl; [|apply IH].
    destruct (_read w _) as [df|e]; rewrite IH; [|reflexivity].
    now rewrite <- app_assoc.
Qed.

Lemma loaded_none (urls : list string) :
  forallb (fun url => raises (_read w url)) urls = true ->
  Loading.loaded w urls = [].
Proof.
  induction urls as [|url urls IH]; simpl; [reflexivity|].
  intros H. apply andb_true_iff in H. destruct H as [Hu Hr].
  destruct (_read w url); [discriminate | now apply IH].
Qed.

End Loaders.

(** C7.  A loading strategy that finds no matching CSV (an existing
    directory without [.csv] files; a bucket listing none of whose [.csv]
    objects loads) ends by raising the builtin [Exception]: it returns no
    frame, and the error is not a [ConfigValidationError]. *)
Theorem no_csv_raises_generic :
  forall (w : world) (s : strategy),
    Loading.finds_no_csv w s = true ->
    exists msg, snd (strategy_call w s) = Raise (Exception msg)
                /\ is_cve (snd (strategy_call w s)) = false.
Proof.
  intros w [self|self] H.
  - simpl in H. apply andb_true_iff in H. destruct H as [Hd Hn].
    eexists. unfold strategy_call, DirDataLoaderStrategy_call. simpl.
    rewrite Hd, Hn. split; reflexivity.
  - eexists. unfold strategy_call, AwsS3DataLoaderStrategy_call.
    unfold Loading.finds_no_csv, Loading.sources in H. revert H.
    destruct (s3_location w self) as [s3_url keys] eqn:El. intros H.
    pose proof (s3_loop_loaded w s3_url keys [] []) as Hloop.
    rewrite (loaded_none w _ H) in Hloop.
    destruct (s3_loop w s3_url keys [] []) as [dataframes out].
    simpl in Hloop. subst dataframes. simpl. split; reflexivity.
Qed.

Lemma no_csv_raises_generic_witness :
  Loading.finds_no_csv LoadSamples.sample_world LoadSamples.empty_dir = true
  /\ exists msg,
       snd (strategy_call LoadSamples.sample_world LoadSamples.empty_dir)
       = Raise (Exception msg)
       /\ is_cve (snd (strategy_call LoadSamples.sample_world LoadSamples.empty_dir))
          = false.
Proof.
  split; [reflexivity|].
  apply (no_csv_raises_generic LoadSamples.sample_world LoadSamples.empty_dir).
  reflexivity.
Defined.

(** The bucket of the sample world: its one [.csv] object does not load. *)
Example churn_bucket_no_data :
  strategy_call LoadSamples.sample_world LoadSamples.churn_bucket
  = ([PLoadError "raw/broken.csv" (OSError "s3://churn/raw/raw/broken.csv")],
     Raise (Exception "No data found. Check the contents in the bucket and folder")).
Proof. reflexivity. Qed.

Section Reader.

Variable w : world.

Lemma str_in_singleton (a b : string) : str_in a [b] = String.eqb a b.
Proof. unfold str_in. simpl. apply orb_false_r. Qed.

Lemma scan_column_TotalCharges (fs : list string) :
  scan_column w ["TotalCharges"] ("TotalCharges", fs)
  = ("TotalCharges", Polars.String_ (map string_field fs)).
Proof. reflexivity. Qed.

Lemma scan_column_other (n : string) (fs : list string) :
  String.eqb n "TotalCharges" = false ->
  scan_column w ["TotalCharges"] (n, fs) = (n, infer_series w fs).
Proof.
  intros E. unfold scan_column. cbn [fst snd].
  now rewrite str_in_singleton, E.
Qed.

Lemma expected_column_TotalCharges (fs : list string) :
  Loading.expected_column w ("TotalCharges", fs)
  = ("TotalCharges",
     Polars.String_
       (map (fun f => option_map Loading.replace_first_space (string_field f)) fs)).
Proof. reflexivity. Qed.

Lemma expected_column_other (n : string) (fs : list string) :
  String.eqb n "TotalCharges" = false ->
  Loading.expected_column w (n, fs) = (n, infer_series w fs).
Proof.
  intros E. unfold Loading.expected_column. cbn [fst snd]. now rewrite E.
Qed.

Lemma column_cons (x n : string) (s : Polars.series) (df : Polars.DataFrame) :
  Polars.column x ((n, s) :: df)
  = if String.eqb x n then Some s else Polars.column x df.
Proof. reflexivity. Qed.

Lemma with_column_cons (x n : string) (s t : Polars.series) (df : Polars.DataFrame) :
  Polars.with_column x s ((n, t) :: df)
  = if String.eqb x n then (n, s) :: df else (n, t) :: Polars.with_column x s df.
Proof. reflexivity. Qed.

Lemma scanned_other (table : csv) :
  ~ In "TotalCharges" (map fst table) ->
  map (scan_column w ["TotalCharges"]) table = Loading.expected_frame w table.
Proof.
  unfold Loading.expected_frame.
  induction table as [|[n fs] table IH]; cbn [map fst]; [reflexivity|].
  intros H. rewrite IH by (intros Hin; apply H; now right).
  destruct (String.eqb n "TotalCharges") eqn:E.
  - apply String.eqb_eq in E. subst n. exfalso. apply H. now left.
  - now rewrite (scan_column_other n fs E), (expected_column_other n fs E).
Qed.

Lemma replace_scanned (table : csv) :
  NoDup (map fst table) -> In "TotalCharges" (map fst table) ->
  replace_TotalCharges (map (scan_column w ["TotalCharges"]) table)
  = Ok (Loading.expected_frame w table).
Proof.
  unfold replace_TotalCharges, Loading.expected_frame.
  induction table as [|[n fs] table IH]; cbn [map fst]; [contradiction|].
  intros Hnd Hin. inversion Hnd as [|? ? Hn Hnd']; subst.
  destruct (String.eqb n "TotalCharges") eqn:E.
  - apply String.eqb_eq in E. subst n.
    rewrite scan_column_TotalCharges, expected_column_TotalCharges.
    rewrite column_cons, String.eqb_refl.
    rewrite with_column_cons, String.eqb_refl.
    rewrite (scanned_other table Hn). now rewrite map_map.
  - destruct Hin as [Hin|Hin]; [subst n; now rewrite String.eqb_refl in E|].
    specialize (IH Hnd' Hin).
    rewrite (scan_column_other n fs E), (expected_column_other n fs E).
    rewrite column_cons, (String.eqb_sym "TotalCharges" n), E.
    destruct (Polars.column "TotalCharges"
                (map (scan_column w ["TotalCharges"]) table)) as [[l|l|l]|];
      try discriminate.
    rewrite with_column_cons, (String.eqb_sym "TotalCharges" n), E.
    injection IH as IH. now rewrite IH.
Qed.

(** What [_read] returns for a CSV that has the [TotalCharges] column. *)
Lemma read_expected (path : string) (table : csv) :
  read_text w path = Some table ->
  NoDup (map fst table) -> In "TotalCharges" (map fst table) ->
  _read w path = Ok (Loading.expected_frame w table).
Proof.
  intros Hr Hnd Hin. unfold _read, scan_csv. rewrite Hr. cbn [bind].
  now apply replace_scanned.
Qed.

Lemma map_result_expected (paths : list string) (tables : list csv) :
  Forall2 (fun path table =>
             read_text w path = Some table /\ NoDup (map fst table)
             /\ In "TotalCharges" (map fst table)) paths tables ->
  map_result (_read w) paths = Ok (map (Loading.expected_frame w) tables).
Proof.
  induction 1 as [|path table paths tables (Hr & Hnd & Hin) _ IH]; simpl.
  - reflexivity.
  - rewrite (read_expected path Hr Hnd Hin). cbn [bind].
    rewrite IH. reflexivity.
Qed.

End Reader.

Section FirstSpace.

Lemma replace_first_space_none (s : string) :
  Loading.has_space s = false -> Loading.replace_first_space s = s.
Proof.
  unfold Loading.replace_first_space.
  induction s as [|c s IH]; simpl; [reflexivity|].
  intros H. apply orb_false_iff in H. destruct H as [Hc Hs].
  rewrite Hc. now rewrite IH.
Qed.

Lemma replace_first_space_first (a b : string) :
  Loading.has_space a = false ->
  Loading.replace_first_space (String.append a (String " " b))
  = String.append a (String "0" b).
Proof.
  unfold Loading.replace_first_space.
  induction a as [|c a IH]; simpl; [reflexivity|].
  intros H. apply orb_false_iff in H. destruct H as [Hc Ha].
  rewrite Hc. now rewrite IH.
Qed.

End FirstSpace.

(** The S3 strategy on a bucket whose CSV loads: the frame is read, then
    the call of [pl.concat] with [ignore_index=True] is refused. *)
Example telco_bucket_concat :
  strategy_call LoadSamples.sample_world LoadSamples.telco_bucket
  = ([PStr "Loaded: telco.csv"],
     Raise (TypeError "concat() got an unexpected keyword argument 'ignore_index'")).
Proof. reflexivity. Qed.

(** C9, as the specification words it, fails: the value ["1 2 3"] of
    [TotalCharges] is returned as ["102 3"]; with every space replaced it
    would be ["10203"]. *)
Lemma every_space_counterexample :
  bind (snd (strategy_call LoadSamples.sample_world LoadSamples.data_dir))
       (fun df => Ok (Polars.column "TotalCharges" df))
  = Ok (Some (Polars.String_ [Some "29.85"; Some "0"; Some "102 3"]))
  /\ map Loading.replace_every_space ["29.85"; " "; "1 2 3"]
     = ["29.85"; "0"; "10203"].
Proof. split; reflexivity. Qed.

(** Scanning every file and then evaluating every frame gives the frames
    that reading the files one by one gives, when all of them read. *)
Lemma map_result_two_phase (w : world) (paths : list string)
    (frames : list Polars.DataFrame) :
  map_result (_read w) paths = Ok frames <->
  exists scanned,
    map_result (fun path => scan_csv w path ["TotalCharges"]) paths = Ok scanned
    /\ map_result replace_TotalCharges scanned = Ok frames.
Proof.
  revert frames. induction paths as [|p ps IH]; intros frames; simpl.
  - split.
    + intros H. injection H as <-. exists []. auto.
    + intros (scanned & H1 & H2). injection H1 as <-. exact H2.
  - unfold _read at 1.
    destruct (scan_csv w p ["TotalCharges"]) as [df|e]; cbn [bind].
    + destruct (replace_TotalCharges df) as [f|e] eqn:Er; cbn [bind].
      * destruct (map_result (_read w) ps) as [fs|e] eqn:Em; cbn [bind].
        -- destruct (proj1 (IH fs) eq_refl) as (sc & H1 & H2). rewrite H1.
           cbn [bind]. split.
           ++ intros H. injection H as <-. exists (df :: sc). split; [reflexivity|].
              simpl. rewrite Er. cbn [bind]. rewrite H2. reflexivity.
           ++ intros (scanned & H & H3). injection H as <-. simpl in H3.
              rewrite Er in H3. cbn [bind] in H3. rewrite H2 in H3. exact H3.
        -- split; [discriminate|]. intros (scanned & H1 & H2).
           destruct (map_result (fun path => scan_csv w path ["TotalCharges"]) ps)
             as [sc|e'] eqn:Es; [|discriminate].
           cbn [bind] in H1. injection H1 as <-. simpl in H2.
           rewrite Er in H2. cbn [bind] in H2.
           destruct (map_result replace_TotalCharges sc) as [fs|e''] eqn:Ef;
             [|discriminate].
           assert (@Raise (list Polars.DataFrame) e = Ok fs) as Hc
             by (apply IH; exists sc; auto).
           discriminate Hc.
      * split; [discriminate|]. intros (scanned & H1 & H2).
        destruct (map_result (fun path => scan_csv w path ["TotalCharges"]) ps)
          as [sc|e']; [|discriminate].
        cbn [bind] in H1. injection H1 as <-. simpl in H2.
        rewrite Er in H2. discriminate.
    + split; [discriminate|]. intros (scanned & H1 & _). discriminate.
Qed.

(** The dir strategy once every file reads and every frame evaluates. *)
Lemma dir_collect (w : world) (paths : list string)
    (frames : list Polars.DataFrame) :
  map_result (_read w) paths = Ok frames ->
  (scanned <- map_result (fun path => scan_csv w path ["TotalCharges"]) paths ;;
   frames <- map_result replace_TotalCharges scanned ;;
   Polars.concat frames [Polars.How_vertical])
  = Polars.concat frames [Polars.How_vertical].
Proof.
  intros H. apply map_result_two_phase in H. destruct H as (scanned & H1 & H2).
  rewrite H1. cbn [bind]. rewrite H2. reflexivity.
Qed.

(** C9, amended.  For every CSV either strategy reads that has a
    [TotalCharges] column, that column is read as strings and in each of
    its values the first space, and only the first, is replaced by "0";
    every other column is returned as polars infers it.  The dir strategy
    returns these frames stacked in the order of its paths. *)
Theorem total_charges_first_space_replaced :
  forall (w : world) (self : DirDataLoaderStrategy) (tables : list csv),
    is_dir w (dir self) = true ->
    glob_csv w (dir self) <> [] ->
    Forall2 (fun path table =>
               read_text w path = Some table /\ NoDup (map fst table)
               /\ In "TotalCharges" (map fst table))
            (glob_csv w (dir self)) tables ->
    DirDataLoaderStrategy_call w self
    = Polars.concat (map (Loading.expected_frame w) tables) [Polars.How_vertical]
    /\ (forall url table,
          read_text w url = Some table -> NoDup (map fst table) ->
          In "TotalCharges" (map fst table) ->
          _read w url = Ok (Loading.expected_frame w table))
    /\ (forall a b,
          Loading.has_space a = false ->
          Loading.replace_first_space (String.append a (String " " b))
          = String.append a (String "0" b))
    /\ (forall s,
          Loading.has_space s = false -> Loading.replace_first_space s = s).
Proof.
  intros w self tables Hd Hne Hall. repeat split.
  - unfold DirDataLoaderStrategy_call. rewrite Hd.
    destruct (glob_csv w (dir self)) as [|p ps] eqn:Eg; [contradiction|].
    cbn [List.length Nat.eqb].
    now rewrite (dir_collect w _ (map_result_expected w Hall)).
  - intros url table. apply read_expected.
  - apply replace_first_space_first.
  - apply replace_first_space_none.
Qed.

Lemma total_charges_first_space_replaced_witness :
  DirDataLoaderStrategy_call LoadSamples.sample_world {| dir := "data" |}
  = Polars.concat
      (map (Loading.expected_frame LoadSamples.sample_world)
           [LoadSamples.telco_csv]) [Polars.How_vertical].
Proof.
  apply (@total_charges_first_space_replaced LoadSamples.sample_world
           {| dir := "data" |} [LoadSamples.telco_csv]).
  - reflexivity.
  - discriminate.
  - repeat constructor; simpl; intuition discriminate.
Defined.

(** The frames the S3 strategy hands to [pl.concat] are the ones [_read]
    returns for the [.csv] keys that load, in listing order. *)
Lemma s3_frames_loaded (w : world) (self : AwsS3DataLoaderStrategy) :
  fst (let (s3_url, keys) := s3_location w self in s3_loop w s3_url keys [] [])
  = Loading.loaded w (Loading.sources w (AwsS3 self)).
Proof.
  unfold Loading.sources. destruct (s3_location w self) as [s3_url keys].
  apply (s3_loop_loaded w s3_url keys [] []).
Qed.

(* ===================================================================== *)
(** * Schema validation *)
(* ===================================================================== *)

(** C2 (the code departs from the claim).  [PaperlessBilling] is one of
    the categorical columns and "Maybe" is outside its allowed values, yet
    [DataEngine.validate] prints nothing and returns the frame: the
    column is declared with [checks=None] although the [checks] table has
    an entry for it. *)
Theorem paperless_billing_not_checked :
  forall astype coerce_value,
    str_in "PaperlessBilling" categorical_columns = true
    /\ allowed_values "PaperlessBilling" = strs_of ["Yes"; "No"]
    /\ existsb (fun a => Builtins.py_eq a (VStr "Maybe"))
         (allowed_values "PaperlessBilling") = false
    /\ Polars.column "PaperlessBilling" Frames.paperless_bad
       = Some (Frames.text ["Maybe"; "No"])
    /\ DataEngine.validate astype coerce_value Frames.paperless_bad
       = ([], Ok Frames.paperless_bad).
Proof. intros astype coerce_value. repeat split; reflexivity. Qed.

Section FailureTable.

Variable astype : Pandas.dtype -> Pandas.series -> option Pandas.series.
Variable coerce_value : Pandas.dtype -> value -> bool.

Lemma In_indexed {A} (l : list A) (start i : nat) (v : A) :
  nth_error l i = Some v -> In ((start + i)%nat, v) (indexed start l).
Proof.
  revert start i. induction l as [|x l IH]; intros start i H.
  - destruct i; discriminate.
  - destruct i as [|i]; simpl in *.
    + injection H as ->. left. f_equal. lia.
    + right. replace (start + S i)%nat with (S start + i)%nat by lia.
      now apply IH.
Qed.

Lemma indexed_In {A} (l : list A) (start k : nat) (v : A) :
  In (k, v) (indexed start l) ->
  exists i, k = (start + i)%nat /\ nth_error l i = Some v.
Proof.
  revert start. induction l as [|x l IH]; intros start H; simpl in H.
  - contradiction.
  - destruct H as [H|H].
    + injection H as <- <-. exists 0%nat. split; [lia | reflexivity].
    + destruct (IH _ H) as (i & -> & Hi). exists (S i). split; [lia | exact Hi].
Qed.

(** A missing value in a column that is not nullable has its row. *)
Lemma check_nullable_complete (name : string) (spec : Pandera.Column)
    (cells : list value) (i : nat) (v : value) :
  Pandera.nullable spec = false ->
  nth_error cells i = Some v -> Pandas.isna v = true ->
  In {| Pandera.fc_column := Some name; Pandera.fc_check := Pandera.not_nullable;
        Pandera.fc_value := Some v; Pandera.fc_index := Some i |}
     (Pandera.check_nullable name spec cells).
Proof.
  intros Hn Hi Hv. unfold Pandera.check_nullable. rewrite Hn.
  apply in_map_iff. exists (i, v). split; [reflexivity|].
  apply filter_In. split; [|exact Hv].
  now apply (In_indexed cells 0).
Qed.

(** An element that fails a check has its row, unless evaluating the
    check on the column raises. *)
Lemma run_check_complete (name : string) (cells : list value) (c : Pandera.Check)
    (i : nat) (v : value) :
  (forall j u, nth_error cells j = Some u -> Pandas.isna u = false ->
               Pandera.check_element c u <> None) ->
  nth_error cells i = Some v -> Pandas.isna v = false ->
  Pandera.check_element c v = Some false ->
  In {| Pandera.fc_column := Some name; Pandera.fc_check := Pandera.check_failed c;
        Pandera.fc_value := Some v; Pandera.fc_index := Some i |}
     (Pandera.run_check name cells c).
Proof.
  intros Hev Hi Hna Hc. unfold Pandera.run_check.
  assert (forallb (Pandera.evaluates c)
            (filter Pandera.not_na (indexed 0 cells)) = true) as ->.
  { apply forallb_forall. intros [j u] Hin. apply filter_In in Hin.
    destruct Hin as [Hin Hu]. apply indexed_In in Hin.
    destruct Hin as (j' & -> & Hj). unfold Pandera.not_na in Hu. simpl in Hu.
    apply negb_true_iff in Hu. specialize (Hev _ _ Hj Hu).
    unfold Pandera.evaluates. simpl.
    destruct (Pandera.check_element c u); [reflexivity | contradiction]. }
  apply in_map_iff. exists (i, v). split; [reflexivity|].
  apply filter_In. split.
  - apply filter_In. split; [now apply (In_indexed cells 0)|].
    unfold Pandera.not_na. simpl. now rewrite Hna.
  - unfold Pandera.fails. simpl. now rewrite Hc.
Qed.

(** [isin] never raises. *)
Lemma isin_evaluates (allowed : list value) (u : value) :
  Pandera.check_element (Pandera.isin allowed) u <> None.
Proof. discriminate. Qed.

(** The three parts of the table. *)
Lemma presence_failures_In (schema : Pandera.DataFrameSchema)
    (df : Pandas.DataFrame) (name : string) (spec : Pandera.Column)
    (fc : Pandera.failure_case) :
  In (name, spec) (Pandera.columns schema) ->
  In fc (Pandera.presence_failures df (name, spec)) ->
  In fc (Pandera.failures astype coerce_value schema df).
Proof.
  intros Hin Hfc. unfold Pandera.failures.
  apply in_or_app. left. apply in_or_app. right.
  apply in_flat_map. exists (name, spec). auto.
Qed.

Lemma coerce_failures_In (schema : Pandera.DataFrameSchema)
    (df : Pandas.DataFrame) (name : string) (spec : Pandera.Column)
    (s : Pandas.series) (fc : Pandera.failure_case) :
  In (name, spec) (Pandera.columns schema) ->
  Pandas.column name df = Some s ->
  In fc (Pandera.coerce_failures astype coerce_value schema name spec s) ->
  In fc (Pandera.failures astype coerce_value schema df).
Proof.
  intros Hin Hcol Hfc. unfold Pandera.failures.
  apply in_or_app. right. apply in_or_app. left.
  apply in_flat_map. exists (name, spec).
  split; [exact Hin|]. unfold Pandera.coercion_failures. now rewrite Hcol.
Qed.

Lemma column_failures_In (schema : Pandera.DataFrameSchema)
    (df : Pandas.DataFrame) (name : string) (spec : Pandera.Column)
    (s : Pandas.series) (fc : Pandera.failure_case) :
  In (name, spec) (Pandera.columns schema) ->
  Pandas.column name df = Some s ->
  In fc (Pandera.validate_column name spec
           (Pandera.checked_series astype schema spec s)) ->
  In fc (Pandera.failures astype coerce_value schema df).
Proof.
  intros Hin Hcol Hfc. unfold Pandera.failures.
  apply in_or_app. right. apply in_or_app. right.
  apply in_flat_map. exists (name, spec).
  split; [exact Hin|]. unfold Pandera.column_failures. now rewrite Hcol.
Qed.

Lemma DataSchema_not_nullable (name : string) (spec : Pandera.Column) :
  In (name, spec) (Pandera.columns DataSchema) -> Pandera.nullable spec = false.
Proof.
  intros H.
  assert (forallb (fun e => negb (Pandera.nullable (snd e)))
            (Pandera.columns DataSchema) = true) as Hall by reflexivity.
  rewrite forallb_forall in Hall. specialize (Hall _ H). simpl in Hall.
  now apply negb_true_iff in Hall.
Qed.

Lemma dtype_eqb_eq (a b : Pandas.dtype) : Pandas.dtype_eqb a b = true <-> a = b.
Proof. destruct a, b; simpl; split; congruence. Qed.

Lemma dtype_eqb_neq (a b : Pandas.dtype) : a <> b -> Pandas.dtype_eqb a b = false.
Proof.
  intros H. destruct (Pandas.dtype_eqb a b) eqn:E; [|reflexivity].
  apply dtype_eqb_eq in E. contradiction.
Qed.

(** A cast that fails, as the model computes it. *)
Lemma cast_fails_coerce_series (d : Pandas.dtype) (s : Pandas.series) :
  Violation.cast_fails astype d s -> Pandera.coerce_series astype d s = None.
Proof.
  intros (Hne & Hobj & Hcast). unfold Pandera.coerce_series.
  rewrite (dtype_eqb_neq Hne). destruct d; [exact Hcast | exact Hcast | contradiction].
Qed.

(** The series the checks run on is the one the frame tells. *)
Lemma checked_series_checked (schema : Pandera.DataFrameSchema)
    (spec : Pandera.Column) (s s' : Pandas.series) :
  Pandera.schema_coerce schema || Pandera.coerce spec = true ->
  Violation.checked astype (Pandera.dtype spec) s s' ->
  Pandera.checked_series astype schema spec s = s'.
Proof.
  intros Hc H. unfold Pandera.checked_series, Pandera.coerce_series. rewrite Hc.
  destruct H as [Heq | Hne Hobj | s' Hne Hobj Hcast | Hne Hobj Hcast].
  - apply dtype_eqb_eq in Heq. now rewrite Heq.
  - rewrite (dtype_eqb_neq Hne), Hobj. reflexivity.
  - rewrite (dtype_eqb_neq Hne).
    destruct (Pandera.dtype spec); [now rewrite Hcast | now rewrite Hcast | contradiction].
  - rewrite (dtype_eqb_neq Hne).
    destruct (Pandera.dtype spec); [now rewrite Hcast | now rewrite Hcast | contradiction].
Qed.

(** Every violation of a frame has its row in the table. *)
Lemma violation_reported (schema : Pandera.DataFrameSchema) (df : Pandas.DataFrame)
    (x : Violation.t) :
  Violation.occurs astype coerce_value schema df x ->
  Violation.reported x (Pandera.failures astype coerce_value schema df).
Proof.
  destruct x as [name | name d i v | name d actual | name i v | name c i v]; simpl.
  - intros (spec & Hin & Hreq & Hcol).
    apply presence_failures_In with (name := name) (spec := spec); [exact Hin|].
    unfold Pandera.presence_failures. rewrite Hcol, Hreq. now left.
  - intros (spec & s & Hin & Hco & Hd & Hcol & Hfail & Hi & Hv).
    exists (Some name).
    apply coerce_failures_In with (name := name) (spec := spec) (s := s);
      [exact Hin | exact Hcol |].
    unfold Pandera.coerce_failures. rewrite Hco, Hd.
    rewrite (cast_fails_coerce_series Hfail).
    apply in_map_iff. exists (i, v). split; [reflexivity|].
    apply filter_In. split; [now apply (In_indexed _ 0)|].
    simpl. now rewrite Hv.
  - intros (spec & s & Hin & Hco & Hd & Hcol & Hfail & Hact).
    apply column_failures_In with (name := name) (spec := spec) (s := s);
      [exact Hin | exact Hcol |].
    assert (Pandera.checked_series astype schema spec s = s) as ->.
    { unfold Pandera.checked_series. rewrite Hco, Hd.
      now rewrite (cast_fails_coerce_series Hfail). }
    unfold Pandera.validate_column. apply in_or_app. right.
    apply in_or_app. left. unfold Pandera.check_dtype.
    destruct Hfail as (Hne & _). rewrite Hd, (dtype_eqb_neq Hne), Hact.
    now left.
  - intros (spec & s & s' & Hin & Hco & Hnull & Hcol & Hch & Hi & Hv).
    apply column_failures_In with (name := name) (spec := spec) (s := s);
      [exact Hin | exact Hcol |].
    rewrite (checked_series_checked schema spec Hco Hch).
    unfold Pandera.validate_column. apply in_or_app. left.
    now apply check_nullable_complete.
  - intros (spec & s & s' & Hin & Hco & Hc & Hcol & Hch & Hev & Hi & Hna & Hf).
    apply column_failures_In with (name := name) (spec := spec) (s := s);
      [exact Hin | exact Hcol |].
    rewrite (checked_series_checked schema spec Hco Hch).
    unfold Pandera.validate_column. apply in_or_app. right.
    apply in_or_app. right. apply in_flat_map. exists c. split; [exact Hc|].
    now apply run_check_complete.
Qed.

Lemma reported_nonempty (x : Violation.t) (table : list Pandera.failure_case) :
  Violation.reported x table -> table <> [].
Proof.
  destruct x; simpl; intros H; try destruct H as [column H];
    intros ->; contradiction.
Qed.

(** The run of [DataEngine.validate] on a frame whose table has a row. *)
Lemma validate_raises (data : Polars.DataFrame) :
  Pandera.failures astype coerce_value DataSchema (Pandas.of_polars data) <> [] ->
  DataEngine.validate astype coerce_value data
  = ([ PStr "Schema errors and failure cases:";
       PFailureCases
         (Pandera.failures astype coerce_value DataSchema (Pandas.of_polars data));
       PStr (String.append newline "DataFrame object that failed validation:");
       PData (Pandera.coerced astype DataSchema (Pandas.of_polars data)) ],
     Raise (Exception "Schema errors and failure cases")).
Proof.
  intros H. unfold DataEngine.validate, Pandera.validate.
  destruct (Pandera.failures astype coerce_value DataSchema (Pandas.of_polars data));
    [contradiction | reflexivity].
Qed.

End FailureTable.

(** A frame that fits the schema is returned as it came, nothing is
    printed. *)
Example valid_frame_accepted :
  forall astype coerce_value,
    DataEngine.validate astype coerce_value Frames.valid = ([], Ok Frames.valid).
Proof. intros astype coerce_value. reflexivity. Qed.

(** The table of a frame with two bad cells holds both. *)
Example gender_bad_table :
  Pandera.failures Frames.no_astype Frames.no_coerce_value DataSchema
    (Pandas.of_polars Frames.gender_bad)
  = [ {| Pandera.fc_column := Some "gender";
         Pandera.fc_check :=
           Pandera.check_failed (Pandera.isin (strs_of ["Male"; "Female"]));
         Pandera.fc_value := Some (VStr "F"); Pandera.fc_index := Some 0%nat |};
      {| Pandera.fc_column := Some "gender";
         Pandera.fc_check :=
           Pandera.check_failed (Pandera.isin (strs_of ["Male"; "Female"]));
         Pandera.fc_value := Some (VStr "M"); Pandera.fc_index := Some 1%nat |} ].
Proof. reflexivity. Qed.

(** C6.  When the frame has a schema violation (a required column that
    is missing, a column that cannot be cast to its dtype, a missing
    value, an element that fails a check of its column),
    [DataEngine.validate] prints the failure table and the frame and
    raises once, and the one table it prints holds a row for every
    violation of the frame, not just for the first: each missing column,
    each element that cannot be cast, each column left with a wrong
    dtype, each missing value and each element that fails a check. *)
Theorem validate_collects_all_failures :
  forall astype coerce_value (data : Polars.DataFrame) (x : Violation.t),
    Violation.occurs astype coerce_value DataSchema (Pandas.of_polars data) x ->
    exists table frame,
      DataEngine.validate astype coerce_value data
      = ([ PStr "Schema errors and failure cases:";
           PFailureCases table;
           PStr (String.append newline "DataFrame object that failed validation:");
           PData frame ],
         Raise (Exception "Schema errors and failure cases"))
      /\ forall y,
           Violation.occurs astype coerce_value DataSchema (Pandas.of_polars data) y ->
           Violation.reported y table.
Proof.
  intros astype coerce_value data x Hx.
  exists (Pandera.failures astype coerce_value DataSchema (Pandas.of_polars data)),
         (Pandera.coerced astype DataSchema (Pandas.of_polars data)).
  split.
  - apply validate_raises. apply (@reported_nonempty x).
    now apply violation_reported.
  - intros y Hy. now apply violation_reported.
Qed.

Lemma validate_collects_all_failures_witness :
  exists table frame,
    DataEngine.validate Frames.no_astype Frames.no_coerce_value Frames.gender_bad
    = ([ PStr "Schema errors and failure cases:";
         PFailureCases table;
         PStr (String.append newline "DataFrame object that failed validation:");
         PData frame ],
       Raise (Exception "Schema errors and failure cases"))
    /\ forall y,
         Violation.occurs Frames.no_astype Frames.no_coerce_value DataSchema
           (Pandas.of_polars Frames.gender_bad) y ->
         Violation.reported y table.
Proof.
  apply (@validate_collects_all_failures Frames.no_astype Frames.no_coerce_value
           Frames.gender_bad
           (Violation.FailedCheck "gender" (Pandera.isin (strs_of ["Male"; "Female"]))
              0 (VStr "F"))).
  exists (pa_Column Pandas.DObject (checks_get "gender")),
         (Pandas.SObject [VStr "F"; VStr "M"]),
         (Pandas.SObject [VStr "F"; VStr "M"]).
  split; [apply (@nth_error_In _ (Pandera.columns DataSchema) 1); reflexivity|].
  split; [reflexivity|].
  split; [left; reflexivity|].
  split; [reflexivity|].
  split; [apply Violation.kept; reflexivity|].
  split; [intros j u _ _; discriminate|].
  repeat split; reflexivity.
Defined.

(** A cell of a checked column outside its allowed values makes
    [DataEngine.validate] raise.  This covers the categorical columns
    whose [pa.Column] takes its checks from the [checks] table. *)
Lemma checked_column_rejects :
  forall astype coerce_value (data : Polars.DataFrame) name spec s allowed i v,
    In (name, spec) (Pandera.columns DataSchema) ->
    In (Pandera.isin allowed) (Pandera.checks_of spec) ->
    Pandas.column name (Pandas.of_polars data) = Some s ->
    nth_error (Pandas.objects (Pandera.checked_series astype DataSchema spec s)) i
    = Some v ->
    existsb (fun a => Builtins.py_eq a v) allowed = false ->
    snd (DataEngine.validate astype coerce_value data)
    = Raise (Exception "Schema errors and failure cases").
Proof.
  intros astype coerce_value data name spec s allowed i v Hin Hc Hcol Hi Hout.
  assert (exists fc, In fc (Pandera.failures astype coerce_value DataSchema
                              (Pandas.of_polars data)))
    as [fc Hfc].
  { destruct (Pandas.isna v) eqn:Hna; eexists;
      (apply column_failures_In with (name := name) (spec := spec) (s := s);
       [exact Hin | exact Hcol |]);
      unfold Pandera.validate_column.
    - apply in_or_app. left. eapply check_nullable_complete; eauto.
      now apply DataSchema_not_nullable with (name := name).
    - apply in_or_app. right. apply in_or_app. right.
      apply in_flat_map. exists (Pandera.isin allowed). split; [exact Hc|].
      apply run_check_complete with (i := i) (v := v); auto.
      + intros; discriminate.
      + simpl. now rewrite Hout. }
  rewrite validate_raises; [reflexivity|].
  intros E. rewrite E in Hfc. contradiction.
Qed.

(* ===================================================================== *)
(** * The transformer output is frozen *)
(* ===================================================================== *)

Section Frozen.

Import Dataclasses.

Variable V : Type.

Lemma heap_set_same (heap : list (instance V)) (obj : nat) (o : instance V) :
  nth_error heap obj = Some o -> heap_set heap obj o = heap.
Proof.
  revert obj. induction heap as [|x heap IH]; intros [|obj]; simpl;
    try discriminate; try reflexivity.
  - intros H. now injection H as ->.
  - intros H. now rewrite (IH _ H).
Qed.






End Frozen.

(** The constructor gives the object of the four fields. *)
Lemma TransformerOutput_init (ndarray : Type) (t : TransformerOutput ndarray) :
  Dataclasses.init TransformerOutput_class
    [X_train t; X_test t; y_train t; y_test t]
  = Ok (TransformerOutput_object t).
Proof. reflexivity. Qed.

Lemma run_ok (V : Type) (heap heap' : list (Dataclasses.instance V))
    (st : Dataclasses.statement V) (prog : list (Dataclasses.statement V)) :
  Dataclasses.exec heap st = Ok heap' ->
  Dataclasses.run heap (st :: prog) = Dataclasses.run heap' prog.
Proof. intros H. cbn [Dataclasses.run]. now rewrite H. Qed.

(** The statements of [DataEngine.transform] on its bundle are ordinary
    ones, raise nothing and leave the new bundle at the end of the heap. *)
Lemma transform_statements_run (ndarray : Type)
    (heap : list (Dataclasses.instance ndarray)) (t : TransformerOutput ndarray) :
  forallb (@Dataclasses.ordinary ndarray) (transform_statements t (List.length heap))
  = true
  /\ Dataclasses.run heap (transform_statements t (List.length heap))
     = (heap ++ [TransformerOutput_object t], []).
Proof.
  split; [reflexivity|].
  assert (nth_error (heap ++ [TransformerOutput_object t]) (List.length heap)
          = Some (TransformerOutput_object t)) as Hb.
  { rewrite nth_error_app2 by lia. now rewrite Nat.sub_diag. }
  assert (forall name v,
            Dataclasses.getattr (TransformerOutput_object t) name = Ok v ->
            Dataclasses.exec (heap ++ [TransformerOutput_object t])
              (Dataclasses.Read (List.length heap) name)
            = Ok (heap ++ [TransformerOutput_object t])) as Hread.
  { intros name v Hg. cbn [Dataclasses.exec]. unfold Dataclasses.on_object.
    rewrite Hb, Hg. cbn [bind]. now rewrite (@heap_set_same ndarray _ _ _ Hb). }
  unfold transform_statements.
  rewrite (@run_ok _ heap (heap ++ [TransformerOutput_object t]))
    by (cbn [Dataclasses.exec]; now rewrite TransformerOutput_init).
  rewrite (@run_ok _ _ _ _ _ (Hread "X_train" (X_train t) eq_refl)).
  rewrite (@run_ok _ _ _ _ _ (Hread "y_train" (y_train t) eq_refl)).
  rewrite (@run_ok _ _ _ _ _ (Hread "X_test" (X_test t) eq_refl)).
  rewrite (@run_ok _ _ _ _ _ (Hread "y_test" (y_test t) eq_refl)).
  reflexivity.
Qed.



(** The dir strategy, whose dataclass is not frozen, rebinds its field:
    [self.dir = Path(self.dir)]. *)
Example dir_strategy_rebinds :
  Dataclasses.run []
    [ Dataclasses.Construct DirDataLoaderStrategy_class ["data"];
      Dataclasses.Assign 0 "dir" "./data" ]
  = ([ {| Dataclasses.type_of := DirDataLoaderStrategy_class;
          Dataclasses.attrs := [("dir", "./data")] |} ],
     []).
Proof. reflexivity. Qed.

(* ===================================================================== *)
(** * The flow *)
(* ===================================================================== *)

Section FlowOrder.

Import Engine.

Lemma runs_app (l1 l2 : list event) : runs (l1 ++ l2) = runs l1 ++ runs l2.
Proof.
  induction l1 as [|[t|t|m] l1 IH]; simpl; [reflexivity| |exact IH|exact IH].
  now rewrite IH.
Qed.

Lemma attempts_runs {A} (name : task) (retries : nat) (body : result A) :
  runs (fst (attempts name retries body)) = [] /\ snd (attempts name retries body) = body.
Proof.
  induction retries as [|r IH]; destruct body as [a|e]; simpl; auto.
  destruct (attempts name r (Raise e)) as [log res]. simpl in *. exact IH.
Qed.

Lemma task_run_runs {A} (name : task) (retries : nat) (body : result A) :
  runs (fst (task_run name retries body)) = [name]
  /\ snd (task_run name retries body) = body.
Proof.
  unfold task_run. destruct (attempts_runs name retries body) as [Hr Hs].
  destruct (attempts name retries body) as [log res]. simpl in *.
  rewrite Hr. auto.
Qed.

Lemma follows_task {A B} (order : list task) (name : task) (retries : nat)
    (body : result A) (k : A -> Log.t event B) :
  (forall a, follows order (k a)) ->
  follows (name :: order) (Log.bind (task_run name retries body) k).
Proof.
  intros Hk. destruct (task_run_runs name retries body) as [Hr Hs].
  destruct (task_run name retries body) as [log res]. simpl in Hr, Hs. subst res.
  unfold follows. destruct body as [a|e]; simpl.
  - destruct (Hk a) as [[j Hj] Hok]. destruct (k a) as [log' r]. simpl in *.
    rewrite runs_app, Hr. split.
    + exists (S j). simpl. now rewrite Hj.
    + intros b Hb. simpl. now rewrite (Hok b Hb).
  - split; [|discriminate]. exists 1%nat. simpl. exact Hr.
Qed.

Lemma follows_info {B} (order : list task) (msg : string) (k : Log.t event B) :
  follows order k -> follows order (Log.bind (logger_info msg) (fun _ => k)).
Proof.
  intros [[j Hj] Hok]. unfold follows, logger_info, Log.emit. simpl.
  destruct k as [log r]. simpl in *. split; [now exists j | exact Hok].
Qed.

Lemma follows_done (msg : string) : follows [] (logger_info msg).
Proof.
  unfold follows, logger_info, Log.emit. split; [now exists 0%nat | reflexivity].
Qed.

Lemma In_firstn {T} (k : nat) (l : list T) (x : T) :
  In x (firstn k l) -> In x l.
Proof.
  intros H. rewrite <- (firstn_skipn k l). apply in_or_app. now left.
Qed.

Lemma follows_not_in {A} (order : list task) (c : Log.t event A) (t : task) :
  follows order c -> ~ In t order -> ~ In t (runs (fst c)).
Proof.
  intros [[k Hk] _] Hn Hin. rewrite Hk in Hin.
  apply Hn. now apply In_firstn in Hin.
Qed.

End FlowOrder.

(** C1 (the code departs from the claim).  Whatever the imported
    functions do, the task runs of [workflow] are a prefix of
    setup, load, split, transform, train, tune, visualize, publish, and
    all of them when the flow ends normally: the [data_validator] task,
    which the specified order has between load and split, is never run,
    and what [DataEngine.validate] would say of the loaded frame changes
    nothing of the run. *)
Theorem workflow_skips_validation :
  forall (Results TunerOutput Study ndarray : Type)
         (env : Engine.imports Results TunerOutput Study ndarray)
         (config_path : string),
    follows Engine.coded_order (Engine.workflow env config_path)
    /\ ~ In Engine.data_validator_task
           (Engine.runs (fst (Engine.workflow env config_path)))
    /\ In Engine.data_validator_task Engine.specified_order
    /\ forall validate,
         Engine.workflow (Engine.with_validate env validate) config_path
         = Engine.workflow env config_path.
Proof.
  intros Results TunerOutput Study ndarray env config_path.
  assert (follows Engine.coded_order (Engine.workflow env config_path)) as H.
  { unfold Engine.workflow, Engine.coded_order,
      Engine.setup_pipeline, Engine.data_loader, Engine.data_splits,
      Engine.data_transformer, Engine.train_models, Engine.tune_models,
      Engine.visualize_insights, Engine.push_artifacts.
    apply follows_task. intros [[[[config ROOT_DIR] viz_dir] model_dir] artifact_dir].
    apply follows_info, follows_task. intros data.
    apply follows_info, follows_task. intros [[[x1 x2] x3] x4].
    apply follows_info, follows_task. intros transformed_ds.
    apply follows_info, follows_task. intros results.
    apply follows_task. intros tuner.
    apply follows_info, follows_task. intros _.
    apply follows_info, follows_task. intros _.
    apply follows_done. }
  split; [exact H|]. split; [|split].
  - apply (follows_not_in _ H). unfold Engine.coded_order. simpl.
    intuition discriminate.
  - unfold Engine.specified_order. simpl. auto.
  - intros validate. reflexivity.
Qed.

(* ===================================================================== *)
(** * Splitting *)
(* ===================================================================== *)

Section ListFacts.

Lemma map_fst_indexed {A} (l : list A) (start : nat) :
  map fst (indexed start l) = seq start (List.length l).
Proof.
  revert start. induction l as [|x l IH]; intros start; simpl; [reflexivity|].
  now rewrite IH.
Qed.

Lemma NoDup_map_fst_filter {A B} (p : A * B -> bool) (l : list (A * B)) :
  NoDup (map fst l) -> NoDup (map fst (filter p l)).
Proof.
  induction l as [|x l IH]; simpl; intros H; [constructor|].
  inversion H as [|? ? Hx Hl]; subst.
  destruct (p x); simpl; [|now apply IH].
  constructor; [|now apply IH].
  intros Hin. apply Hx. apply in_map_iff in Hin.
  destruct Hin as (y & Hy & Hin). apply filter_In in Hin.
  apply in_map_iff. exists y. tauto.
Qed.

Lemma nth_seq_map {A} (a : list A) (d : A) :
  map (fun i => nth i a d) (seq 0 (List.length a)) = a.
Proof.
  induction a as [|x a IH]; simpl; [reflexivity|].
  f_equal. rewrite <- seq_shift, map_map. exact IH.
Qed.

Lemma sum_app (l1 l2 : list nat) :
  Sklearn.sum (l1 ++ l2) = (Sklearn.sum l1 + Sklearn.sum l2)%nat.
Proof.
  unfold Sklearn.sum. induction l1 as [|x l1 IH]; simpl; [reflexivity|].
  rewrite IH. lia.
Qed.

Lemma length_concat_sum {A} (ls : list (list A)) :
  List.length (List.concat ls) = Sklearn.sum (map (@List.length A) ls).
Proof.
  induction ls as [|l ls IH]; simpl; [reflexivity|].
  rewrite length_app, IH. reflexivity.
Qed.

(** Three lists cut in two ways hold the same elements. *)
Lemma perm_regroup (a b r t s q : list nat) :
  Permutation ((a ++ t) ++ (b ++ s) ++ (r ++ q))
              ((a ++ b ++ r) ++ (t ++ s ++ q)).
Proof.
  apply (Permutation_count_occ Nat.eq_dec). intros x.
  repeat rewrite count_occ_app. lia.
Qed.

End ListFacts.

Section TakeClip.

Lemma take_clip_in_range (a : list nat) (p : list nat) :
  Forall (fun i => i < List.length a)%nat p ->
  Sklearn.take_clip a p = map (fun i => nth i a 0%nat) p.
Proof.
  intros H. unfold Sklearn.take_clip. apply map_ext_in.
  intros i Hi. rewrite Forall_forall in H. specialize (H i Hi).
  f_equal. lia.
Qed.

(** A list read through a permutation of its positions is a permutation
    of the list. *)
Lemma take_clip_permutation (a p : list nat) :
  Permutation p (seq 0 (List.length a)) ->
  Permutation (Sklearn.take_clip a p) a.
Proof.
  intros Hp. rewrite take_clip_in_range.
  - transitivity (map (fun i => nth i a 0%nat) (seq 0 (List.length a))).
    + now apply Permutation_map.
    + now rewrite nth_seq_map.
  - apply Forall_forall. intros i Hi.
    apply (Permutation_in _ Hp) in Hi. apply in_seq in Hi. lia.
Qed.

End TakeClip.

Section Classes.

Lemma In_insert_sorted (x y : string) (l : list string) :
  In x (Sklearn.insert_sorted y l) <-> x = y \/ In x l.
Proof.
  induction l as [|z l IH]; simpl.
  - intuition.
  - destruct (String.leb y z); simpl; [intuition|]. rewrite IH. intuition.
Qed.

Lemma NoDup_insert_sorted (y : string) (l : list string) :
  ~ In y l -> NoDup l -> NoDup (Sklearn.insert_sorted y l).
Proof.
  induction l as [|z l IH]; simpl; intros Hn Hnd.
  - constructor; [intros [] | constructor].
  - destruct (String.leb y z).
    + constructor; [simpl; tauto | exact Hnd].
    + inversion Hnd as [|? ? Hz Hl]; subst. constructor.
      * rewrite In_insert_sorted. intros [->|H]; tauto.
      * apply IH; tauto.
Qed.

Lemma unique_In (labels : list string) (c : string) :
  In c (Sklearn.unique labels) <-> In c labels.
Proof.
  induction labels as [|x l IH]; simpl; [tauto|].
  destruct (str_in x (Sklearn.unique l)) eqn:E.
  - apply str_in_In in E. rewrite IH in *. split; [tauto|].
    intros [->|H]; tauto.
  - rewrite In_insert_sorted, IH. split; intros [H|H]; auto.
Qed.

Lemma unique_NoDup (labels : list string) : NoDup (Sklearn.unique labels).
Proof.
  induction labels as [|x l IH]; simpl; [constructor|].
  destruct (str_in x (Sklearn.unique l)) eqn:E; [exact IH|].
  apply NoDup_insert_sorted; [|exact IH].
  intros H. apply str_in_In in H. congruence.
Qed.

Lemma positions_of_In (labels : list string) (c : string) (i : nat) :
  In i (Sklearn.positions_of labels c) <-> nth_error labels i = Some c.
Proof.
  unfold Sklearn.positions_of. rewrite in_map_iff. split.
  - intros ([j x] & Hj & Hin). simpl in Hj. subst j.
    apply filter_In in Hin. destruct Hin as [Hin Heq]. simpl in Heq.
    apply String.eqb_eq in Heq. subst x.
    apply indexed_In in Hin. destruct Hin as (k & -> & Hk). exact Hk.
  - intros H. exists (i, c). split; [reflexivity|].
    apply filter_In. split; [|simpl; apply String.eqb_refl].
    now apply (In_indexed labels 0).
Qed.

Lemma positions_of_NoDup (labels : list string) (c : string) :
  NoDup (Sklearn.positions_of labels c).
Proof.
  unfold Sklearn.positions_of. apply NoDup_map_fst_filter.
  rewrite map_fst_indexed. apply seq_NoDup.
Qed.

Lemma NoDup_classes (labels : list string) (classes : list string) :
  NoDup classes ->
  NoDup (List.concat (map (Sklearn.positions_of labels) classes)).
Proof.
  induction classes as [|c cs IH]; simpl; intros H; [constructor|].
  inversion H as [|? ? Hc Hcs]; subst.
  apply NoDup_app; [apply positions_of_NoDup | now apply IH|].
  intros i Hi Hin. apply positions_of_In in Hi.
  apply in_concat in Hin. destruct Hin as (l & Hl & Hil).
  apply in_map_iff in Hl. destruct Hl as (c' & <- & Hc').
  apply positions_of_In in Hil. rewrite Hi in Hil. injection Hil as ->.
  contradiction.
Qed.

(** The classes cut the rows: each position belongs to one class. *)
Lemma classes_partition (labels : list string) :
  Permutation
    (List.concat (map (Sklearn.positions_of labels) (Sklearn.unique labels)))
    (seq 0 (List.length labels)).
Proof.
  apply NoDup_Permutation.
  - apply NoDup_classes, unique_NoDup.
  - apply seq_NoDup.
  - intros i. rewrite in_seq. split.
    + intros Hin. apply in_concat in Hin. destruct Hin as (l & Hl & Hil).
      apply in_map_iff in Hl. destruct Hl as (c & <- & Hc).
      apply positions_of_In in Hil.
      assert (nth_error labels i <> None) as Hn by congruence.
      apply nth_error_Some in Hn. lia.
    + intros [_ Hlt]. simpl in Hlt.
      destruct (nth_error labels i) as [c|] eqn:E.
      * apply in_concat. exists (Sklearn.positions_of labels c). split.
        -- apply in_map. apply unique_In. eapply nth_error_In; eauto.
        -- now apply positions_of_In.
      * apply nth_error_None in E. lia.
Qed.

End Classes.

Section Shuffle.

Variable ceil_mul : pyfloat -> nat -> Z.
Variable rng_permutation : Z -> nat -> nat -> list nat.
Variable approximate_mode : Z -> nat -> list nat -> nat -> list nat.
Variable number_text : Polars.series -> list string.

Hypothesis rng_ok : Splitting.permutation_contract rng_permutation.
Hypothesis mode_ok : Splitting.mode_contract approximate_mode.

Lemma shuffle_split_partition (seed : Z) (n n_train n_test : nat) :
  (n_train + n_test = n)%nat ->
  let (train, test) := Sklearn.shuffle_split rng_permutation seed n n_train n_test in
  Permutation (train ++ test) (seq 0 n)
  /\ List.length train = n_train /\ List.length test = n_test.
Proof.
  intros Hn. unfold Sklearn.shuffle_split.
  pose proof (rng_ok seed 0%nat n) as Hp.
  pose proof (Permutation_length Hp) as Hlen. rewrite length_seq in Hlen.
  set (p := rng_permutation seed 0%nat n) in *.
  assert (firstn n_train (skipn n_test p) = skipn n_test p) as ->.
  { apply firstn_all2. rewrite length_skipn. lia. }
  repeat split.
  - transitivity (firstn n_test p ++ skipn n_test p).
    + apply Permutation_app_comm.
    + now rewrite firstn_skipn.
  - rewrite length_skipn. lia.
  - rewrite length_firstn. lia.
Qed.

Lemma shuffled_permutation (seed : Z) (draw : nat) (l : list nat) :
  Permutation (Sklearn.shuffled rng_permutation seed draw l) l.
Proof. unfold Sklearn.shuffled. apply take_clip_permutation, rng_ok. Qed.

(** The loop over the classes moves rows, it neither makes nor loses
    any: what is not given to a part stays in [rest]. *)
Lemma stratified_classes_permutation (seed : Z) (class_indices : list (list nat)) :
  forall (draw : nat) (n_i t_i : list nat),
    let (train, test) :=
      Sklearn.stratified_classes rng_permutation seed draw class_indices n_i t_i in
    exists rest, Permutation (train ++ test ++ rest) (List.concat class_indices).
Proof.
  induction class_indices as [|indices cls IH]; intros draw n_i t_i.
  - simpl. exists []. constructor.
  - destruct n_i as [|n n_i]; [simpl; eexists; reflexivity|].
    destruct t_i as [|t t_i]; [simpl; eexists; reflexivity|].
    cbn [Sklearn.stratified_classes].
    specialize (IH (S draw) n_i t_i).
    destruct (Sklearn.stratified_classes rng_permutation seed (S draw) cls n_i t_i)
      as [train test].
    destruct IH as [rest IH].
    set (p := Sklearn.take_clip indices
                (rng_permutation seed draw (List.length indices))).
    exists (skipn t (skipn n p) ++ rest).
    rewrite perm_regroup. cbn [List.concat]. apply Permutation_app; [|exact IH].
    rewrite firstn_skipn, firstn_skipn.
    apply take_clip_permutation, rng_ok.
Qed.

Lemma take_clip_length (a p : list nat) :
  List.length (Sklearn.take_clip a p) = List.length p.
Proof. unfold Sklearn.take_clip. apply length_map. Qed.

(** How many rows each part receives. *)
Lemma stratified_classes_length (seed : Z) (class_indices : list (list nat)) :
  forall (draw : nat) (n_i t_i : list nat),
    Forall2 le n_i (map (@List.length nat) class_indices) ->
    Forall2 le t_i (map (fun cn => (fst cn - snd cn)%nat)
                        (combine (map (@List.length nat) class_indices) n_i)) ->
    let (train, test) :=
      Sklearn.stratified_classes rng_permutation seed draw class_indices n_i t_i in
    List.length train = Sklearn.sum n_i /\ List.length test = Sklearn.sum t_i.
Proof.
  induction class_indices as [|indices cls IH]; intros draw n_i t_i Hn Ht.
  - inversion Hn; subst. inversion Ht; subst. simpl. auto.
  - inversion Hn as [|n c n_i' cs Hle Hn']; subst.
    cbn [map combine fst snd] in Ht.
    inversion Ht as [|t r t_i' rs Hlt Ht']; subst.
    cbn [Sklearn.stratified_classes].
    specialize (IH (S draw) n_i' t_i' Hn' Ht').
    destruct (Sklearn.stratified_classes rng_permutation seed (S draw) cls n_i' t_i')
      as [train test].
    destruct IH as [IH1 IH2].
    pose proof (Permutation_length (rng_ok seed draw (List.length indices))) as Hp.
    rewrite length_seq in Hp.
    rewrite !length_app, !length_firstn, !length_skipn, !take_clip_length, Hp.
    unfold Sklearn.sum in *. simpl. rewrite IH1, IH2. simpl in Hlt. lia.
Qed.

Lemma sum_remaining (class_counts n_i : list nat) :
  Forall2 le n_i class_counts ->
  (Sklearn.sum (map (fun cn => (fst cn - snd cn)%nat) (combine class_counts n_i))
   + Sklearn.sum n_i = Sklearn.sum class_counts)%nat.
Proof.
  induction 1 as [|n c n_i cs Hle _ IH]; simpl; [reflexivity|].
  unfold Sklearn.sum in *. simpl. lia.
Qed.

Lemma class_counts_sum (labels : list string) :
  Sklearn.sum (map (@List.length nat)
                 (map (Sklearn.positions_of labels) (Sklearn.unique labels)))
  = List.length labels.
Proof.
  rewrite <- length_concat_sum.
  rewrite (Permutation_length (classes_partition labels)). apply length_seq.
Qed.

(** The stratified splitter returns a partition of the rows when the
    labels can be stratified. *)
Lemma stratified_shuffle_split_partition (seed : Z) (labels : list string)
    (n_train n_test : nat) :
  Splitting.stratifiable labels n_train n_test = true ->
  (n_train + n_test = List.length labels)%nat ->
  exists train test,
    Sklearn.stratified_shuffle_split rng_permutation approximate_mode seed labels
      n_train n_test = Ok (train, test)
    /\ Permutation (train ++ test) (seq 0 (List.length labels))
    /\ List.length train = n_train /\ List.length test = n_test.
Proof.
  intros Hs Hn. unfold Splitting.stratifiable in Hs.
  apply andb_true_iff in Hs. destruct Hs as [Hs Hte].
  apply andb_true_iff in Hs. destruct Hs as [Hmin Htr].
  apply Nat.leb_le in Hmin, Htr, Hte.
  unfold Sklearn.stratified_shuffle_split.
  rewrite map_map.
  set (classes := Sklearn.unique labels) in *.
  set (class_indices := map (Sklearn.positions_of labels) classes).
  set (class_counts := map (fun c => List.length (Sklearn.positions_of labels c))
                           classes) in *.
  assert (class_counts = map (@List.length nat) class_indices) as Hcc
    by (unfold class_counts, class_indices; now rewrite map_map).
  assert (Sklearn.sum class_counts = List.length labels) as Hsum
    by (rewrite Hcc; apply class_counts_sum).
  destruct (Nat.ltb_spec (Sklearn.minimum class_counts) 2); [lia|].
  destruct (Nat.ltb_spec n_train (List.length classes)); [lia|].
  destruct (Nat.ltb_spec n_test (List.length classes)); [lia|].
  destruct (@mode_ok seed 0%nat class_counts n_train) as [Hni Hni_sum]; [lia|].
  set (n_i := approximate_mode seed 0%nat class_counts n_train) in *.
  pose proof (sum_remaining Hni) as Hrem.
  set (remaining := map (fun cn => (fst cn - snd cn)%nat)
                        (combine class_counts n_i)) in *.
  destruct (@mode_ok seed 1%nat remaining n_test) as [Hti Hti_sum]; [lia|].
  set (t_i := approximate_mode seed 1%nat remaining n_test) in *.
  pose proof (stratified_classes_permutation seed class_indices 2%nat n_i t_i) as Hperm.
  pose proof (@stratified_classes_length seed class_indices 2%nat n_i t_i) as Hlen.
  rewrite <- Hcc in Hlen. specialize (Hlen Hni Hti).
  destruct (Sklearn.stratified_classes rng_permutation seed 2 class_indices n_i t_i)
    as [train test].
  destruct Hperm as [rest Hperm]. destruct Hlen as [Hl1 Hl2].
  assert (rest = []) as ->.
  { pose proof (Permutation_length Hperm) as Hl.
    rewrite !length_app, length_concat_sum, <- Hcc in Hl.
    destruct rest; [reflexivity | simpl in Hl; lia]. }
  rewrite app_nil_r in Hperm.
  eexists _, _. split; [reflexivity|]. repeat split.
  - transitivity (train ++ test).
    + apply Permutation_app; apply shuffled_permutation.
    + transitivity (List.concat class_indices); [exact Hperm|].
      apply classes_partition.
  - rewrite (Permutation_length (shuffled_permutation seed _ train)). lia.
  - rewrite (Permutation_length (shuffled_permutation seed _ test)). lia.
Qed.

End Shuffle.

Section Frames.

Lemma polars_column_In (name : string) (df : Polars.DataFrame) (s : Polars.series) :
  Polars.column name df = Some s -> In (name, s) df.
Proof.
  induction df as [|[n t] df IH]; simpl; [discriminate|].
  destruct (String.eqb name n) eqn:E.
  - apply String.eqb_eq in E. subst. intros H. injection H as ->. now left.
  - intros H. right. now apply IH.
Qed.

Lemma remove_incl (name : string) (df : Polars.DataFrame) (ns : string * Polars.series) :
  In ns (Polars.remove name df) -> In ns df.
Proof.
  induction df as [|[n t] df IH]; simpl; [tauto|].
  destruct (String.eqb name n); simpl; intuition.
Qed.

Lemma well_formed_len (df : Polars.DataFrame) (ns : string * Polars.series) :
  Splitting.well_formed df = true -> In ns df ->
  Polars.len (snd ns) = Polars.height df.
Proof.
  unfold Splitting.well_formed. rewrite forallb_forall. intros H Hin.
  apply Nat.eqb_eq. now apply H.
Qed.

Lemma height_remove (name : string) (data : Polars.DataFrame) :
  Splitting.well_formed data = true -> Polars.remove name data <> [] ->
  Polars.height (Polars.remove name data) = Polars.height data.
Proof.
  intros Hwf Hne.
  destruct (Polars.remove name data) as [|[n s] X] eqn:E; [contradiction|].
  simpl. apply (well_formed_len data (n, s) Hwf).
  apply (remove_incl name). rewrite E. now left.
Qed.

Lemma gather_length {A} (idx : list nat) (l : list A) :
  Forall (fun i => i < List.length l)%nat idx ->
  List.length (Polars.gather idx l) = List.length idx.
Proof.
  unfold Polars.gather. induction 1 as [|i idx Hi _ IH]; simpl; [reflexivity|].
  rewrite length_app, IH.
  destruct (nth_error l i) eqn:E; [reflexivity|].
  apply nth_error_None in E. lia.
Qed.

Lemma take_series_len (idx : list nat) (s : Polars.series) :
  Forall (fun i => i < Polars.len s)%nat idx ->
  Polars.len (Polars.take_series idx s) = List.length idx.
Proof. destruct s; simpl; apply gather_length. Qed.

Lemma take_height (idx : list nat) (df : Polars.DataFrame) :
  df <> [] -> Forall (fun i => i < Polars.height df)%nat idx ->
  Polars.height (Polars.take idx df) = List.length idx.
Proof.
  destruct df as [|[n s] df]; [contradiction|]. intros _ H. simpl.
  now apply take_series_len.
Qed.

Lemma partition_in_range (train test : list nat) (n : nat) :
  Permutation (train ++ test) (seq 0 n) ->
  Forall (fun i => i < n)%nat train /\ Forall (fun i => i < n)%nat test.
Proof.
  intros Hp. split; apply Forall_forall; intros i Hi;
    assert (In i (seq 0 n)) as Hin
      by (apply (Permutation_in _ Hp); apply in_or_app; auto);
    apply in_seq in Hin; lia.
Qed.

End Frames.

Section SplitSizes.

Variable ceil_mul : pyfloat -> nat -> Z.

Lemma validate_shuffle_split_sizes (n n_test : nat) (q : Q) :
  (0 < q)%Q -> (q < 1)%Q ->
  ceil_mul (FFin q) n = Z.of_nat n_test ->
  (0 < n_test < n)%nat ->
  Sklearn.validate_shuffle_split ceil_mul n (VFloat (FFin q))
  = Ok ((n - n_test)%nat, n_test).
Proof.
  intros H0 H1 Hc Hn. unfold Sklearn.validate_shuffle_split.
  destruct (Qle_bool q 0) eqn:E0;
    [apply Qle_bool_iff in E0; exfalso; now apply (Qlt_not_le _ _ H0)|].
  destruct (Qle_bool 1 q) eqn:E1;
    [apply Qle_bool_iff in E1; exfalso; now apply (Qlt_not_le _ _ H1)|].
  cbn [orb bind]. rewrite Hc.
  destruct (Z.eqb_spec (Z.of_nat n - Z.of_nat n_test) 0); [lia|].
  destruct (Z.leb_spec (Z.of_nat n_test) 0); [lia|].
  destruct (Z.leb_spec (Z.of_nat n) (Z.of_nat n_test)); [lia|].
  cbn [orb]. f_equal. f_equal; lia.
Qed.

(** An empty train part is refused. *)
Lemma validate_shuffle_split_empty_train (n : nat) (q : Q) :
  Qle_bool q 0 = false -> Qle_bool 1 q = false ->
  ceil_mul (FFin q) n = Z.of_nat n ->
  Sklearn.validate_shuffle_split ceil_mul n (VFloat (FFin q))
  = Raise (ValueError "the resulting train set will be empty").
Proof.
  intros E0 E1 Hc. unfold Sklearn.validate_shuffle_split.
  rewrite E0, E1. cbn [orb bind]. rewrite Hc, Z.sub_diag. reflexivity.
Qed.

End SplitSizes.

(** C4, as the specification words it, fails: a frame of two rows and the
    ratio 0.75 (which [validate_data_config] accepts and which lies
    between 0 and 1) leave no row for the train part, and
    [train_test_split] raises instead of returning. *)
Lemma split_counterexample :
  Polars.height Frames.valid = 2%nat
  /\ Splitting.sample_split Splitting.three_quarters Frames.valid 69420
     = Raise (ValueError "the resulting train set will be empty")
  /\ validate_data_config Samples.no_float_of_string
       (Samples.config_of Samples.load_dir Splitting.three_quarters
          Samples.transform_ok) = Ok tt.
Proof. repeat split; reflexivity. Qed.

(** A seed numpy's generator does not take is refused, whatever the
    frame and the ratio: [random_state=-1]. *)
Example negative_seed_refused :
  Splitting.sample_split Splitting.half_stratified Splitting.four_rows (-1)
  = Raise (ValueError
      "The 'random_state' parameter of train_test_split must be an int in the range [0, 4294967295]").
Proof. reflexivity. Qed.

(** C4, amended.  Take a frame whose columns have one length, with a
    string column [Churn] and at least one more column, a seed that
    numpy's generator takes (an int of [[0, 2**32 - 1]]), and a split
    section with a float ratio strictly between 0 and 1 whose test size
    [n_test = ceil(ratio * n)] leaves rows for both parts; when
    [stratify] is on, let every class of [Churn] have two rows or more
    and neither part be smaller than the number of classes.  Then
    [DataEngine.split] returns: the train and test parts are the rows at
    two lists of positions that together hold every position of the input
    once, so no row is in both, and the row counts of the two parts sum
    to the row count of the input. *)
Theorem split_partitions_rows :
  forall ceil_mul rng_permutation approximate_mode number_text
         (config : value) (data : Polars.DataFrame) (seed : Z)
         (churn : list (option string)) (q : Q) (stratify : value) (n_test : nat),
    Splitting.permutation_contract rng_permutation ->
    Splitting.mode_contract approximate_mode ->
    Splitting.well_formed data = true ->
    Polars.column "Churn" data = Some (Polars.String_ churn) ->
    Polars.remove "Churn" data <> [] ->
    (0 <= seed <= 4294967295)%Z ->
    Box.getattr config "ratio" = Ok (VFloat (FFin q)) ->
    Box.getattr config "stratify" = Ok stratify ->
    (0 < q)%Q -> (q < 1)%Q ->
    ceil_mul (FFin q) (Polars.height data) = Z.of_nat n_test ->
    (0 < n_test < Polars.height data)%nat ->
    (truthy stratify = true ->
     Splitting.stratifiable (map Sklearn.label_text churn)
       (Polars.height data - n_test) n_test = true) ->
    let X := Polars.remove "Churn" data in
    let y := [("Churn", Polars.String_ churn)] in
    exists train test,
      DataEngine.split ceil_mul rng_permutation approximate_mode number_text
        config data seed
      = Ok (Polars.take train X, Polars.take test X,
            Polars.take train y, Polars.take test y)
      /\ Permutation (train ++ test) (seq 0 (Polars.height data))
      /\ (Polars.height (Polars.take train X) + Polars.height (Polars.take test X)
          = Polars.height data)%nat
      /\ (Polars.height (Polars.take train y) + Polars.height (Polars.take test y)
          = Polars.height data)%nat.
Proof.
  intros ceil_mul rng mode number_text config data seed churn q stratify n_test
         Hrng Hmode Hwf Hchurn HX Hseed Hratio Hstrat Hq0 Hq1 Hceil Hn Hable X y.
  assert (Sklearn.valid_seed seed = true) as Hvs.
  { unfold Sklearn.valid_seed. apply andb_true_iff. split; apply Z.leb_le; lia. }
  set (n := Polars.height data) in *.
  assert (Polars.height X = n) as HhX by (now apply height_remove).
  assert (Polars.height y = n) as Hhy.
  { apply (well_formed_len data ("Churn", Polars.String_ churn) Hwf).
    now apply polars_column_In. }
  assert (List.length (map Sklearn.label_text churn) = n) as Hlab
    by (rewrite length_map; exact Hhy).
  (* the two index lists *)
  assert (exists train test,
            match (if truthy stratify then Some y else None) with
            | Some labels =>
                Sklearn.stratified_shuffle_split rng mode seed
                  (Sklearn.labels_of number_text labels) (n - n_test) n_test
            | None => Ok (Sklearn.shuffle_split rng seed n (n - n_test) n_test)
            end = Ok (train, test)
            /\ Permutation (train ++ test) (seq 0 n)
            /\ List.length train = (n - n_test)%nat
            /\ List.length test = n_test) as (train & test & Hsplit & Hperm & Hl1 & Hl2).
  { destruct (truthy stratify) eqn:Et.
    - destruct (@stratified_shuffle_split_partition rng mode Hrng Hmode seed
                  (map Sklearn.label_text churn) (n - n_test)%nat n_test
                  (Hable eq_refl))
        as (train & test & Hs & Hp & H1 & H2); [lia|].
      rewrite Hlab in Hp. exists train, test. auto.
    - pose proof (@shuffle_split_partition rng Hrng seed n
                    (n - n_test)%nat n_test) as Hs.
      destruct (Sklearn.shuffle_split rng seed n (n - n_test) n_test)
        as [train test].
      exists train, test. split; [reflexivity|]. apply Hs. lia. }
  exists train, test.
  destruct (@partition_in_range train test n Hperm) as [Htr Hte].
  split; [|split; [exact Hperm|split]].
  - unfold DataEngine.split, Polars.drop, Polars.select. rewrite Hchurn.
    cbn [bind]. rewrite Hstrat. cbn [bind].
    assert (forall stratify_arg,
              match stratify_arg with
              | Some labels =>
                  Sklearn.stratified_shuffle_split rng mode seed
                    (Sklearn.labels_of number_text labels) (n - n_test) n_test
              | None => Ok (Sklearn.shuffle_split rng seed n (n - n_test) n_test)
              end = Ok (train, test) ->
              Sklearn.train_test_split ceil_mul rng mode number_text X y
                (VFloat (FFin q)) seed stratify_arg
              = Ok (Polars.take train X, Polars.take test X,
                    Polars.take train y, Polars.take test y)) as Htts.
    { intros arg Harg. unfold Sklearn.train_test_split.
      rewrite Hvs, HhX, Hhy, Nat.eqb_refl. cbn [negb].
      rewrite (@validate_shuffle_split_sizes ceil_mul n n_test q Hq0 Hq1 Hceil Hn).
      cbn [bind]. rewrite Harg. reflexivity. }
    destruct (truthy stratify); rewrite Hratio; cbn [bind]; now apply Htts.
  - rewrite !take_height; try (fold X; rewrite HhX; assumption); try assumption.
    lia.
  - rewrite !take_height; try (rewrite Hhy; assumption); try discriminate.
    lia.
Qed.

Lemma identity_permutation_contract :
  Splitting.permutation_contract Splitting.identity_permutation.
Proof. intros seed draw n. apply Permutation_refl. Qed.

Lemma greedy_contract (class_counts : list nat) :
  forall n_draws,
    (n_draws <= Sklearn.sum class_counts)%nat ->
    Forall2 le (Splitting.greedy class_counts n_draws) class_counts
    /\ Sklearn.sum (Splitting.greedy class_counts n_draws) = n_draws.
Proof.
  unfold Sklearn.sum.
  induction class_counts as [|c cs IH]; simpl; intros n_draws H.
  - split; [constructor | lia].
  - destruct (IH (n_draws - Nat.min c n_draws)%nat) as [H1 H2]; [lia|].
    split; [constructor; [lia | exact H1] | lia].
Qed.

Lemma greedy_mode_contract : Splitting.mode_contract Splitting.greedy_mode.
Proof. intros seed draw counts n_draws. apply greedy_contract. Qed.

Lemma split_partitions_rows_witness :
  exists train test,
    Splitting.sample_split Splitting.half_stratified Splitting.four_rows 69420
    = Ok (Polars.take train (Polars.remove "Churn" Splitting.four_rows),
          Polars.take test (Polars.remove "Churn" Splitting.four_rows),
          Polars.take train [("Churn", Frames.text ["No"; "Yes"; "No"; "Yes"])],
          Polars.take test [("Churn", Frames.text ["No"; "Yes"; "No"; "Yes"])])
    /\ Permutation (train ++ test) (seq 0 4).
Proof.
  destruct (@split_partitions_rows Splitting.exact_ceil_mul
              Splitting.identity_permutation Splitting.greedy_mode
              Splitting.no_number_text Splitting.half_stratified
              Splitting.four_rows 69420
              (map Some ["No"; "Yes"; "No"; "Yes"]) (1 # 2) (VBool true) 2%nat)
    as (train & test & Hs & Hp & _).
  - exact identity_permutation_contract.
  - exact greedy_mode_contract.
  - reflexivity.
  - reflexivity.
  - discriminate.
  - lia.
  - reflexivity.
  - reflexivity.
  - reflexivity.
  - reflexivity.
  - reflexivity.
  - simpl. lia.
  - intros _. reflexivity.
  - exists train, test. split; [exact Hs | exact Hp].
Defined.

(** The split of the sample, computed: positions 0 and 2 go to the train
    part, 1 and 3 to the test part. *)
Example four_rows_split :
  Splitting.sample_split Splitting.half_stratified Splitting.four_rows 69420
  = Ok ([ ("customerID", Frames.text ["a"; "c"]); ("tenure", Frames.ints [1; 2]%Z) ],
        [ ("customerID", Frames.text ["b"; "d"]); ("tenure", Frames.ints [34; 45]%Z) ],
        [ ("Churn", Frames.text ["No"; "No"]) ],
        [ ("Churn", Frames.text ["Yes"; "Yes"]) ]).
Proof. reflexivity. Qed.

(** A run of the flow on a frame the schema refuses: every task of the
    coded order runs and the flow ends normally. *)
Example invalid_frame_flows_through :
  Engine.DataEngine_validate FlowSamples.sample_imports Frames.gender_bad
  = Raise (Exception "Schema errors and failure cases")
  /\ Engine.runs (fst (Engine.workflow FlowSamples.sample_imports "config.yaml"))
     = Engine.coded_order
  /\ snd (Engine.workflow FlowSamples.sample_imports "config.yaml") = Ok tt.
Proof. repeat split; reflexivity. Qed.


(* ===================================================================== *)
(** * Further properties: the configuration validator *)
(* ===================================================================== *)

(** In a mapping whose keys are all allowed, an allowed name reads as the
    key itself: no other key converts to it. *)
Lemma safe_key_In (safe : string) (m : list (string * value)) (k : string) :
  Box.safe_key safe m = Some k -> In k (Box.keys m) /\ Box._safe_attr k = safe.
Proof.
  induction m as [|[k0 v0] m IH]; simpl; [discriminate|].
  destruct (Box.safe_key safe m) as [k'|].
  - intros H. injection H as <-. destruct (IH eq_refl) as [Hin Hs]. auto.
  - destruct (String.eqb (Box._safe_attr k0) safe) eqn:E; [|discriminate].
    intros H. injection H as <-. apply String.eqb_eq in E. auto.
Qed.

Lemma lookup_None_keys (k : string) (m : list (string * value)) :
  Box.lookup k m = None -> ~ In k (Box.keys m).
Proof.
  induction m as [|[k0 v0] m IH]; simpl; [tauto|].
  destruct (String.eqb k k0) eqn:E; [discriminate|].
  intros H [Hk|Hk]; [|exact (IH H Hk)].
  subst k0. now rewrite String.eqb_refl in E.
Qed.

Lemma getattr_allowed (allowed : list string) (m : list (string * value))
    (k : string) :
  forallb (fun a => String.eqb (Box._safe_attr a) a) (k :: allowed) = true ->
  Accepted.allowed_keys allowed m = true ->
  Box.getattr (VBox m) k
  = match Box.lookup k m with
    | Some v => Ok v
    | None => Raise (BoxKeyError k)
    end.
Proof.
  intros Hsafe Hkeys. unfold Box.getattr.
  destruct (Box.lookup k m) eqn:E; [reflexivity|].
  destruct (Box.safe_key (Box._safe_attr k) m) as [k'|] eqn:Ek; [|reflexivity].
  exfalso. apply safe_key_In in Ek. destruct Ek as [Hin Hs].
  cbn [forallb] in Hsafe. apply andb_true_iff in Hsafe. destruct Hsafe as [Hk Hall].
  apply String.eqb_eq in Hk. rewrite Hk in Hs.
  unfold Accepted.allowed_keys in Hkeys. rewrite forallb_forall in Hkeys.
  specialize (Hkeys _ Hin). apply str_in_In in Hkeys.
  rewrite forallb_forall in Hall. specialize (Hall _ Hkeys).
  apply String.eqb_eq in Hall. rewrite Hall in Hs. subst k'.
  exact (lookup_None_keys _ _ E Hin).
Qed.

Lemma getattr_data_stage (d : list (string * value)) (k : string) :
  In k data_stages ->
  Accepted.allowed_keys data_stages d = true ->
  Box.getattr (VBox d) k
  = match Box.lookup k d with
    | Some v => Ok v
    | None => Raise (BoxKeyError k)
    end.
Proof.
  intros Hk. apply getattr_allowed.
  destruct Hk as [<-|[<-|[<-|[]]]]; reflexivity.
Qed.

Lemma getattr_split_arg (split : list (string * value)) (k : string) :
  In k split_args ->
  Accepted.allowed_keys split_args split = true ->
  Box.getattr (VBox split) k
  = match Box.lookup k split with
    | Some v => Ok v
    | None => Raise (BoxKeyError k)
    end.
Proof.
  intros Hk. apply getattr_allowed.
  destruct Hk as [<-|[<-|[]]]; reflexivity.
Qed.

Lemma getattr_exact (m : list (string * value)) (k : string) (v : value) :
  Box.lookup k m = Some v -> Box.getattr (VBox m) k = Ok v.
Proof. intros H. unfold Box.getattr. now rewrite H. Qed.

Section AcceptedConfig.

Variable float_of_string : string -> option pyfloat.

Lemma for_each_reject_ok (ok : string -> bool) (err : string -> config_error)
    (l : list string) :
  for_each l (fun x => if negb (ok x)
                       then Raise (ConfigValidationError (err x))
                       else Ok tt) = Ok tt
  <-> forallb ok l = true.
Proof.
  induction l as [|x l IH]; simpl; [tauto|].
  destruct (ok x); simpl; [exact IH|]. split; discriminate.
Qed.

Lemma for_each_reject_first (ok : string -> bool) (err : string -> config_error)
    (l : list string) (k : string) :
  find (fun x => negb (ok x)) l = Some k ->
  for_each l (fun x => if negb (ok x)
                       then Raise (ConfigValidationError (err x))
                       else Ok tt)
  = Raise (ConfigValidationError (err k)).
Proof.
  induction l as [|x l IH]; simpl; [discriminate|].
  destruct (ok x); simpl; [exact IH|]. intros H. now injection H as ->.
Qed.

Lemma base_args_ok (dc : value) :
  validate_base_args dc = Ok tt ->
  exists d, dc = VBox d /\ Accepted.allowed_keys data_stages d = true.
Proof.
  unfold validate_base_args, Box.to_dict. destruct dc; try discriminate.
  cbn [bind]. intros H. exists m. split; [reflexivity|].
  now apply (for_each_reject_ok (fun k => str_in k data_stages) UnknownStage).
Qed.

Lemma load_args_ok (d : list (string * value)) :
  Accepted.allowed_keys data_stages d = true ->
  validate_load_args (VBox d) = Ok tt -> Accepted.load_ok d = true.
Proof.
  unfold validate_load_args, Accepted.load_ok. intros Hk H.
  rewrite (@getattr_data_stage d "load") in H by (first [assumption | simpl; tauto]).
  destruct (Box.lookup "load" d) as [load|]; [|discriminate].
  cbn [bind] in H.
  destruct (Box.getattr load "strategy") as [v|]; [|discriminate].
  cbn [bind] in H.
  apply bind_ok in H. destruct H as (unknown & Hu & H).
  unfold not_in_factory in Hu.
  destruct v; simpl in Hu; try discriminate; injection Hu as <-;
    try discriminate.
  destruct (str_in s DataLoaderStrategyFactory_keys); [reflexivity | discriminate].
Qed.

Lemma split_args_ok (d : list (string * value)) :
  Accepted.allowed_keys data_stages d = true ->
  validate_split_args float_of_string (VBox d) = Ok tt ->
  Accepted.split_ok float_of_string d = true.
Proof.
  unfold validate_split_args, Accepted.split_ok. intros Hkd H.
  rewrite (@getattr_data_stage d "split") in H by (first [assumption | simpl; tauto]).
  destruct (Box.lookup "split" d) as [sc|]; [|discriminate].
  cbn [bind] in H.
  apply bind_ok in H. destruct H as (split & Hd & H).
  unfold Box.to_dict in Hd. destruct sc; try discriminate. injection Hd as <-.
  apply bind_ok in H. destruct H as ([] & Hk & H).
  apply (for_each_reject_ok (fun k => str_in k split_args) UnknownSplitArg) in Hk.
  unfold Accepted.allowed_keys at 1. rewrite Hk.
  rewrite (@getattr_split_arg m "ratio") in H by (first [assumption | simpl; tauto]).
  destruct (Box.lookup "ratio" m) as [ratio|]; [|discriminate].
  cbn [bind] in H.
  apply bind_ok in H. destruct H as (f & Hf & H). rewrite Hf.
  apply bind_ok in H. destruct H as ([] & Hg & H).
  destruct (Builtins.gt_one f); [discriminate|].
  rewrite (@getattr_split_arg m "stratify") in H by (first [assumption | simpl; tauto]).
  destruct (Box.lookup "stratify" m) as [stratify|]; [|discriminate].
  cbn [bind] in H.
  destruct stratify; try discriminate. reflexivity.
Qed.

Lemma collect_cols_present (t : list (string * value)) (params : list string)
    (cols : list value) :
  collect_cols t params = Ok cols ->
  forallb (Accepted.present t) params = true.
Proof.
  revert cols. induction params as [|p params IH]; intros cols H; [reflexivity|].
  cbn [collect_cols] in H.
  apply bind_ok in H. destruct H as (here & Hh & H).
  apply bind_ok in H. destruct H as (more & Hm & H).
  cbn [forallb]. rewrite (IH more Hm), andb_true_r.
  unfold Accepted.present. unfold Box.get in Hh.
  destruct (Box.lookup p t); [reflexivity | discriminate].
Qed.

Lemma transform_args_ok (d : list (string * value)) :
  Accepted.allowed_keys data_stages d = true ->
  validate_transform_args (VBox d) = Ok tt -> Accepted.transform_ok d = true.
Proof.
  unfold validate_transform_args, Accepted.transform_ok. intros Hkd H.
  rewrite (@getattr_data_stage d "transform") in H by (first [assumption | simpl; tauto]).
  destruct (Box.lookup "transform" d) as [tb|]; [|discriminate].
  cbn [bind] in H.
  apply bind_ok in H. destruct H as (t & Hd & H).
  unfold Box.to_dict in Hd. destruct tb; try discriminate. injection Hd as <-.
  apply bind_ok in H. destruct H as ([] & Hk & H).
  apply (for_each_reject_ok (fun k => str_in k transform_params)
           UnknownTransformParam) in Hk.
  unfold Accepted.allowed_keys. rewrite Hk.
  apply bind_ok in H. destruct H as (cols & Hc & H).
  apply collect_cols_present in Hc. unfold transform_params in Hc.
  cbn [forallb] in Hc. rewrite andb_true_r in Hc.
  apply andb_true_iff in Hc. destruct Hc as [H1 Hc].
  apply andb_true_iff in Hc. destruct Hc as [H2 H3].
  now rewrite H1, H2, H3.
Qed.

End AcceptedConfig.

(** X1.  A configuration [validate_data_config] lets through has the
    expected shape.  What [config.data] reads as is a mapping that holds
    only load, split and transform; [strategy] of its load section reads
    as "dir" or "aws_s3"; its split section holds only ratio and
    stratify, a ratio [float] turns into a number not above 1.0 and a
    boolean stratify; its transform section holds only, and all of,
    scale, dummy and ordinal.  The two reads are attribute reads of a
    [Box]: they find a key such as "strategy!" when the name itself is
    not a key. *)
Theorem accepted_config_shape :
  forall float_of_string config,
    validate_data_config float_of_string config = Ok tt ->
    Accepted.shape float_of_string config = true.
Proof.
  intros fos config H. unfold validate_data_config in H.
  unfold Accepted.shape.
  destruct (Box.getattr config "data") as [dc|]; [|discriminate].
  cbn [bind] in H.
  apply bind_ok in H. destruct H as ([] & Hb & H).
  apply base_args_ok in Hb. destruct Hb as (d & -> & Hb).
  apply bind_ok in H. destruct H as ([] & Hl & H).
  apply bind_ok in H. destruct H as ([] & Hs & H).
  rewrite Hb.
  rewrite load_args_ok by assumption.
  rewrite split_args_ok by assumption.
  rewrite transform_args_ok by assumption.
  reflexivity.
Qed.

Lemma accepted_config_shape_witness :
  Accepted.shape Samples.no_float_of_string MoreSamples.config_converted_keys = true.
Proof.
  apply (@accepted_config_shape Samples.no_float_of_string
           MoreSamples.config_converted_keys).
  reflexivity.
Defined.

Section AcceptingConfig.

Variable float_of_string : string -> option pyfloat.

Lemma base_args_accept (d : list (string * value)) :
  Accepted.allowed_keys data_stages d = true -> validate_base_args (VBox d) = Ok tt.
Proof.
  intros H. unfold validate_base_args, Box.to_dict. cbn [bind].
  now apply (for_each_reject_ok (fun k => str_in k data_stages) UnknownStage).
Qed.

Lemma load_args_accept (d : list (string * value)) :
  Accepted.load_ok d = true -> validate_load_args (VBox d) = Ok tt.
Proof.
  unfold Accepted.load_ok, validate_load_args. intros H.
  destruct (Box.lookup "load" d) as [load|] eqn:El; [|discriminate].
  rewrite (@getattr_exact d "load" load El). cbn [bind].
  destruct (Box.getattr load "strategy") as [[| | | |s| |]|]; try discriminate.
  cbn [bind]. unfold not_in_factory. simpl. now rewrite H.
Qed.

(** The split block once its keys are allowed and its ratio converts. *)
Lemma split_args_result (d split : list (string * value)) (ratio : value)
    (f : pyfloat) :
  Box.lookup "split" d = Some (VBox split) ->
  Accepted.allowed_keys split_args split = true ->
  Box.lookup "ratio" split = Some ratio ->
  Builtins.float float_of_string ratio = Ok f ->
  validate_split_args float_of_string (VBox d)
  = if Builtins.gt_one f then Raise (ConfigValidationError RatioOutOfRange)
    else match Box.lookup "stratify" split with
         | Some (VBool _) => Ok tt
         | Some _ => Raise (ConfigValidationError StratifyNotBool)
         | None => Raise (BoxKeyError "stratify")
         end.
Proof.
  intros Hs Hk Hr Hf. unfold validate_split_args, Box.to_dict.
  rewrite (@getattr_exact d "split" _ Hs). cbn [bind].
  rewrite (@getattr_split_arg split "stratify") by (first [assumption | simpl; tauto]).
  apply (for_each_reject_ok (fun k => str_in k split_args) UnknownSplitArg) in Hk.
  rewrite Hk. cbn [bind]. rewrite (@getattr_exact split "ratio" _ Hr).
  cbn [bind]. rewrite Hf. cbn [bind].
  destruct (Builtins.gt_one f); cbn [bind]; [reflexivity|].
  destruct (Box.lookup "stratify" split) as [[]|]; reflexivity.
Qed.

Lemma split_args_accept (d : list (string * value)) :
  Accepted.split_ok float_of_string d = true ->
  validate_split_args float_of_string (VBox d) = Ok tt.
Proof.
  unfold Accepted.split_ok. intros H.
  destruct (Box.lookup "split" d) as [[| | | | |l|split]|] eqn:Es; try discriminate.
  apply andb_true_iff in H. destruct H as [H Hst].
  apply andb_true_iff in H. destruct H as [Hk Hr].
  destruct (Box.lookup "ratio" split) as [ratio|] eqn:Er; [|discriminate].
  destruct (Builtins.float float_of_string ratio) as [f|e] eqn:Ef; [|discriminate].
  rewrite (split_args_result d Es Hk Er Ef).
  apply negb_true_iff in Hr. rewrite Hr.
  destruct (Box.lookup "stratify" split) as [[]|]; try discriminate. reflexivity.
Qed.

End AcceptingConfig.

(** X2.  Conversely, a configuration of that shape whose scale, dummy and
    ordinal entries are lists of names that repeat nowhere passes
    [validate_data_config]. *)
Theorem well_shaped_config_accepted :
  forall float_of_string config cols,
    Accepted.shape float_of_string config = true ->
    Config.transform_columns config = Some cols ->
    Config.has_duplicate cols = false ->
    validate_data_config float_of_string config = Ok tt.
Proof.
  intros fos config cols Hshape Hcols Hnd.
  destruct (transform_columns_inv _ Hcols) as (top & d & t & -> & Hd & Ht & Hc).
  unfold Accepted.shape in Hshape.
  rewrite (@getattr_exact top "data" _ Hd) in Hshape.
  apply andb_true_iff in Hshape. destruct Hshape as [H Htr].
  apply andb_true_iff in H. destruct H as [H Hsp].
  apply andb_true_iff in H. destruct H as [Hb Hl].
  rewrite (validate_unfold fos _ Hd).
  rewrite (base_args_accept _ Hb). cbn [bind].
  rewrite (load_args_accept _ Hl). cbn [bind].
  rewrite (split_args_accept fos _ Hsp). cbn [bind].
  rewrite (@transform_args_columns d t cols Ht Hc).
  unfold Accepted.transform_ok in Htr. rewrite Ht in Htr.
  repeat (apply andb_true_iff in Htr; destruct Htr as [Htr _]).
  apply (for_each_reject_ok (fun k => str_in k transform_params)
           UnknownTransformParam) in Htr.
  rewrite Htr. cbn [bind]. now rewrite Hnd.
Qed.

Lemma well_shaped_config_accepted_witness :
  validate_data_config Samples.no_float_of_string Samples.config_ok = Ok tt.
Proof.
  apply (@well_shaped_config_accepted Samples.no_float_of_string Samples.config_ok
           ["tenure"; "MonthlyCharges"; "TotalCharges"; "PaymentMethod"; "Contract";
            "InternetService"; "gender"; "Partner"; "Dependents"]);
    reflexivity.
Defined.

(** X3.  When the data section holds keys outside its allow-list,
    [validate_data_config] reports the first of them, in the order of the
    section, and looks at nothing else of the configuration. *)
Theorem first_unknown_stage_reported :
  forall float_of_string top d stage,
    Box.lookup "data" top = Some (VBox d) ->
    Accepted.first_outside data_stages d = Some stage ->
    validate_data_config float_of_string (VBox top)
    = Raise (ConfigValidationError (UnknownStage stage)).
Proof.
  intros fos top d stage Hd Hf. rewrite (validate_unfold fos _ Hd).
  unfold validate_base_args, Box.to_dict. cbn [bind].
  rewrite (for_each_reject_first (fun k => str_in k data_stages) UnknownStage _ Hf).
  reflexivity.
Qed.

Lemma first_unknown_stage_reported_witness :
  validate_data_config Samples.no_float_of_string MoreSamples.config_two_unknown
  = Raise (ConfigValidationError (UnknownStage "fetch")).
Proof.
  apply (@first_unknown_stage_reported Samples.no_float_of_string
           [("data", VBox [("split", Samples.split_with Samples.ratio_fifth);
                           ("fetch", VNone); ("clean", VNone)])]
           [("split", Samples.split_with Samples.ratio_fifth);
            ("fetch", VNone); ("clean", VNone)] "fetch");
    reflexivity.
Defined.

(** X4.  A split ratio that [float] turns into a number above 1.0 is
    refused with the error of the ratio test as soon as the data and load
    sections pass and the keys of the split section are allowed, whatever
    stratify and the transform section hold. *)
Theorem ratio_above_one_refused :
  forall float_of_string top d split ratio f,
    Box.lookup "data" top = Some (VBox d) ->
    Accepted.allowed_keys data_stages d = true ->
    Accepted.load_ok d = true ->
    Box.lookup "split" d = Some (VBox split) ->
    Accepted.allowed_keys split_args split = true ->
    Box.lookup "ratio" split = Some ratio ->
    Builtins.float float_of_string ratio = Ok f ->
    Builtins.gt_one f = true ->
    validate_data_config float_of_string (VBox top)
    = Raise (ConfigValidationError RatioOutOfRange).
Proof.
  intros fos top d split ratio f Hd Hb Hl Hs Hk Hr Hf Hgt.
  rewrite (validate_unfold fos _ Hd).
  rewrite (base_args_accept _ Hb). cbn [bind].
  rewrite (load_args_accept _ Hl). cbn [bind].
  rewrite (split_args_result fos d Hs Hk Hr Hf), Hgt. reflexivity.
Qed.

Lemma ratio_above_one_refused_witness :
  validate_data_config Samples.no_float_of_string MoreSamples.config_ratio_above
  = Raise (ConfigValidationError RatioOutOfRange).
Proof.
  unfold MoreSamples.config_ratio_above, Samples.config_of.
  eapply (@ratio_above_one_refused Samples.no_float_of_string);
    try reflexivity.
Defined.

(** X5.  A stratify entry that is not a boolean (the text "true", a
    number, null) is refused with the error of the stratify test when
    everything before it passes. *)
Theorem stratify_not_bool_refused :
  forall float_of_string top d split ratio f stratify,
    Box.lookup "data" top = Some (VBox d) ->
    Accepted.allowed_keys data_stages d = true ->
    Accepted.load_ok d = true ->
    Box.lookup "split" d = Some (VBox split) ->
    Accepted.allowed_keys split_args split = true ->
    Box.lookup "ratio" split = Some ratio ->
    Builtins.float float_of_string ratio = Ok f ->
    Builtins.gt_one f = false ->
    Box.lookup "stratify" split = Some stratify ->
    Builtins.is_bool stratify = false ->
    validate_data_config float_of_string (VBox top)
    = Raise (ConfigValidationError StratifyNotBool).
Proof.
  intros fos top d split ratio f stratify Hd Hb Hl Hs Hk Hr Hf Hgt Hst Hnb.
  rewrite (validate_unfold fos _ Hd).
  rewrite (base_args_accept _ Hb). cbn [bind].
  rewrite (load_args_accept _ Hl). cbn [bind].
  rewrite (split_args_result fos d Hs Hk Hr Hf), Hgt, Hst.
  destruct stratify; try reflexivity. discriminate.
Qed.

Lemma stratify_not_bool_refused_witness :
  validate_data_config Samples.no_float_of_string MoreSamples.config_text_stratify
  = Raise (ConfigValidationError StratifyNotBool).
Proof.
  unfold MoreSamples.config_text_stratify, Samples.config_of.
  eapply (@stratify_not_bool_refused Samples.no_float_of_string);
    try reflexivity.
Defined.

(* ===================================================================== *)
(** * Further properties: the loading strategies *)
(* ===================================================================== *)

Section MoreLoaders.

Variable w : world.

Lemma s3_loop_printed (s3_url : string) (keys : list string)
    (dataframes : list Polars.DataFrame) (out : list printed) :
  snd (s3_loop w s3_url keys dataframes out)
  = out ++ map (Loading2.s3_line w s3_url)
               (filter (fun key => endswith key ".csv") keys).
Proof.
  revert dataframes out.
  induction keys as [|key keys IH]; intros dataframes out; simpl.
  - now rewrite app_nil_r.
  - destruct (endswith key ".csv"); simpl; [|apply IH].
    unfold Loading2.s3_line at 1, Loading2.s3_url_of.
    destruct (_read w _) as [df|e]; rewrite IH; now rewrite <- app_assoc.
Qed.

Lemma map_result_first_unreadable (paths : list string) (path : string) :
  Loading2.first_unreadable w paths = Some path ->
  map_result (fun p => scan_csv w p ["TotalCharges"]) paths = Raise (OSError path).
Proof.
  induction paths as [|p paths IH]; simpl; [discriminate|].
  unfold scan_csv at 1. destruct (read_text w p) as [table|]; cbn [bind].
  - intros H. now rewrite (IH H).
  - intros H. now injection H as ->.
Qed.

Lemma map_result_length {A B} (f : A -> result B) (l : list A) (ys : list B) :
  map_result f l = Ok ys -> List.length ys = List.length l.
Proof.
  revert ys. induction l as [|x l IH]; intros ys; simpl.
  - intros H. now injection H as <-.
  - destruct (f x) as [y|]; cbn [bind]; [|discriminate].
    destruct (map_result f l) as [ys'|]; cbn [bind]; [|discriminate].
    intros H. injection H as <-. simpl. now rewrite (IH ys').
Qed.

End MoreLoaders.

(** X6.  The S3 strategy never returns a frame.  When no [.csv] object
    loads it raises the builtin [Exception]; when one does, its closing
    [pl.concat(dataframes, ignore_index=True)] is refused with a
    [TypeError], as [ignore_index] is no keyword of polars' [concat]. *)
Theorem s3_strategy_never_returns :
  forall (w : world) (self : AwsS3DataLoaderStrategy),
    snd (AwsS3DataLoaderStrategy_call w self)
    = match Loading.loaded w (Loading.sources w (AwsS3 self)) with
      | [] => Raise (Exception "No data found. Check the contents in the bucket and folder")
      | _ :: _ =>
          Raise (TypeError "concat() got an unexpected keyword argument 'ignore_index'")
      end.
Proof.
  intros w self. unfold AwsS3DataLoaderStrategy_call, Loading.sources.
  destruct (s3_location w self) as [s3_url keys].
  pose proof (s3_loop_loaded w s3_url keys [] []) as Hl. simpl in Hl.
  destruct (s3_loop w s3_url keys [] []) as [dataframes out]. simpl in Hl.
  subst dataframes.
  destruct (Loading.loaded w _) as [|df dfs]; reflexivity.
Qed.

(** X7.  The S3 strategy prints one line for each listed key that ends
    in ".csv", in listing order: "Loaded: key" when the object loads, the
    error otherwise.  A read error is printed, never raised, and other
    keys leave no trace. *)
Theorem s3_strategy_prints_each_csv :
  forall (w : world) (self : AwsS3DataLoaderStrategy),
    fst (AwsS3DataLoaderStrategy_call w self)
    = map (Loading2.s3_line w (fst (s3_location w self)))
          (filter (fun key => endswith key ".csv") (snd (s3_location w self))).
Proof.
  intros w self. unfold AwsS3DataLoaderStrategy_call.
  destruct (s3_location w self) as [s3_url keys]. simpl.
  pose proof (s3_loop_printed w s3_url keys [] []) as Hp. simpl in Hp.
  destruct (s3_loop w s3_url keys [] []) as [dataframes out]. simpl in Hp.
  subst out. destruct (List.length dataframes =? 0)%nat; reflexivity.
Qed.

(** X8.  The dir strategy has no [try], and it opens every CSV of the
    directory before it evaluates any: when a file cannot be opened, the
    call raises the error of the first such file and returns no frame,
    whatever the other files hold, also when a file before it lacks the
    [TotalCharges] column. *)
Theorem dir_strategy_raises_first_failure :
  forall (w : world) (self : DirDataLoaderStrategy) (path : string),
    is_dir w (dir self) = true ->
    Loading2.first_unreadable w (glob_csv w (dir self)) = Some path ->
    DirDataLoaderStrategy_call w self = Raise (OSError path).
Proof.
  intros w self path Hd Hf. unfold DirDataLoaderStrategy_call. rewrite Hd.
  destruct (glob_csv w (dir self)) as [|p ps] eqn:Eg; [discriminate|].
  cbn [List.length Nat.eqb].
  now rewrite (map_result_first_unreadable w _ Hf).
Qed.

Lemma dir_strategy_raises_first_failure_witness :
  DirDataLoaderStrategy_call Loading2.sample_dirs {| dir := "mixed" |}
  = Raise (OSError "mixed/gone.csv").
Proof.
  apply (@dir_strategy_raises_first_failure Loading2.sample_dirs
           {| dir := "mixed" |} "mixed/gone.csv");
    reflexivity.
Defined.

Section DirOutcome.

Variable w : world.

Lemma scan_not_exception (path msg : string) :
  scan_csv w path ["TotalCharges"] <> Raise (Exception msg).
Proof.
  unfold scan_csv. destruct (read_text w path); discriminate.
Qed.

Lemma replace_not_exception (df : Polars.DataFrame) (msg : string) :
  replace_TotalCharges df <> Raise (Exception msg).
Proof.
  unfold replace_TotalCharges.
  destruct (Polars.column "TotalCharges" df) as [[l|l|l]|]; discriminate.
Qed.

Lemma map_result_raise {A B} (f : A -> result B) (l : list A) (e : exn) :
  map_result f l = Raise e -> exists x, In x l /\ f x = Raise e.
Proof.
  induction l as [|x l IH]; simpl; [discriminate|].
  destruct (f x) as [y|e'] eqn:E; cbn [bind].
  - destruct (map_result f l) as [ys|e'']; cbn [bind]; [discriminate|].
    intros H. injection H as ->. destruct (IH eq_refl) as (z & Hz & Hf).
    exists z. auto.
  - intros H. injection H as ->. exists x. auto.
Qed.

Lemma same_schema_columns (a b : Polars.DataFrame) :
  Polars.same_schema a b = true ->
  Polars.columns a = Polars.columns b
  /\ Polars.columns (Polars.vstack a b) = Polars.columns a
  /\ Polars.height (Polars.vstack a b) = (Polars.height a + Polars.height b)%nat.
Proof.
  revert b. induction a as [|[n s] a IH]; intros [|[m t] b] H; simpl in H;
    try discriminate.
  - auto.
  - apply andb_true_iff in H. destruct H as [H Hab].
    apply andb_true_iff in H. destruct H as [Hn Hd].
    apply String.eqb_eq in Hn. subst m.
    destruct (IH b Hab) as (H1 & H2 & _).
    unfold Polars.columns in *. simpl. rewrite H2. split; [now rewrite H1|].
    split; [reflexivity|].
    destruct s, t; try discriminate; simpl; apply length_app.
Qed.

Lemma concat_vertical_ok (rest : list Polars.DataFrame) :
  forall first df,
    Polars.concat_vertical first rest = Ok df ->
    Polars.columns df = Polars.columns first
    /\ Polars.height df = (Polars.height first + Loading2.total_height rest)%nat
    /\ Forall (fun f => Polars.columns f = Polars.columns first) rest.
Proof.
  unfold Loading2.total_height.
  induction rest as [|x rest IH]; intros first df H; simpl in H.
  - injection H as <-. simpl. repeat split; [lia | constructor].
  - destruct (Polars.same_schema first x) eqn:E; [|discriminate].
    destruct (same_schema_columns first x E) as (Hc & Hv & Hh).
    destruct (IH _ _ H) as (H1 & H2 & H3).
    rewrite Hv in H1. rewrite Hh in H2. simpl. repeat split.
    + exact H1.
    + lia.
    + constructor; [now symmetry|].
      eapply Forall_impl; [|exact H3]. intros f Hf. simpl in Hf. congruence.
Qed.

Lemma concat_vertical_not_exception (rest : list Polars.DataFrame) :
  forall first msg, Polars.concat_vertical first rest <> Raise (Exception msg).
Proof.
  induction rest as [|x rest IH]; intros first msg; simpl; [discriminate|].
  destruct (Polars.same_schema first x); [apply IH | discriminate].
Qed.

End DirOutcome.

(** X9.  The dir strategy raises the builtin [Exception] in exactly two
    cases: the path is not a directory, or the directory holds no [.csv]
    file.  A file that does not read, or frames that do not stack, raise
    errors of other kinds. *)
Theorem dir_strategy_exception_iff :
  forall (w : world) (self : DirDataLoaderStrategy),
    (exists msg, DirDataLoaderStrategy_call w self = Raise (Exception msg))
    <-> (is_dir w (dir self) = false \/ glob_csv w (dir self) = []).
Proof.
  intros w self. unfold DirDataLoaderStrategy_call. split.
  - intros [msg H]. destruct (is_dir w (dir self)); [|now left]. right.
    destruct (glob_csv w (dir self)) as [|p ps]; [reflexivity|]. exfalso.
    cbn [List.length Nat.eqb] in H.
    destruct (map_result (fun path => scan_csv w path ["TotalCharges"]) (p :: ps))
      as [scanned|e] eqn:E; cbn [bind] in H.
    + destruct (map_result replace_TotalCharges scanned) as [frames|e] eqn:E2;
        cbn [bind] in H.
      * unfold Polars.concat in H. cbn [existsb orb] in H.
        destruct frames as [|df rest]; [discriminate|].
        now apply concat_vertical_not_exception in H.
      * injection H as ->. apply map_result_raise in E2.
        destruct E2 as (x & _ & Hx). now apply replace_not_exception in Hx.
    + injection H as ->. apply map_result_raise in E.
      destruct E as (x & _ & Hx). now apply scan_not_exception in Hx.
  - intros [H|H]; rewrite H; [|destruct (is_dir w (dir self))];
      eexists; reflexivity.
Qed.

(** X10.  When the dir strategy returns a frame, every CSV of the
    directory was read, the frame has as many rows as these files have
    together, and its columns are those of each file. *)
Theorem dir_strategy_stacks_all_rows :
  forall (w : world) (self : DirDataLoaderStrategy) (df : Polars.DataFrame),
    DirDataLoaderStrategy_call w self = Ok df ->
    exists frames,
      map_result (_read w) (glob_csv w (dir self)) = Ok frames
      /\ List.length frames = List.length (glob_csv w (dir self))
      /\ Polars.height df = Loading2.total_height frames
      /\ Forall (fun f => Polars.columns f = Polars.columns df) frames.
Proof.
  intros w self df H. unfold DirDataLoaderStrategy_call in H.
  destruct (is_dir w (dir self)); [|discriminate].
  destruct (glob_csv w (dir self)) as [|p ps] eqn:Eg; [discriminate|].
  cbn [List.length Nat.eqb] in H.
  apply bind_ok in H. destruct H as (scanned & Hs & H).
  apply bind_ok in H. destruct H as (frames & Hr & H).
  assert (map_result (_read w) (p :: ps) = Ok frames) as Hm
    by (apply map_result_two_phase; exists scanned; auto).
  exists frames.
  split; [exact Hm|]. split; [exact (map_result_length _ _ Hm)|].
  unfold Polars.concat in H. cbn [existsb orb] in H.
  destruct frames as [|first rest]; [discriminate|].
  destruct (concat_vertical_ok rest _ H) as (Hc & Hh & Hall).
  split.
  - unfold Loading2.total_height in *. simpl. exact Hh.
  - constructor; [now symmetry|].
    eapply Forall_impl; [|exact Hall]. intros f Hf. simpl in Hf. congruence.
Qed.

Lemma dir_strategy_stacks_all_rows_witness :
  exists df,
    DirDataLoaderStrategy_call Loading2.sample_dirs {| dir := "pair" |} = Ok df
    /\ Polars.height df = 6%nat.
Proof.
  destruct (DirDataLoaderStrategy_call Loading2.sample_dirs {| dir := "pair" |})
    as [df|e] eqn:E; [|discriminate E].
  exists df. split; [reflexivity|].
  destruct (@dir_strategy_stacks_all_rows Loading2.sample_dirs {| dir := "pair" |}
              df E) as (frames & Hm & _ & Hh & _).
  rewrite Hh. vm_compute in Hm. injection Hm as <-. reflexivity.
Defined.

(** X11.  Replacing the first space by "0" keeps the length of a value
    and takes exactly one space away when there is one. *)
Theorem replace_first_space_one_character :
  forall s : string,
    String.length (Loading.replace_first_space s) = String.length s
    /\ Loading2.count_spaces (Loading.replace_first_space s)
       = Nat.pred (Loading2.count_spaces s).
Proof.
  unfold Loading.replace_first_space.
  induction s as [|c s [IH1 IH2]]; simpl; [auto|].
  destruct (Ascii.eqb c " ") eqn:E; simpl.
  - auto.
  - rewrite E, IH1, IH2. auto.
Qed.

Section MissingTotalCharges.

Variable w : world.

Lemma scan_column_none (table : csv) :
  ~ In "TotalCharges" (map fst table) ->
  Polars.column "TotalCharges" (map (scan_column w ["TotalCharges"]) table) = None.
Proof.
  induction table as [|[n fs] table IH]; cbn [map fst]; [reflexivity|].
  intros H. destruct (String.eqb n "TotalCharges") eqn:E.
  - apply String.eqb_eq in E. subst n. exfalso. apply H. now left.
  - rewrite (scan_column_other w n fs E), column_cons.
    rewrite (String.eqb_sym "TotalCharges" n), E. apply IH.
    intros Hin. apply H. now right.
Qed.

End MissingTotalCharges.

(** X12.  A CSV without a [TotalCharges] column does not load: reading it
    raises [ColumnNotFoundError], for either strategy. *)
Theorem csv_without_total_charges_fails :
  forall (w : world) (path : string) (table : csv),
    read_text w path = Some table ->
    ~ In "TotalCharges" (map fst table) ->
    _read w path = Raise (ColumnNotFoundError "TotalCharges").
Proof.
  intros w path table Hr Hn. unfold _read, scan_csv. rewrite Hr. cbn [bind].
  unfold replace_TotalCharges. now rewrite (scan_column_none w table Hn).
Qed.

Lemma csv_without_total_charges_fails_witness :
  _read Loading2.sample_dirs "mixed/short.csv"
  = Raise (ColumnNotFoundError "TotalCharges").
Proof.
  apply (@csv_without_total_charges_fails Loading2.sample_dirs "mixed/short.csv"
           Loading2.short_csv).
  - reflexivity.
  - simpl. intuition discriminate.
Defined.

(* ===================================================================== *)
(** * Further properties: schema validation *)
(* ===================================================================== *)

Section MoreValidation.

Variable astype : Pandas.dtype -> Pandas.series -> option Pandas.series.
Variable coerce_value : Pandas.dtype -> value -> bool.

Lemma pandas_column_of_polars (name : string) (df : Polars.DataFrame) :
  Pandas.column name (Pandas.of_polars df)
  = option_map Pandas.of_polars_series (Polars.column name df).
Proof.
  induction df as [|[n s] df IH]; simpl; [reflexivity|].
  destruct (String.eqb name n); [reflexivity | exact IH].
Qed.

Lemma DataSchema_required (name : string) (spec : Pandera.Column) :
  In (name, spec) (Pandera.columns DataSchema) -> Pandera.required spec = true.
Proof.
  intros H.
  assert (forallb (fun e => Pandera.required (snd e))
            (Pandera.columns DataSchema) = true) as Hall by reflexivity.
  rewrite forallb_forall in Hall. exact (Hall _ H).
Qed.

(** One row in the failure table is enough for the validation to print
    and raise. *)
Lemma validate_raises_of_failure (data : Polars.DataFrame)
    (fc : Pandera.failure_case) :
  In fc (Pandera.failures astype coerce_value DataSchema (Pandas.of_polars data)) ->
  snd (DataEngine.validate astype coerce_value data)
  = Raise (Exception "Schema errors and failure cases").
Proof.
  intros H. rewrite validate_raises; [reflexivity|].
  intros E. rewrite E in H. contradiction.
Qed.

Lemma polars_column_skip (n name : string) (s : Polars.series)
    (a b : Polars.DataFrame) :
  String.eqb n name = false ->
  Polars.column n (a ++ (name, s) :: b) = Polars.column n (a ++ b).
Proof.
  intros Hne. induction a as [|[m t] a IH]; simpl.
  - now rewrite Hne.
  - destruct (String.eqb n m); [reflexivity | exact IH].
Qed.

Lemma flat_map_ext_In {A B} (f g : A -> list B) (l : list A) :
  (forall x, In x l -> f x = g x) -> flat_map f l = flat_map g l.
Proof.
  induction l as [|x l IH]; simpl; intros H; [reflexivity|].
  rewrite (H x) by now left. rewrite IH; [reflexivity|].
  intros y Hy. apply H. now right.
Qed.

Lemma text_column_objects (name : string) (spec : Pandera.Column)
    (data : Polars.DataFrame) (cells : list (option string)) :
  Pandera.dtype spec = Pandas.DObject ->
  Polars.column name data = Some (Polars.String_ cells) ->
  Pandas.column name (Pandas.of_polars data)
  = Some (Pandas.SObject (map Pandas.opt_str cells))
  /\ Pandas.objects (Pandera.checked_series astype DataSchema spec
                       (Pandas.SObject (map Pandas.opt_str cells)))
     = map Pandas.opt_str cells.
Proof.
  intros Hd Hc. rewrite pandas_column_of_polars, Hc. split; [reflexivity|].
  unfold Pandera.checked_series, Pandera.coerce_series. simpl. now rewrite Hd.
Qed.

End MoreValidation.

(** X13.  Every column of the schema is required: a frame that lacks one
    of them is refused, and the failure table has a row about the frame
    (no column in its column cell) whose failure case is the name of the
    missing column. *)
Theorem missing_column_rejected :
  forall astype coerce_value (data : Polars.DataFrame) name spec,
    In (name, spec) (Pandera.columns DataSchema) ->
    Polars.column name data = None ->
    snd (DataEngine.validate astype coerce_value data)
    = Raise (Exception "Schema errors and failure cases")
    /\ In {| Pandera.fc_column := None; Pandera.fc_check := Pandera.column_in_dataframe;
             Pandera.fc_value := Some (VStr name); Pandera.fc_index := None |}
          (Pandera.failures astype coerce_value DataSchema (Pandas.of_polars data)).
Proof.
  intros astype coerce_value data name spec Hin Hc.
  assert (In {| Pandera.fc_column := None; Pandera.fc_check := Pandera.column_in_dataframe;
                Pandera.fc_value := Some (VStr name); Pandera.fc_index := None |}
             (Pandera.failures astype coerce_value DataSchema (Pandas.of_polars data)))
    as Hf.
  { apply presence_failures_In with (name := name) (spec := spec); [exact Hin|].
    unfold Pandera.presence_failures.
    rewrite pandas_column_of_polars, Hc. simpl.
    rewrite (DataSchema_required Hin). now left. }
  split; [|exact Hf].
  exact (validate_raises_of_failure astype coerce_value data _ Hf).
Qed.

Lemma missing_column_rejected_witness :
  snd (DataEngine.validate Frames.no_astype Frames.no_coerce_value
         MoreFrames.no_contract)
  = Raise (Exception "Schema errors and failure cases").
Proof.
  refine (proj1 (@missing_column_rejected Frames.no_astype Frames.no_coerce_value
                   MoreFrames.no_contract
                   "Contract" (pa_Column Pandas.DObject (checks_get "Contract")) _ _)).
  - apply (@nth_error_In _ (Pandera.columns DataSchema) 15). reflexivity.
  - reflexivity.
Defined.

(** X14.  The schema is not strict: a column it does not name changes
    nothing of the failure table, wherever it stands in the frame, so the
    frame with it is refused exactly when the frame without it is. *)
Theorem unknown_column_ignored :
  forall astype coerce_value (a b : Polars.DataFrame) name s,
    str_in name MoreFrames.schema_names = false ->
    Pandera.failures astype coerce_value DataSchema
      (Pandas.of_polars (a ++ (name, s) :: b))
    = Pandera.failures astype coerce_value DataSchema (Pandas.of_polars (a ++ b))
    /\ raises (snd (DataEngine.validate astype coerce_value (a ++ (name, s) :: b)))
       = raises (snd (DataEngine.validate astype coerce_value (a ++ b))).
Proof.
  intros astype coerce_value a b name s Hn.
  assert (forall n spec, In (n, spec) (Pandera.columns DataSchema) ->
            Pandas.column n (Pandas.of_polars (a ++ (name, s) :: b))
            = Pandas.column n (Pandas.of_polars (a ++ b))) as Hcol.
  { intros n spec Hin. rewrite !pandas_column_of_polars.
    rewrite polars_column_skip; [reflexivity|].
    destruct (String.eqb n name) eqn:E; [|reflexivity].
    apply String.eqb_eq in E. subst n. exfalso.
    assert (str_in name MoreFrames.schema_names = true) as Ht.
    { apply str_in_In. unfold MoreFrames.schema_names.
      apply in_map_iff. exists (name, spec). auto. }
    congruence. }
  assert (Pandera.failures astype coerce_value DataSchema
            (Pandas.of_polars (a ++ (name, s) :: b))
          = Pandera.failures astype coerce_value DataSchema
              (Pandas.of_polars (a ++ b))) as Hf.
  { unfold Pandera.failures, Pandera.strict_failures.
    change (Pandera.strict DataSchema) with false. cbn [app].
    f_equal; [|f_equal]; apply flat_map_ext_In; intros [n spec] Hin;
      unfold Pandera.presence_failures, Pandera.coercion_failures,
        Pandera.column_failures;
      now rewrite (Hcol n spec Hin). }
  split; [exact Hf|].
  unfold DataEngine.validate, Pandera.validate. rewrite Hf.
  destruct (Pandera.failures astype coerce_value DataSchema
              (Pandas.of_polars (a ++ b)));
    reflexivity.
Qed.

Lemma unknown_column_ignored_witness :
  raises (snd (DataEngine.validate Frames.no_astype Frames.no_coerce_value
                 ([("note", Frames.text ["x"; "y"])] ++ Frames.valid)))
  = false.
Proof.
  pose proof (@unknown_column_ignored Frames.no_astype Frames.no_coerce_value []
                Frames.valid "note" (Frames.text ["x"; "y"]) eq_refl) as [_ H].
  simpl app in *. rewrite H. reflexivity.
Defined.

(** X15.  No text column of the schema may hold a missing value: a null
    in a string column that the schema declares with dtype object is
    refused, with a row of the failure table at its position. *)
Theorem null_in_text_column_rejected :
  forall astype coerce_value (data : Polars.DataFrame) name spec cells i,
    In (name, spec) (Pandera.columns DataSchema) ->
    Pandera.dtype spec = Pandas.DObject ->
    Polars.column name data = Some (Polars.String_ cells) ->
    nth_error cells i = Some None ->
    snd (DataEngine.validate astype coerce_value data)
    = Raise (Exception "Schema errors and failure cases")
    /\ In {| Pandera.fc_column := Some name; Pandera.fc_check := Pandera.not_nullable;
             Pandera.fc_value := Some VNone; Pandera.fc_index := Some i |}
          (Pandera.failures astype coerce_value DataSchema (Pandas.of_polars data)).
Proof.
  intros astype coerce_value data name spec cells i Hin Hd Hc Hi.
  destruct (text_column_objects astype name spec data Hd Hc) as [Hp Ho].
  assert (In {| Pandera.fc_column := Some name; Pandera.fc_check := Pandera.not_nullable;
                Pandera.fc_value := Some VNone; Pandera.fc_index := Some i |}
             (Pandera.failures astype coerce_value DataSchema (Pandas.of_polars data)))
    as Hf.
  { apply column_failures_In with (name := name) (spec := spec)
      (s := Pandas.SObject (map Pandas.opt_str cells)); [exact Hin | exact Hp |].
    unfold Pandera.validate_column. apply in_or_app. left.
    apply check_nullable_complete.
    - now apply DataSchema_not_nullable with (name := name).
    - rewrite Ho. now rewrite nth_error_map, Hi.
    - reflexivity. }
  split; [|exact Hf].
  exact (validate_raises_of_failure astype coerce_value data _ Hf).
Qed.

Lemma null_in_text_column_rejected_witness :
  snd (DataEngine.validate Frames.no_astype Frames.no_coerce_value
         MoreFrames.gender_null)
  = Raise (Exception "Schema errors and failure cases").
Proof.
  refine (proj1 (@null_in_text_column_rejected Frames.no_astype
                   Frames.no_coerce_value
                   MoreFrames.gender_null "gender"
                   (pa_Column Pandas.DObject (checks_get "gender"))
                   [None; Some "Male"] 0%nat _ _ _ _)).
  - apply (@nth_error_In _ (Pandera.columns DataSchema) 1). reflexivity.
  - reflexivity.
  - reflexivity.
  - reflexivity.
Defined.

Section FailureRows.

Variable astype : Pandas.dtype -> Pandas.series -> option Pandas.series.
Variable coerce_value : Pandas.dtype -> value -> bool.

Lemma all_some_map_Some {A} (l : list A) : Pandas.all_some (map Some l) = Some l.
Proof.
  induction l as [|x l IH]; simpl; [reflexivity|]. now rewrite IH.
Qed.

(** Where a row of one check over a column comes from. *)
Lemma run_check_sound (name : string) (cells : list value) (c c' : Pandera.Check)
    (fc : Pandera.failure_case) :
  In fc (Pandera.run_check name cells c') ->
  Pandera.fc_check fc = Pandera.check_failed c ->
  c' = c /\ Pandera.fc_column fc = Some name
  /\ exists i v, Pandera.fc_index fc = Some i /\ Pandera.fc_value fc = Some v
       /\ nth_error cells i = Some v /\ Pandas.isna v = false
       /\ Pandera.check_element c v <> Some true.
Proof.
  unfold Pandera.run_check. intros Hin Hc.
  destruct (forallb (Pandera.evaluates c')
              (filter Pandera.not_na (indexed 0 cells))).
  - apply in_map_iff in Hin. destruct Hin as ([i v] & <- & Hiv).
    simpl in Hc. injection Hc as ->.
    apply filter_In in Hiv. destruct Hiv as [Hiv Hf].
    apply filter_In in Hiv. destruct Hiv as [Hiv Hna].
    destruct (indexed_In _ _ _ _ Hiv) as (j & -> & Hj).
    split; [reflexivity|]. split; [reflexivity|].
    exists j, v. simpl. repeat split; auto.
    + unfold Pandera.not_na in Hna. simpl in Hna. now apply negb_true_iff in Hna.
    + unfold Pandera.fails in Hf. simpl in Hf. intros E. rewrite E in Hf. discriminate.
  - destruct Hin as [<-|[]]. discriminate.
Qed.

Lemma failures_sound (schema : Pandera.DataFrameSchema) (df : Pandas.DataFrame)
    (fc : Pandera.failure_case) (c : Pandera.Check) :
  In fc (Pandera.failures astype coerce_value schema df) ->
  Pandera.fc_check fc = Pandera.check_failed c ->
  exists name spec s i v,
    Pandera.fc_column fc = Some name
    /\ In (name, spec) (Pandera.columns schema)
    /\ In c (Pandera.checks_of spec)
    /\ Pandas.column name df = Some s
    /\ Pandera.fc_index fc = Some i /\ Pandera.fc_value fc = Some v
    /\ nth_error (Pandas.objects (Pandera.checked_series astype schema spec s)) i
       = Some v
    /\ Pandas.isna v = false
    /\ Pandera.check_element c v <> Some true.
Proof.
  intros Hin Hc. unfold Pandera.failures in Hin.
  apply in_app_or in Hin. destruct Hin as [Hin|Hin].
  { apply in_app_or in Hin. destruct Hin as [Hin|Hin].
    - unfold Pandera.strict_failures in Hin.
      destruct (Pandera.strict schema); [|contradiction].
      apply in_map_iff in Hin. destruct Hin as (n & <- & _). discriminate.
    - apply in_flat_map in Hin. destruct Hin as ([name spec] & _ & Hin).
      unfold Pandera.presence_failures in Hin.
      destruct (Pandas.column name df); [contradiction|].
      destruct (Pandera.required spec); [|contradiction].
      destruct Hin as [<-|[]]. discriminate. }
  apply in_app_or in Hin. destruct Hin as [Hin|Hin].
  { apply in_flat_map in Hin. destruct Hin as ([name spec] & _ & Hin).
    unfold Pandera.coercion_failures in Hin.
    destruct (Pandas.column name df) as [s|]; [|contradiction].
    unfold Pandera.coerce_failures in Hin.
    destruct (Pandera.schema_coerce schema || Pandera.coerce spec); [|contradiction].
    destruct (Pandera.coerce_series astype (Pandera.dtype spec) s); [contradiction|].
    apply in_map_iff in Hin. destruct Hin as (iv & <- & _). discriminate. }
  apply in_flat_map in Hin. destruct Hin as ([name spec] & Hent & Hin).
  unfold Pandera.column_failures in Hin.
  destruct (Pandas.column name df) as [s|] eqn:Hcol; [|contradiction].
  unfold Pandera.validate_column in Hin.
  apply in_app_or in Hin. destruct Hin as [Hin|Hin].
  { unfold Pandera.check_nullable in Hin.
    destruct (Pandera.nullable spec); [contradiction|].
    apply in_map_iff in Hin. destruct Hin as (iv & <- & _). discriminate. }
  apply in_app_or in Hin. destruct Hin as [Hin|Hin].
  { unfold Pandera.check_dtype in Hin.
    destruct (Pandas.dtype_eqb _ _); [contradiction|].
    destruct Hin as [<-|[]]. discriminate. }
  apply in_flat_map in Hin. destruct Hin as (c' & Hc' & Hin).
  destruct (run_check_sound _ _ _ _ Hin Hc) as (-> & Hn & i & v & Hi & Hv & Hnth & Hna & Hch).
  exists name, spec, s, i, v. repeat split; auto.
Qed.

End FailureRows.

(** X16.  A negative [tenure] is refused: with an integer [tenure] column
    free of nulls, each negative cell has its row in the failure table
    under the check [tenure >= 0], and the validation raises. *)
Theorem negative_tenure_rejected :
  forall astype coerce_value (data : Polars.DataFrame) zs i z,
    Polars.column "tenure" data = Some (Polars.Int64 (map Some zs)) ->
    nth_error zs i = Some z ->
    (z < 0)%Z ->
    snd (DataEngine.validate astype coerce_value data)
    = Raise (Exception "Schema errors and failure cases")
    /\ In {| Pandera.fc_column := Some "tenure";
             Pandera.fc_check :=
               Pandera.check_failed (Pandera.greater_than_or_equal_to 0);
             Pandera.fc_value := Some (VInt z); Pandera.fc_index := Some i |}
          (Pandera.failures astype coerce_value DataSchema (Pandas.of_polars data)).
Proof.
  intros astype coerce_value data zs i z Hcol Hi Hz.
  assert (Pandas.column "tenure" (Pandas.of_polars data) = Some (Pandas.SInt64 zs))
    as Hp.
  { rewrite pandas_column_of_polars, Hcol. simpl. now rewrite all_some_map_Some. }
  assert (In {| Pandera.fc_column := Some "tenure";
                Pandera.fc_check :=
                  Pandera.check_failed (Pandera.greater_than_or_equal_to 0);
                Pandera.fc_value := Some (VInt z); Pandera.fc_index := Some i |}
             (Pandera.failures astype coerce_value DataSchema (Pandas.of_polars data)))
    as Hf.
  { apply column_failures_In with (name := "tenure")
      (spec := pa_Column Pandas.DInt64 (checks_get "tenure"))
      (s := Pandas.SInt64 zs).
    - apply (@nth_error_In _ (Pandera.columns DataSchema) 5). reflexivity.
    - exact Hp.
    - change (Pandera.checked_series astype DataSchema
                (pa_Column Pandas.DInt64 (checks_get "tenure")) (Pandas.SInt64 zs))
        with (Pandas.SInt64 zs).
      unfold Pandera.validate_column. apply in_or_app. right.
      apply in_or_app. right. apply in_flat_map.
      exists (Pandera.greater_than_or_equal_to 0). split; [now left|].
      apply run_check_complete.
      + intros j u Hj _. simpl in Hj. rewrite nth_error_map in Hj.
        destruct (nth_error zs j); [|discriminate]. injection Hj as <-.
        discriminate.
      + simpl. now rewrite nth_error_map, Hi.
      + reflexivity.
      + simpl. f_equal. unfold Qle_bool. simpl. apply Z.leb_gt. lia. }
  split; [|exact Hf].
  exact (validate_raises_of_failure astype coerce_value data _ Hf).
Qed.

Lemma negative_tenure_rejected_witness :
  snd (DataEngine.validate Frames.no_astype Frames.no_coerce_value
         MoreFrames.tenure_negative)
  = Raise (Exception "Schema errors and failure cases").
Proof.
  refine (proj1 (@negative_tenure_rejected Frames.no_astype Frames.no_coerce_value
                   MoreFrames.tenure_negative [1; -3]%Z 1%nat (-3)%Z _ _ _)).
  - reflexivity.
  - reflexivity.
  - lia.
Defined.

(** X17.  The failure table that [DataEngine.validate] prints reports no
    element wrongly: a row for a failed check names a column of the
    schema that the frame has and a check declared for it, and the value
    it shows stands at the row's position in the checked column, is not
    missing and does not pass the check. *)
Theorem printed_failures_sound :
  forall astype coerce_value (data : Polars.DataFrame) table fc c,
    In (PFailureCases table) (fst (DataEngine.validate astype coerce_value data)) ->
    In fc table ->
    Pandera.fc_check fc = Pandera.check_failed c ->
    exists name spec s i v,
      Pandera.fc_column fc = Some name
      /\ In (name, spec) (Pandera.columns DataSchema)
      /\ In c (Pandera.checks_of spec)
      /\ Pandas.column name (Pandas.of_polars data) = Some s
      /\ Pandera.fc_index fc = Some i /\ Pandera.fc_value fc = Some v
      /\ nth_error (Pandas.objects
                      (Pandera.checked_series astype DataSchema spec s)) i
         = Some v
      /\ Pandas.isna v = false
      /\ Pandera.check_element c v <> Some true.
Proof.
  intros astype coerce_value data table fc c Hp Hin Hc.
  apply failures_sound with (coerce_value := coerce_value); [|exact Hc].
  unfold DataEngine.validate, Pandera.validate in Hp.
  destruct (Pandera.failures astype coerce_value DataSchema (Pandas.of_polars data))
    as [|first rest]; [contradiction|].
  simpl in Hp.
  destruct Hp as [Hp|[Hp|[Hp|[Hp|[]]]]]; try discriminate.
  injection Hp as <-. exact Hin.
Qed.

Lemma printed_failures_sound_witness :
  exists name spec s i v,
    Some "gender" = Some name
    /\ In (name, spec) (Pandera.columns DataSchema)
    /\ In (Pandera.isin (strs_of ["Male"; "Female"])) (Pandera.checks_of spec)
    /\ Pandas.column name (Pandas.of_polars Frames.gender_bad) = Some s
    /\ Some 1%nat = Some i /\ Some (VStr "M") = Some v
    /\ nth_error (Pandas.objects
                    (Pandera.checked_series Frames.no_astype DataSchema spec s)) i
       = Some v
    /\ Pandas.isna v = false
    /\ Pandera.check_element (Pandera.isin (strs_of ["Male"; "Female"])) v
       <> Some true.
Proof.
  apply (@printed_failures_sound Frames.no_astype Frames.no_coerce_value
           Frames.gender_bad
           (Pandera.failures Frames.no_astype Frames.no_coerce_value DataSchema
              (Pandas.of_polars Frames.gender_bad))
           {| Pandera.fc_column := Some "gender";
              Pandera.fc_check :=
                Pandera.check_failed (Pandera.isin (strs_of ["Male"; "Female"]));
              Pandera.fc_value := Some (VStr "M"); Pandera.fc_index := Some 1%nat |}
           (Pandera.isin (strs_of ["Male"; "Female"]))).
  - right. left. reflexivity.
  - right. left. reflexivity.
  - reflexivity.
Defined.

(** X18.  When [DataEngine.validate] returns, it returns the frame it was
    given, not pandera's coerced copy, it has printed nothing, and the
    failure table of the frame is empty. *)
Theorem validate_returns_input :
  forall astype coerce_value (data out : Polars.DataFrame),
    snd (DataEngine.validate astype coerce_value data) = Ok out ->
    out = data
    /\ fst (DataEngine.validate astype coerce_value data) = []
    /\ Pandera.failures astype coerce_value DataSchema (Pandas.of_polars data) = [].
Proof.
  intros astype coerce_value data out H.
  unfold DataEngine.validate, Pandera.validate in *.
  destruct (Pandera.failures astype coerce_value DataSchema (Pandas.of_polars data)).
  - simpl in H. injection H as <-. auto.
  - discriminate.
Qed.

Lemma validate_returns_input_witness :
  fst (DataEngine.validate Frames.no_astype Frames.no_coerce_value Frames.valid) = [].
Proof.
  refine (proj1 (proj2 (@validate_returns_input Frames.no_astype
                          Frames.no_coerce_value Frames.valid Frames.valid _))).
  reflexivity.
Defined.

(* ===================================================================== *)
(** * Further properties: the split *)
(* ===================================================================== *)

Section MoreSplit.

Variable ceil_mul : pyfloat -> nat -> Z.
Variable rng_permutation : Z -> nat -> nat -> list nat.
Variable approximate_mode : Z -> nat -> list nat -> nat -> list nat.
Variable number_text : Polars.series -> list string.

(** Every failure of the size computation is a [ValueError]. *)
Lemma validate_shuffle_split_error (n : nat) (test_size : value) (e : exn) :
  Sklearn.validate_shuffle_split ceil_mul n test_size = Raise e ->
  exists msg, e = ValueError msg.
Proof.
  unfold Sklearn.validate_shuffle_split. intros H.
  assert (forall z : Z,
            (if (Z.of_nat n - z =? 0)%Z
             then Raise (ValueError "the resulting train set will be empty")
             else if (z <=? 0)%Z || (Z.of_nat n <=? z)%Z
             then Raise (ValueError "test_size should be positive and smaller than the number of samples")
             else Ok (Z.to_nat (Z.of_nat n - z), Z.to_nat z)) = Raise e ->
            exists msg, e = ValueError msg) as Hk.
  { intros z Hz. destruct (Z.of_nat n - z =? 0)%Z.
    - injection Hz as <-. eauto.
    - destruct ((z <=? 0)%Z || (Z.of_nat n <=? z)%Z); [|discriminate].
      injection Hz as <-. eauto. }
  destruct test_size as [| b | z | [q| | |] | s | l | m]; cbn [bind] in H;
    try (injection H as <-; eauto; fail); try (apply Hk in H; exact H).
  - destruct ((Z.of_nat n <=? z)%Z || (z <=? 0)%Z); cbn [bind] in H.
    + injection H as <-. eauto.
    + now apply Hk in H.
  - destruct (Qle_bool q 0 || Qle_bool 1 q); cbn [bind] in H.
    + injection H as <-. eauto.
    + now apply Hk in H.
Qed.

(** The sizes it returns: both parts get a row, no row is left over. *)
Lemma validate_shuffle_split_inv (n : nat) (test_size : value) (n_train n_test : nat) :
  Sklearn.validate_shuffle_split ceil_mul n test_size = Ok (n_train, n_test) ->
  (n_train + n_test = n /\ 0 < n_train /\ 0 < n_test)%nat.
Proof.
  unfold Sklearn.validate_shuffle_split. intros H.
  apply bind_ok in H. destruct H as (z & _ & H).
  destruct (Z.eqb_spec (Z.of_nat n - z) 0); [discriminate|].
  destruct (Z.leb_spec z 0); [discriminate|].
  destruct (Z.leb_spec (Z.of_nat n) z); [discriminate|].
  cbn [orb] in H. injection H as <- <-. lia.
Qed.

Lemma train_test_split_inv (X y : Polars.DataFrame) (test_size : value)
    (seed : Z) (stratify : option Polars.DataFrame)
    (a b c d : Polars.DataFrame) :
  Sklearn.train_test_split ceil_mul rng_permutation approximate_mode number_text
    X y test_size seed stratify = Ok (a, b, c, d) ->
  Polars.height X = Polars.height y
  /\ exists n_train n_test train test,
       Sklearn.validate_shuffle_split ceil_mul (Polars.height X) test_size
       = Ok (n_train, n_test)
       /\ match stratify with
          | Some labels =>
              Sklearn.stratified_shuffle_split rng_permutation approximate_mode seed
                (Sklearn.labels_of number_text labels) n_train n_test
          | None => Ok (Sklearn.shuffle_split rng_permutation seed (Polars.height X)
                          n_train n_test)
          end = Ok (train, test)
       /\ a = Polars.take train X /\ b = Polars.take test X
       /\ c = Polars.take train y /\ d = Polars.take test y.
Proof.
  unfold Sklearn.train_test_split. intros H.
  destruct (Sklearn.valid_seed seed); [|discriminate].
  cbn [negb] in H.
  destruct (Nat.eqb_spec (Polars.height X) (Polars.height y)) as [Hh|Hh];
    [|discriminate].
  cbn [negb] in H. split; [exact Hh|].
  apply bind_ok in H. destruct H as ([n_train n_test] & Hs & H).
  apply bind_ok in H. destruct H as ([train test] & Hi & H).
  injection H as <- <- <- <-.
  exists n_train, n_test, train, test. repeat split; assumption.
Qed.

Lemma train_test_split_error (X y : Polars.DataFrame) (test_size : value)
    (seed : Z) (stratify : option Polars.DataFrame) (msg : string) :
  (forall n_train n_test,
     Sklearn.validate_shuffle_split ceil_mul (Polars.height X) test_size
     = Ok (n_train, n_test) ->
     exists labels,
       stratify = Some labels
       /\ Sklearn.stratified_shuffle_split rng_permutation approximate_mode seed
            (Sklearn.labels_of number_text labels) n_train n_test
          = Raise (ValueError msg)) ->
  exists msg',
    Sklearn.train_test_split ceil_mul rng_permutation approximate_mode number_text
      X y test_size seed stratify = Raise (ValueError msg').
Proof.
  intros Hs. unfold Sklearn.train_test_split.
  destruct (negb (Sklearn.valid_seed seed)); [eauto|].
  destruct (negb (Polars.height X =? Polars.height y)%nat); [eauto|].
  destruct (Sklearn.validate_shuffle_split ceil_mul (Polars.height X) test_size)
    as [[n_train n_test]|e] eqn:E.
  - destruct (Hs _ _ eq_refl) as (labels & -> & Hr). cbn [bind]. rewrite Hr.
    cbn [bind]. eauto.
  - destruct (validate_shuffle_split_error _ _ E) as (m & ->). cbn [bind]. eauto.
Qed.

Lemma split_inv (config : value) (data : Polars.DataFrame) (seed : Z)
    (a b c d : Polars.DataFrame) :
  DataEngine.split ceil_mul rng_permutation approximate_mode number_text
    config data seed = Ok (a, b, c, d) ->
  exists s stratify ratio,
    Polars.column "Churn" data = Some s
    /\ Box.getattr config "stratify" = Ok stratify
    /\ Box.getattr config "ratio" = Ok ratio
    /\ Sklearn.train_test_split ceil_mul rng_permutation approximate_mode number_text
         (Polars.remove "Churn" data) [("Churn", s)] ratio seed
         (if truthy stratify then Some [("Churn", s)] else None)
       = Ok (a, b, c, d).
Proof.
  unfold DataEngine.split, Polars.drop, Polars.select. intros H.
  destruct (Polars.column "Churn" data) as [s|]; [|discriminate].
  cbn [bind] in H.
  apply bind_ok in H. destruct H as (stratify & Hst & H).
  exists s, stratify.
  destruct (truthy stratify); apply bind_ok in H; destruct H as (ratio & Hr & H);
    exists ratio; auto.
Qed.

Lemma columns_take (idx : list nat) (df : Polars.DataFrame) :
  Polars.columns (Polars.take idx df) = Polars.columns df.
Proof.
  unfold Polars.columns, Polars.take. rewrite map_map. reflexivity.
Qed.

Lemma column_remove (name : string) (df : Polars.DataFrame) :
  Polars.column name (Polars.remove name df) = None.
Proof.
  induction df as [|[n s] df IH]; simpl; [reflexivity|].
  destruct (String.eqb name n) eqn:E; [exact IH|]. simpl. now rewrite E.
Qed.

Lemma column_take (name : string) (idx : list nat) (df : Polars.DataFrame) :
  Polars.column name (Polars.take idx df)
  = option_map (Polars.take_series idx) (Polars.column name df).
Proof.
  induction df as [|[n s] df IH]; simpl; [reflexivity|].
  destruct (String.eqb name n); [reflexivity | exact IH].
Qed.

Lemma minimum_le (l : list nat) (x : nat) :
  In x l -> (Sklearn.minimum l <= x)%nat.
Proof.
  induction l as [|y l IH]; [contradiction|].
  intros [->|H].
  - destruct l; simpl; lia.
  - specialize (IH H). destruct l as [|z l]; [contradiction|].
    change (Sklearn.minimum (y :: z :: l))
      with (Nat.min y (Sklearn.minimum (z :: l))). lia.
Qed.

Lemma stratified_ok_stratifiable (seed : Z) (labels : list string)
    (n_train n_test : nat) (r : list nat * list nat) :
  Sklearn.stratified_shuffle_split rng_permutation approximate_mode seed labels
    n_train n_test = Ok r ->
  Splitting.stratifiable labels n_train n_test = true.
Proof.
  unfold Sklearn.stratified_shuffle_split, Splitting.stratifiable.
  cbv zeta. rewrite !map_map. intros H.
  destruct (Nat.ltb_spec
              (Sklearn.minimum
                 (map (fun c => List.length (Sklearn.positions_of labels c))
                    (Sklearn.unique labels))) 2); [discriminate|].
  destruct (Nat.ltb_spec n_train (List.length (Sklearn.unique labels)));
    [discriminate|].
  destruct (Nat.ltb_spec n_test (List.length (Sklearn.unique labels)));
    [discriminate|].
  rewrite !andb_true_iff. repeat split; now apply Nat.leb_le.
Qed.

End MoreSplit.

(** X19.  Without a [Churn] column nothing is split: [DataEngine.split]
    raises polars' [ColumnNotFoundError] at its first statement, whatever
    the split section holds. *)
Theorem split_without_churn_fails :
  forall ceil_mul rng_permutation approximate_mode number_text
         (config : value) (data : Polars.DataFrame) (seed : Z),
    Polars.column "Churn" data = None ->
    DataEngine.split ceil_mul rng_permutation approximate_mode number_text
      config data seed
    = Raise (ColumnNotFoundError "Churn").
Proof.
  intros ceil_mul rng mode number_text config data seed H.
  unfold DataEngine.split, Polars.drop. now rewrite H.
Qed.

Lemma split_without_churn_fails_witness :
  Splitting.sample_split VNone (Polars.remove "Churn" Frames.valid) 69420
  = Raise (ColumnNotFoundError "Churn").
Proof.
  apply (@split_without_churn_fails Splitting.exact_ceil_mul
           Splitting.identity_permutation Splitting.greedy_mode
           Splitting.no_number_text VNone (Polars.remove "Churn" Frames.valid) 69420).
  reflexivity.
Defined.

(** X20.  A float ratio that is not strictly between 0 and 1 never gives
    a split: on a frame with a [Churn] column and a readable [stratify]
    entry, [DataEngine.split] raises [ValueError], with or without
    stratification.  This includes the ratio 1.0 and the negative
    ratios. *)
Theorem split_ratio_outside_unit_interval :
  forall ceil_mul rng_permutation approximate_mode number_text
         (config : value) (data : Polars.DataFrame) (seed : Z)
         (s : Polars.series) (stratify : value) (q : Q),
    Polars.column "Churn" data = Some s ->
    Box.getattr config "stratify" = Ok stratify ->
    Box.getattr config "ratio" = Ok (VFloat (FFin q)) ->
    (q <= 0)%Q \/ (1 <= q)%Q ->
    exists msg,
      DataEngine.split ceil_mul rng_permutation approximate_mode number_text
        config data seed
      = Raise (ValueError msg).
Proof.
  intros ceil_mul rng mode number_text config data seed s stratify q
         Hc Hst Hr Hq.
  assert (Qle_bool q 0 || Qle_bool 1 q = true) as Hb.
  { apply orb_true_iff. destruct Hq as [Hq|Hq]; [left|right];
      now apply Qle_bool_iff. }
  assert (forall X y arg,
            exists msg,
              Sklearn.train_test_split ceil_mul rng mode number_text X y
                (VFloat (FFin q)) seed arg = Raise (ValueError msg)) as Htts.
  { intros X y arg. unfold Sklearn.train_test_split.
    destruct (negb (Sklearn.valid_seed seed)); [eauto|].
    destruct (negb (Polars.height X =? Polars.height y)%nat); [eauto|].
    unfold Sklearn.validate_shuffle_split. rewrite Hb. cbn [bind]. eauto. }
  unfold DataEngine.split, Polars.drop, Polars.select. rewrite Hc.
  cbn [bind]. rewrite Hst. cbn [bind].
  destruct (truthy stratify); rewrite Hr; cbn [bind]; apply Htts.
Qed.

Lemma split_ratio_outside_unit_interval_witness :
  exists msg,
    Splitting.sample_split MoreSplits.whole Frames.valid 69420
    = Raise (ValueError msg).
Proof.
  apply (@split_ratio_outside_unit_interval Splitting.exact_ceil_mul
           Splitting.identity_permutation Splitting.greedy_mode
           Splitting.no_number_text MoreSplits.whole Frames.valid 69420
           (Frames.text ["No"; "Yes"]) (VBool false) 1).
  - reflexivity.
  - reflexivity.
  - reflexivity.
  - right. apply Qle_refl.
Defined.

(** X21.  Whatever [DataEngine.split] returns has the shape the later
    stages rely on: the two feature parts are rows of the frame without
    [Churn], with its columns in their order and no [Churn] column, the
    two label parts hold the [Churn] column alone, and the train parts of
    features and labels are taken at the same positions, as are the test
    parts. *)
Theorem split_output_shape :
  forall ceil_mul rng_permutation approximate_mode number_text
         (config : value) (data : Polars.DataFrame) (seed : Z)
         (a b c d : Polars.DataFrame),
    DataEngine.split ceil_mul rng_permutation approximate_mode number_text
      config data seed = Ok (a, b, c, d) ->
    exists s train test,
      Polars.column "Churn" data = Some s
      /\ a = Polars.take train (Polars.remove "Churn" data)
      /\ b = Polars.take test (Polars.remove "Churn" data)
      /\ c = [("Churn", Polars.take_series train s)]
      /\ d = [("Churn", Polars.take_series test s)]
      /\ Polars.columns a = Polars.columns (Polars.remove "Churn" data)
      /\ Polars.columns b = Polars.columns (Polars.remove "Churn" data)
      /\ Polars.column "Churn" a = None
      /\ Polars.column "Churn" b = None.
Proof.
  intros ceil_mul rng mode number_text config data seed a b c d H.
  apply split_inv in H. destruct H as (s & stratify & ratio & Hc & _ & _ & H).
  apply train_test_split_inv in H.
  destruct H as (_ & n_train & n_test & train & test & _ & _ & -> & -> & -> & ->).
  exists s, train, test. rewrite !columns_take, !column_take, column_remove.
  repeat split; auto.
Qed.

Lemma split_output_shape_witness :
  exists s train test,
    Polars.column "Churn" Splitting.four_rows = Some s
    /\ [ ("customerID", Frames.text ["a"; "c"]); ("tenure", Frames.ints [1; 2]%Z) ]
       = Polars.take train (Polars.remove "Churn" Splitting.four_rows)
    /\ [ ("customerID", Frames.text ["b"; "d"]); ("tenure", Frames.ints [34; 45]%Z) ]
       = Polars.take test (Polars.remove "Churn" Splitting.four_rows)
    /\ [ ("Churn", Frames.text ["No"; "No"]) ]
       = [("Churn", Polars.take_series train s)]
    /\ [ ("Churn", Frames.text ["Yes"; "Yes"]) ]
       = [("Churn", Polars.take_series test s)]
    /\ Polars.columns
         [ ("customerID", Frames.text ["a"; "c"]); ("tenure", Frames.ints [1; 2]%Z) ]
       = Polars.columns (Polars.remove "Churn" Splitting.four_rows)
    /\ Polars.columns
         [ ("customerID", Frames.text ["b"; "d"]); ("tenure", Frames.ints [34; 45]%Z) ]
       = Polars.columns (Polars.remove "Churn" Splitting.four_rows)
    /\ Polars.column "Churn"
         [ ("customerID", Frames.text ["a"; "c"]); ("tenure", Frames.ints [1; 2]%Z) ]
       = None
    /\ Polars.column "Churn"
         [ ("customerID", Frames.text ["b"; "d"]); ("tenure", Frames.ints [34; 45]%Z) ]
       = None.
Proof.
  apply (@split_output_shape Splitting.exact_ceil_mul
           Splitting.identity_permutation Splitting.greedy_mode
           Splitting.no_number_text Splitting.half_stratified
           Splitting.four_rows 69420).
  reflexivity.
Defined.

(** X22.  Stratification needs two rows of every class: when [stratify]
    is on and some value of a string [Churn] column stands in one row
    only, [DataEngine.split] raises [ValueError], whatever the ratio. *)
Theorem split_lone_class_fails :
  forall ceil_mul rng_permutation approximate_mode number_text
         (config : value) (data : Polars.DataFrame) (seed : Z)
         (churn : list (option string)) (stratify ratio : value)
         (label : string) (i : nat),
    Polars.column "Churn" data = Some (Polars.String_ churn) ->
    Box.getattr config "stratify" = Ok stratify ->
    truthy stratify = true ->
    Box.getattr config "ratio" = Ok ratio ->
    Sklearn.positions_of (map Sklearn.label_text churn) label = [i] ->
    exists msg,
      DataEngine.split ceil_mul rng_permutation approximate_mode number_text
        config data seed
      = Raise (ValueError msg).
Proof.
  intros ceil_mul rng mode number_text config data seed churn stratify ratio
         label i Hc Hst Ht Hr Hpos.
  unfold DataEngine.split, Polars.drop, Polars.select. rewrite Hc.
  cbn [bind]. rewrite Hst. cbn [bind]. rewrite Ht, Hr. cbn [bind].
  apply train_test_split_error
    with (msg := "The least populated class in y has only 1 member").
  intros n_train n_test _. eexists. split; [reflexivity|].
  cbn [Sklearn.labels_of]. unfold Sklearn.stratified_shuffle_split.
  set (labels := map Sklearn.label_text churn) in *.
  assert (In label (Sklearn.unique labels)) as Hin.
  { apply unique_In. assert (In i (Sklearn.positions_of labels label)) as Hi
      by (rewrite Hpos; now left).
    apply positions_of_In in Hi. now apply nth_error_In in Hi. }
  assert (Sklearn.minimum
            (map (@List.length nat)
               (map (Sklearn.positions_of labels) (Sklearn.unique labels))) <= 1)%nat
    as Hmin.
  { apply minimum_le. rewrite map_map. apply in_map_iff.
    exists label. rewrite Hpos. auto. }
  destruct (Nat.ltb_spec
              (Sklearn.minimum
                 (map (@List.length nat)
                    (map (Sklearn.positions_of labels) (Sklearn.unique labels)))) 2);
    [reflexivity | lia].
Qed.

Lemma split_lone_class_fails_witness :
  exists msg,
    Splitting.sample_split Splitting.half_stratified MoreSplits.lone_class 69420
    = Raise (ValueError msg).
Proof.
  apply (@split_lone_class_fails Splitting.exact_ceil_mul
           Splitting.identity_permutation Splitting.greedy_mode
           Splitting.no_number_text Splitting.half_stratified
           MoreSplits.lone_class 69420
           (map Some ["No"; "Yes"; "No"]) (VBool true) (VFloat (FFin (1 # 2)))
           "Yes" 1%nat).
  - reflexivity.
  - reflexivity.
  - reflexivity.
  - reflexivity.
  - reflexivity.
Defined.

(** X23.  Whenever [DataEngine.split] returns on a frame with a string
    [Churn] column, whether the ratio is a float, a number of rows or
    left empty, the train and test parts are the rows at two lists of
    positions that together hold every row position once, and neither
    part is empty.  numpy's generator and [_approximate_mode] are taken
    to return a permutation and a bounded allocation. *)
Theorem split_returns_partition :
  forall ceil_mul rng_permutation approximate_mode number_text
         (config : value) (data : Polars.DataFrame) (seed : Z)
         (churn : list (option string)) (a b c d : Polars.DataFrame),
    Splitting.permutation_contract rng_permutation ->
    Splitting.mode_contract approximate_mode ->
    Polars.column "Churn" data = Some (Polars.String_ churn) ->
    DataEngine.split ceil_mul rng_permutation approximate_mode number_text
      config data seed = Ok (a, b, c, d) ->
    exists train test,
      a = Polars.take train (Polars.remove "Churn" data)
      /\ b = Polars.take test (Polars.remove "Churn" data)
      /\ c = Polars.take train [("Churn", Polars.String_ churn)]
      /\ d = Polars.take test [("Churn", Polars.String_ churn)]
      /\ Permutation (train ++ test) (seq 0 (List.length churn))
      /\ (0 < Polars.height a)%nat /\ (0 < Polars.height b)%nat
      /\ (Polars.height a + Polars.height b = List.length churn)%nat.
Proof.
  intros ceil_mul rng mode number_text config data seed churn a b c d
         Hrng Hmode Hc H.
  apply split_inv in H. destruct H as (s & stratify & ratio & Hc' & _ & _ & H).
  rewrite Hc in Hc'. injection Hc' as <-.
  apply train_test_split_inv in H.
  destruct H as (Hh & n_train & n_test & train & test & Hsz & Hsp & -> & -> & -> & ->).
  change (Polars.height [("Churn", Polars.String_ churn)])
    with (List.length churn) in Hh.
  rewrite Hh in Hsz, Hsp.
  destruct (validate_shuffle_split_inv _ _ _ Hsz) as (Hsum & Htr & Hte).
  assert (Permutation (train ++ test) (seq 0 (List.length churn))
          /\ List.length train = n_train /\ List.length test = n_test)
    as (Hperm & Hl1 & Hl2).
  { destruct (truthy stratify).
    - cbn [Sklearn.labels_of] in Hsp.
      destruct (@stratified_shuffle_split_partition rng mode Hrng Hmode seed
                  (map Sklearn.label_text churn) n_train n_test
                  (stratified_ok_stratifiable _ _ _ _ _ _ Hsp))
        as (train' & test' & Hs & Hp & H1 & H2);
        [rewrite length_map; exact Hsum|].
      rewrite Hs in Hsp. injection Hsp as <- <-.
      rewrite length_map in Hp. auto.
    - pose proof (@shuffle_split_partition rng Hrng seed (List.length churn)
                    n_train n_test Hsum) as Hs.
      destruct (Sklearn.shuffle_split rng seed (List.length churn) n_train n_test)
        as [train' test'].
      injection Hsp as <- <-. exact Hs. }
  exists train, test.
  destruct (@partition_in_range train test (List.length churn) Hperm) as [Fa Fb].
  assert (Polars.remove "Churn" data <> []) as Hne.
  { intros E. rewrite E in Hh. simpl in Hh. lia. }
  rewrite !take_height; try assumption; try (rewrite Hh; assumption).
  repeat split; auto; lia.
Qed.

Lemma split_returns_partition_witness :
  exists train test,
    [ ("customerID", Frames.text ["b"; "c"; "d"]);
      ("tenure", Frames.ints [34; 2; 45]%Z) ]
    = Polars.take train (Polars.remove "Churn" Splitting.four_rows)
    /\ [ ("customerID", Frames.text ["a"]); ("tenure", Frames.ints [1]%Z) ]
       = Polars.take test (Polars.remove "Churn" Splitting.four_rows)
    /\ [ ("Churn", Frames.text ["Yes"; "No"; "Yes"]) ]
       = Polars.take train [("Churn", Frames.text ["No"; "Yes"; "No"; "Yes"])]
    /\ [ ("Churn", Frames.text ["No"]) ]
       = Polars.take test [("Churn", Frames.text ["No"; "Yes"; "No"; "Yes"])]
    /\ Permutation (train ++ test) (seq 0 4)
    /\ (0 < 3)%nat /\ (0 < 1)%nat /\ (3 + 1 = 4)%nat.
Proof.
  apply (@split_returns_partition Splitting.exact_ceil_mul
           Splitting.identity_permutation Splitting.greedy_mode
           Splitting.no_number_text MoreSplits.one_row Splitting.four_rows 69420
           (map Some ["No"; "Yes"; "No"; "Yes"])
           [ ("customerID", Frames.text ["b"; "c"; "d"]);
             ("tenure", Frames.ints [34; 2; 45]%Z) ]
           [ ("customerID", Frames.text ["a"]); ("tenure", Frames.ints [1]%Z) ]
           [ ("Churn", Frames.text ["Yes"; "No"; "Yes"]) ]
           [ ("Churn", Frames.text ["No"]) ]).
  - exact identity_permutation_contract.
  - exact greedy_mode_contract.
  - reflexivity.
  - reflexivity.
Defined.

(* ===================================================================== *)
(** * Further properties: the transformation *)
(* ===================================================================== *)

(** One step of [DataEngine.transform]: the case of the next call that
    may raise. *)
Ltac transform_step H c :=
  let r := fresh "r" in
  let E := fresh "E" in
  destruct c as [r|] eqn:E;
  cbn [Log.bind Log.lift Log.emit Log.ret DataEngine.write app fst snd] in H.

(** X24.  A run of [DataEngine.transform] that returns has fitted both
    preprocessors on the train parts alone, has written exactly four
    files, the two pickled preprocessors and then the train and the test
    dataset, and returns the four arrays it got by transforming each part
    with the preprocessor of its kind. *)
Theorem transform_success_files :
  forall (preprocessor ndarray : Type) fit_features fit_labels transform_with
         save_to_pickle savez
         (config : value) (a b c d : Polars.DataFrame) (dir : string)
         (log : list (written preprocessor ndarray)) (t : TransformerOutput ndarray),
    DataEngine.transform fit_features fit_labels transform_with save_to_pickle savez
      config a b c d dir
    = (log, Ok t) ->
    exists scale dummy ordinal feature_transformer label_transformer,
      Box.getattr config "scale" = Ok scale
      /\ Box.getattr config "dummy" = Ok dummy
      /\ Box.getattr config "ordinal" = Ok ordinal
      /\ fit_features scale dummy ordinal (Pandas.of_polars a) = Ok feature_transformer
      /\ fit_labels (Pandas.of_polars c) = Ok label_transformer
      /\ transform_with feature_transformer (Pandas.of_polars a) = Ok (X_train t)
      /\ transform_with feature_transformer (Pandas.of_polars b) = Ok (X_test t)
      /\ transform_with label_transformer (Pandas.of_polars c) = Ok (y_train t)
      /\ transform_with label_transformer (Pandas.of_polars d) = Ok (y_test t)
      /\ log = [ Pickle (DataEngine.path_join dir "feature_transformer_.pkl")
                   feature_transformer;
                 Pickle (DataEngine.path_join dir "label_binarizer.pkl")
                   label_transformer;
                 Savez (DataEngine.path_join dir "train_dataset")
                   (X_train t) (y_train t);
                 Savez (DataEngine.path_join dir "test_dataset")
                   (X_test t) (y_test t) ].
Proof.
  intros P N ff fl tw sp sz config a b c d dir log t H.
  unfold DataEngine.transform in H.
  transform_step H (Box.getattr config "scale"); [|discriminate].
  transform_step H (Box.getattr config "dummy"); [|discriminate].
  transform_step H (Box.getattr config "ordinal"); [|discriminate].
  transform_step H (ff r r0 r1 (Pandas.of_polars a)); [|discriminate].
  transform_step H (fl (Pandas.of_polars c)); [|discriminate].
  transform_step H (sp (DataEngine.path_join dir "feature_transformer_.pkl") r2);
    [|discriminate].
  transform_step H (sp (DataEngine.path_join dir "label_binarizer.pkl") r3);
    [|discriminate].
  transform_step H (tw r2 (Pandas.of_polars a)); [|discriminate].
  transform_step H (tw r2 (Pandas.of_polars b)); [|discriminate].
  transform_step H (tw r3 (Pandas.of_polars c)); [|discriminate].
  transform_step H (tw r3 (Pandas.of_polars d)); [|discriminate].
  cbn [X_train X_test y_train y_test] in H.
  transform_step H (sz (DataEngine.path_join dir "train_dataset") r6 r8);
    [|discriminate].
  transform_step H (sz (DataEngine.path_join dir "test_dataset") r7 r9);
    [|discriminate].
  injection H as <- <-.
  exists r, r0, r1, r2, r3. cbn. repeat split; auto.
Qed.

Lemma transform_success_files_witness :
  exists scale dummy ordinal feature_transformer label_transformer,
    Box.getattr Samples.transform_ok "scale" = Ok scale
    /\ Box.getattr Samples.transform_ok "dummy" = Ok dummy
    /\ Box.getattr Samples.transform_ok "ordinal" = Ok ordinal
    /\ Ok tt = Ok feature_transformer
    /\ Ok tt = Ok label_transformer
    /\ FlowSamples.rows feature_transformer (Pandas.of_polars Frames.valid) = Ok 2%nat
    /\ FlowSamples.rows feature_transformer (Pandas.of_polars Frames.valid) = Ok 2%nat
    /\ FlowSamples.rows label_transformer (Pandas.of_polars Frames.valid) = Ok 2%nat
    /\ FlowSamples.rows label_transformer (Pandas.of_polars Frames.valid) = Ok 2%nat
    /\ [ Pickle "artifacts/feature_transformer_.pkl" tt;
         Pickle "artifacts/label_binarizer.pkl" tt;
         Savez "artifacts/train_dataset" 2%nat 2%nat;
         Savez "artifacts/test_dataset" 2%nat 2%nat ]
       = [ Pickle (DataEngine.path_join "artifacts" "feature_transformer_.pkl")
             feature_transformer;
           Pickle (DataEngine.path_join "artifacts" "label_binarizer.pkl")
             label_transformer;
           Savez (DataEngine.path_join "artifacts" "train_dataset") 2%nat 2%nat;
           Savez (DataEngine.path_join "artifacts" "test_dataset") 2%nat 2%nat ].
Proof.
  apply (@transform_success_files unit nat (fun _ _ _ _ => Ok tt) (fun _ => Ok tt)
           FlowSamples.rows (fun _ _ => Ok tt) (fun _ _ _ => Ok tt)
           Samples.transform_ok Frames.valid Frames.valid
           Frames.valid Frames.valid "artifacts"
           [ Pickle "artifacts/feature_transformer_.pkl" tt;
             Pickle "artifacts/label_binarizer.pkl" tt;
             Savez "artifacts/train_dataset" 2%nat 2%nat;
             Savez "artifacts/test_dataset" 2%nat 2%nat ]
           {| X_train := 2%nat; X_test := 2%nat; y_train := 2%nat; y_test := 2%nat |}).
  reflexivity.
Defined.

(** X25.  A run of [DataEngine.transform] that raises has not completed
    the test dataset, and what it has completed is a beginning of its
    four writes in their order: nothing; or, both preprocessors fitted,
    the pickle of the first; or the pickles of both; or the two pickles
    and the train dataset, made of the train features and the train
    labels as the two preprocessors transform them.  A write that raises
    is not among them. *)
Theorem transform_failure_files :
  forall (preprocessor ndarray : Type) fit_features fit_labels transform_with
         save_to_pickle savez
         (config : value) (a b c d : Polars.DataFrame) (dir : string)
         (log : list (written preprocessor ndarray)) (e : exn),
    DataEngine.transform fit_features fit_labels transform_with save_to_pickle savez
      config a b c d dir
    = (log, Raise e) ->
    log = []
    \/ exists scale dummy ordinal feature_transformer label_transformer,
         Box.getattr config "scale" = Ok scale
         /\ Box.getattr config "dummy" = Ok dummy
         /\ Box.getattr config "ordinal" = Ok ordinal
         /\ fit_features scale dummy ordinal (Pandas.of_polars a)
            = Ok feature_transformer
         /\ fit_labels (Pandas.of_polars c) = Ok label_transformer
         /\ save_to_pickle (DataEngine.path_join dir "feature_transformer_.pkl")
              feature_transformer = Ok tt
         /\ (log = [ Pickle (DataEngine.path_join dir "feature_transformer_.pkl")
                       feature_transformer ]
             \/ save_to_pickle (DataEngine.path_join dir "label_binarizer.pkl")
                  label_transformer = Ok tt
                /\ (log = [ Pickle (DataEngine.path_join dir "feature_transformer_.pkl")
                              feature_transformer;
                            Pickle (DataEngine.path_join dir "label_binarizer.pkl")
                              label_transformer ]
                    \/ exists features labels,
                         transform_with feature_transformer (Pandas.of_polars a)
                         = Ok features
                         /\ transform_with label_transformer (Pandas.of_polars c)
                            = Ok labels
                         /\ savez (DataEngine.path_join dir "train_dataset")
                              features labels = Ok tt
                         /\ log = [ Pickle (DataEngine.path_join dir
                                              "feature_transformer_.pkl")
                                      feature_transformer;
                                    Pickle (DataEngine.path_join dir
                                              "label_binarizer.pkl")
                                      label_transformer;
                                    Savez (DataEngine.path_join dir "train_dataset")
                                      features labels ])).
Proof.
  intros P N ff fl tw sp sz config a b c d dir log e H.
  unfold DataEngine.transform in H.
  transform_step H (Box.getattr config "scale");
    [|injection H as <- _; now left].
  transform_step H (Box.getattr config "dummy");
    [|injection H as <- _; now left].
  transform_step H (Box.getattr config "ordinal");
    [|injection H as <- _; now left].
  transform_step H (ff r r0 r1 (Pandas.of_polars a));
    [|injection H as <- _; now left].
  transform_step H (fl (Pandas.of_polars c));
    [|injection H as <- _; now left].
  transform_step H (sp (DataEngine.path_join dir "feature_transformer_.pkl") r2);
    [|injection H as <- _; now left].
  right. exists r, r0, r1, r2, r3. destruct r4.
  do 6 (split; [first [assumption | reflexivity]|]).
  transform_step H (sp (DataEngine.path_join dir "label_binarizer.pkl") r3);
    [|injection H as <- _; now left].
  right. destruct r4. split; [first [assumption | reflexivity]|].
  transform_step H (tw r2 (Pandas.of_polars a));
    [|injection H as <- _; now left].
  transform_step H (tw r2 (Pandas.of_polars b));
    [|injection H as <- _; now left].
  transform_step H (tw r3 (Pandas.of_polars c));
    [|injection H as <- _; now left].
  transform_step H (tw r3 (Pandas.of_polars d));
    [|injection H as <- _; now left].
  cbn [X_train X_test y_train y_test] in H.
  transform_step H (sz (DataEngine.path_join dir "train_dataset") r4 r6);
    [|injection H as <- _; now left].
  right. exists r4, r6. destruct r8.
  do 3 (split; [first [assumption | reflexivity]|]).
  transform_step H (sz (DataEngine.path_join dir "test_dataset") r5 r7);
    [discriminate|].
  injection H as <- _. reflexivity.
Qed.

Lemma transform_failure_files_witness :
  [ Pickle "artifacts/feature_transformer_.pkl" tt ] = @nil (written unit nat)
  \/ exists scale dummy ordinal feature_transformer label_transformer,
       Box.getattr Samples.transform_ok "scale" = Ok scale
       /\ Box.getattr Samples.transform_ok "dummy" = Ok dummy
       /\ Box.getattr Samples.transform_ok "ordinal" = Ok ordinal
       /\ Ok tt = Ok feature_transformer
       /\ Ok tt = Ok label_transformer
       /\ MoreTransform.disk_full_after_one
            (DataEngine.path_join "artifacts" "feature_transformer_.pkl")
            feature_transformer = Ok tt
       /\ ([ Pickle "artifacts/feature_transformer_.pkl" tt ]
           = [ @Pickle unit nat
                 (DataEngine.path_join "artifacts" "feature_transformer_.pkl")
                 feature_transformer ]
           \/ MoreTransform.disk_full_after_one
                (DataEngine.path_join "artifacts" "label_binarizer.pkl")
                label_transformer = Ok tt
              /\ ([ Pickle "artifacts/feature_transformer_.pkl" tt ]
                  = [ @Pickle unit nat
                        (DataEngine.path_join "artifacts" "feature_transformer_.pkl")
                        feature_transformer;
                      Pickle (DataEngine.path_join "artifacts" "label_binarizer.pkl")
                        label_transformer ]
                  \/ exists features labels,
                       FlowSamples.rows feature_transformer
                         (Pandas.of_polars Frames.valid) = Ok features
                       /\ FlowSamples.rows label_transformer
                            (Pandas.of_polars Frames.valid) = Ok labels
                       /\ Ok tt = Ok tt
                       /\ [ Pickle "artifacts/feature_transformer_.pkl" tt ]
                          = [ @Pickle unit nat
                                (DataEngine.path_join "artifacts"
                                   "feature_transformer_.pkl")
                                feature_transformer;
                              Pickle (DataEngine.path_join "artifacts"
                                        "label_binarizer.pkl")
                                label_transformer;
                              Savez (DataEngine.path_join "artifacts" "train_dataset")
                                features labels ])).
Proof.
  apply (@transform_failure_files unit nat (fun _ _ _ _ => Ok tt) (fun _ => Ok tt)
           FlowSamples.rows MoreTransform.disk_full_after_one (fun _ _ _ => Ok tt)
           Samples.transform_ok Frames.valid Frames.valid
           Frames.valid Frames.valid "artifacts"
           [ Pickle "artifacts/feature_transformer_.pkl" tt ]
           (OSError "No space left on device")).
  reflexivity.
Defined.

(** A run whose transformation of the train features raises has written
    the two pickles and no dataset. *)
Example transform_raises_after_pickles :
  DataEngine.transform (fun _ _ _ _ => Ok tt) (fun _ => Ok tt)
    MoreTransform.one_row_only (fun _ _ => Ok tt) (fun _ _ _ => Ok tt)
    Samples.transform_ok Frames.valid Frames.valid Frames.valid Frames.valid
    "artifacts"
  = ([ Pickle "artifacts/feature_transformer_.pkl" tt;
       Pickle "artifacts/label_binarizer.pkl" tt ],
     Raise (ValueError "Found unknown categories")).
Proof. reflexivity. Qed.

(** X26.  The pickled preprocessors do not depend on the test parts: two
    runs of [DataEngine.transform] that differ in the test frames only
    write the same pickle files. *)
Theorem pickles_ignore_test_parts :
  forall (preprocessor ndarray : Type)
         (fit_features : value -> value -> value -> Pandas.DataFrame -> result preprocessor)
         (fit_labels : Pandas.DataFrame -> result preprocessor)
         (transform_with : preprocessor -> Pandas.DataFrame -> result ndarray)
         (save_to_pickle : string -> preprocessor -> result unit)
         (savez : string -> ndarray -> ndarray -> result unit)
         (config : value) (a b b' c d d' : Polars.DataFrame) (dir : string),
    MoreTransform.pickles
      (fst (DataEngine.transform fit_features fit_labels transform_with
              save_to_pickle savez config a b c d dir))
    = MoreTransform.pickles
        (fst (DataEngine.transform fit_features fit_labels transform_with
                save_to_pickle savez config a b' c d' dir)).
Proof.
  intros P N ff fl tw sp sz config a b b' c d d' dir.
  unfold DataEngine.transform.
  destruct (Box.getattr config "scale") as [scale|]; [|reflexivity].
  destruct (Box.getattr config "dummy") as [dummy|]; [|reflexivity].
  destruct (Box.getattr config "ordinal") as [ordinal|]; [|reflexivity].
  cbn [Log.bind Log.lift app].
  destruct (ff scale dummy ordinal (Pandas.of_polars a)) as [ft|]; [|reflexivity].
  cbn [Log.bind Log.lift app].
  destruct (fl (Pandas.of_polars c)) as [lt|]; [|reflexivity].
  cbn [Log.bind Log.lift Log.emit DataEngine.write app].
  destruct (sp (DataEngine.path_join dir "feature_transformer_.pkl") ft) as [[]|];
    [|reflexivity].
  cbn [Log.bind Log.lift Log.emit DataEngine.write app].
  destruct (sp (DataEngine.path_join dir "label_binarizer.pkl") lt) as [[]|];
    [|reflexivity].
  cbn [Log.bind Log.lift Log.emit DataEngine.write app].
  destruct (tw ft (Pandas.of_polars a)) as [xa|]; [|reflexivity].
  cbn [Log.bind Log.lift Log.emit DataEngine.write app].
  destruct (tw lt (Pandas.of_polars c)) as [xc|];
    destruct (tw ft (Pandas.of_polars b)) as [xb|];
    destruct (tw ft (Pandas.of_polars b')) as [xb'|];
    destruct (tw lt (Pandas.of_polars d)) as [xd|];
    destruct (tw lt (Pandas.of_polars d')) as [xd'|];
    cbn [Log.bind Log.lift Log.emit Log.ret DataEngine.write app
         X_train X_test y_train y_test];
    try reflexivity;
    destruct (sz (DataEngine.path_join dir "train_dataset") xa xc) as [[]|];
    cbn [Log.bind Log.lift Log.emit Log.ret DataEngine.write app];
    try reflexivity;
    repeat match goal with
           | |- context [sz ?p ?x ?y] => destruct (sz p x y) as [[]|]
           end;
    reflexivity.
Qed.

(* ===================================================================== *)
(** * Further properties: the flow *)
(* ===================================================================== *)

Section MoreFlowLemmas.

Import Engine.

Lemma log_bind_snd_ok {E A B} (c : Log.t E A) (k : A -> Log.t E B) (b : B) :
  snd (Log.bind c k) = Ok b -> exists a, snd c = Ok a /\ snd (k a) = Ok b.
Proof.
  destruct c as [l [a|e]]; simpl; [|discriminate].
  destruct (k a) as [l2 r] eqn:E0. simpl. intros ->. exists a. now rewrite E0.
Qed.

Lemma task_run_snd {A} (name : task) (retries : nat) (body : result A) :
  snd (task_run name retries body) = body.
Proof. apply task_run_runs. Qed.

End MoreFlowLemmas.

(** X27.  [data_loader] is declared with [retries=3]: when the loading
    raises at every attempt, the flow shows one run of the task and three
    further attempts, then ends with the loader's exception; no later
    task is started and "Data has been loaded" is not logged. *)
Theorem loader_failure_ends_flow :
  forall (Results TunerOutput Study ndarray : Type)
         (env : Engine.imports Results TunerOutput Study ndarray)
         (config_path : string) (config data load : value)
         (ROOT_DIR viz_dir model_dir artifact_dir : string) (e : exn),
    Engine.Pilot_setup env config_path
    = Ok (config, ROOT_DIR, viz_dir, model_dir, artifact_dir) ->
    Box.getattr config "data" = Ok data ->
    Box.getattr data "load" = Ok load ->
    Engine.DataEngine_load env load = Raise e ->
    Engine.workflow env config_path
    = ([ Engine.Run Engine.setup_pipeline_task;
         Engine.Info "Setup has been configured";
         Engine.Run Engine.data_loader_task;
         Engine.Retry Engine.data_loader_task;
         Engine.Retry Engine.data_loader_task;
         Engine.Retry Engine.data_loader_task ],
       Raise e).
Proof.
  intros R T S N env path config data load root viz model art e Hs Hd Hl He.
  unfold Engine.workflow, Engine.setup_pipeline, Engine.data_loader,
    Engine.task_run.
  rewrite Hs. cbn -[Box.getattr]. rewrite Hd. cbn [bind]. rewrite Hl.
  cbn [bind]. rewrite He. reflexivity.
Qed.

Lemma loader_failure_ends_flow_witness :
  Engine.workflow MoreFlow.no_data "config.yaml"
  = ([ Engine.Run Engine.setup_pipeline_task;
       Engine.Info "Setup has been configured";
       Engine.Run Engine.data_loader_task;
       Engine.Retry Engine.data_loader_task;
       Engine.Retry Engine.data_loader_task;
       Engine.Retry Engine.data_loader_task ],
     Raise (Exception "No data found in directory")).
Proof.
  apply (@loader_failure_ends_flow unit unit unit nat MoreFlow.no_data "config.yaml"
           FlowSamples.flow_config
           (VBox [ ("load", Samples.load_dir);
                   ("split", VBox [("ratio", VFloat (FFin (1 # 2)));
                                   ("stratify", VBool false)]);
                   ("transform", Samples.transform_ok) ])
           Samples.load_dir "." "viz" "models" "artifacts"
           (Exception "No data found in directory")).
  - reflexivity.
  - reflexivity.
  - reflexivity.
  - reflexivity.
Defined.

Lemma safe_key_none (safe : string) (m : list (string * value)) :
  forallb (fun k => negb (String.eqb (Box._safe_attr k) safe)) (Box.keys m) = true ->
  Box.safe_key safe m = None.
Proof.
  induction m as [|[k v] m IH]; simpl; [reflexivity|].
  intros H. apply andb_true_iff in H. destruct H as [Hk H].
  rewrite (IH H). apply negb_true_iff in Hk. now rewrite Hk.
Qed.

Lemma lookup_none_safe (k : string) (m : list (string * value)) :
  Box._safe_attr k = k ->
  forallb (fun k' => negb (String.eqb (Box._safe_attr k') k)) (Box.keys m) = true ->
  Box.lookup k m = None.
Proof.
  intros Hk. induction m as [|[k0 v] m IH]; simpl; [reflexivity|].
  intros H. apply andb_true_iff in H. destruct H as [H0 H].
  destruct (String.eqb k k0) eqn:E; [|exact (IH H)].
  apply String.eqb_eq in E. subst k0. rewrite Hk, String.eqb_refl in H0.
  discriminate.
Qed.

(** X28.  The split reads [config.SEED]: with a configuration that has a
    [data.load] and a [data.split] section but no key that is [SEED] or
    that a [Box] converts to [SEED] (as it does "SEED!"), the flow loads
    the data, starts the split task once and ends there with
    [BoxKeyError], before [DataEngine.split] is called. *)
Theorem missing_seed_ends_flow :
  forall (Results TunerOutput Study ndarray : Type)
         (env : Engine.imports Results TunerOutput Study ndarray)
         (config_path : string) (entries : list (string * value))
         (data load split : value) (frame : Polars.DataFrame)
         (ROOT_DIR viz_dir model_dir artifact_dir : string),
    Engine.Pilot_setup env config_path
    = Ok (VBox entries, ROOT_DIR, viz_dir, model_dir, artifact_dir) ->
    Box.lookup "data" entries = Some data ->
    Box.getattr data "load" = Ok load ->
    Engine.DataEngine_load env load = Ok frame ->
    Box.getattr data "split" = Ok split ->
    forallb (fun key => negb (String.eqb (Box._safe_attr key) "SEED"))
      (Box.keys entries) = true ->
    Engine.workflow env config_path
    = ([ Engine.Run Engine.setup_pipeline_task;
         Engine.Info "Setup has been configured";
         Engine.Run Engine.data_loader_task;
         Engine.Info "Data has been loaded";
         Engine.Run Engine.data_split_task ],
       Raise (BoxKeyError "SEED")).
Proof.
  intros R T S N env path entries data load split frame root viz model art
         Hs Hd Hl Hf Hsp Hseed.
  unfold Engine.workflow, Engine.setup_pipeline, Engine.data_loader,
    Engine.data_splits, Engine.task_run.
  assert (Box.getattr (VBox entries) "data" = Ok data) as Hd'
    by (unfold Box.getattr; now rewrite Hd).
  assert (Box.getattr (VBox entries) "SEED" = Raise (BoxKeyError "SEED")) as Hseed'.
  { unfold Box.getattr.
    rewrite (@lookup_none_safe "SEED" entries eq_refl Hseed).
    change (Box._safe_attr "SEED") with "SEED".
    now rewrite (@safe_key_none "SEED" entries Hseed). }
  rewrite Hs. cbn -[Box.getattr].
  repeat (first [rewrite Hd' | rewrite Hl | rewrite Hf | rewrite Hsp
                | rewrite Hseed']; cbn -[Box.getattr]).
  reflexivity.
Qed.

Lemma missing_seed_ends_flow_witness :
  Engine.workflow MoreFlow.no_seed "config.yaml"
  = ([ Engine.Run Engine.setup_pipeline_task;
       Engine.Info "Setup has been configured";
       Engine.Run Engine.data_loader_task;
       Engine.Info "Data has been loaded";
       Engine.Run Engine.data_split_task ],
     Raise (BoxKeyError "SEED")).
Proof.
  apply (@missing_seed_ends_flow unit unit unit nat MoreFlow.no_seed "config.yaml"
           [ ("data", VBox [ ("load", Samples.load_dir);
                             ("split", VBox [("ratio", VFloat (FFin (1 # 2)));
                                             ("stratify", VBool false)]);
                             ("transform", Samples.transform_ok) ]);
             ("model", VBox [("train", VBox []); ("tune", VBox [])]) ]
           (VBox [ ("load", Samples.load_dir);
                   ("split", VBox [("ratio", VFloat (FFin (1 # 2)));
                                   ("stratify", VBool false)]);
                   ("transform", Samples.transform_ok) ])
           Samples.load_dir
           (VBox [("ratio", VFloat (FFin (1 # 2))); ("stratify", VBool false)])
           Frames.gender_bad "." "viz" "models" "artifacts").
  - reflexivity.
  - reflexivity.
  - reflexivity.
  - reflexivity.
  - reflexivity.
  - reflexivity.
Defined.

(** X29.  [visualize_insights] reads [tuner.studies[0]]: called with a
    directory and a tuner that holds no study, the task never ends
    normally, whatever the plotting functions do. *)
Theorem tuner_without_study_fails :
  forall (Results TunerOutput Study ndarray : Type)
         (env : Engine.imports Results TunerOutput Study ndarray)
         (kwargs : Engine.viz_kwargs Results TunerOutput)
         (tuner : TunerOutput) (viz_dir : string),
    Engine.kw_tuner kwargs = Some tuner ->
    Engine.kw_viz_dir kwargs = Some viz_dir ->
    Engine.studies env tuner = [] ->
    raises (snd (Engine.visualize_insights env kwargs)) = true.
Proof.
  intros R T S N env kwargs tuner viz Ht Hv Hst.
  unfold Engine.visualize_insights. rewrite task_run_snd.
  unfold Engine.visualize_insights_body. rewrite Ht, Hv, Hst.
  repeat match goal with
         | |- context [match ?x with Some _ => _ | None => _ end] => destruct x
         | |- context [bind ?x _] => destruct x; cbn [bind]
         end; reflexivity.
Qed.

Lemma tuner_without_study_fails_witness :
  raises (snd (Engine.visualize_insights MoreFlow.no_study
                 {| Engine.kw_data := Some Frames.valid;
                    Engine.kw_results := Some tt;
                    Engine.kw_tuner := Some tt;
                    Engine.kw_viz_dir := Some "viz" |}))
  = true.
Proof.
  apply (@tuner_without_study_fails unit unit unit nat MoreFlow.no_study
           {| Engine.kw_data := Some Frames.valid; Engine.kw_results := Some tt;
              Engine.kw_tuner := Some tt; Engine.kw_viz_dir := Some "viz" |}
           tt "viz").
  - reflexivity.
  - reflexivity.
  - reflexivity.
Defined.

(** X30.  In a run of the flow that ends normally each stage was handed
    what the stage before it returned: the frame that was loaded went to
    the split as it was, the four parts of the split went to the
    transformation in the order train features, test features, train
    labels, test labels, the one bundle of arrays went to both training
    and tuning, and the tuner was pushed with the directories of the
    setup. *)
Theorem successful_flow_data_path :
  forall (Results TunerOutput Study ndarray : Type)
         (env : Engine.imports Results TunerOutput Study ndarray)
         (config_path : string),
    snd (Engine.workflow env config_path) = Ok tt ->
    exists config ROOT_DIR viz_dir model_dir artifact_dir
           data_config load split seed transform model train tune
           data X_train X_test y_train y_test transformed_ds results tuner,
      Engine.Pilot_setup env config_path
      = Ok (config, ROOT_DIR, viz_dir, model_dir, artifact_dir)
      /\ Box.getattr config "data" = Ok data_config
      /\ Box.getattr data_config "load" = Ok load
      /\ Engine.DataEngine_load env load = Ok data
      /\ Box.getattr data_config "split" = Ok split
      /\ Box.getattr config "SEED" = Ok seed
      /\ Engine.DataEngine_split env split data seed
         = Ok (X_train, X_test, y_train, y_test)
      /\ Box.getattr data_config "transform" = Ok transform
      /\ Engine.DataEngine_transform env transform X_train X_test y_train y_test
           artifact_dir = Ok transformed_ds
      /\ Box.getattr config "model" = Ok model
      /\ Box.getattr model "train" = Ok train
      /\ Engine.LearnLab_train_experiments env train transformed_ds = Ok results
      /\ Box.getattr model "tune" = Ok tune
      /\ Engine.LearnLab_tune_models env tune transformed_ds model_dir = Ok tuner
      /\ Engine.Pilot_push_artifacts env tuner viz_dir artifact_dir = Ok tt.
Proof.
  intros R T S N env path H. unfold Engine.workflow in H.
  apply log_bind_snd_ok in H.
  destruct H as ([[[[config root] viz] model] art] & Hsetup & H).
  unfold Engine.setup_pipeline in Hsetup. rewrite task_run_snd in Hsetup.
  apply log_bind_snd_ok in H. destruct H as (_ & _ & H).
  apply log_bind_snd_ok in H. destruct H as (data & Hload & H).
  unfold Engine.data_loader in Hload. rewrite task_run_snd in Hload.
  apply bind_ok in Hload. destruct Hload as (dc & Hdc & Hload).
  apply bind_ok in Hload. destruct Hload as (load & Hl & Hload).
  apply log_bind_snd_ok in H. destruct H as (_ & _ & H).
  apply log_bind_snd_ok in H. destruct H as ([[[a b] c] d] & Hsplit & H).
  unfold Engine.data_splits in Hsplit. rewrite task_run_snd in Hsplit.
  rewrite Hdc in Hsplit. cbn [bind] in Hsplit.
  apply bind_ok in Hsplit. destruct Hsplit as (split & Hsp & Hsplit).
  apply bind_ok in Hsplit. destruct Hsplit as (seed & Hseed & Hsplit).
  apply log_bind_snd_ok in H. destruct H as (_ & _ & H).
  apply log_bind_snd_ok in H. destruct H as (ds & Htr & H).
  unfold Engine.data_transformer in Htr. rewrite task_run_snd in Htr.
  rewrite Hdc in Htr. cbn [bind] in Htr.
  apply bind_ok in Htr. destruct Htr as (transform & Ht & Htr).
  apply log_bind_snd_ok in H. destruct H as (_ & _ & H).
  apply log_bind_snd_ok in H. destruct H as (results & Htrain & H).
  unfold Engine.train_models in Htrain. rewrite task_run_snd in Htrain.
  apply bind_ok in Htrain. destruct Htrain as (m & Hm & Htrain).
  apply bind_ok in Htrain. destruct Htrain as (train & Htn & Htrain).
  apply log_bind_snd_ok in H. destruct H as (tuner & Htune & H).
  unfold Engine.tune_models in Htune. rewrite task_run_snd in Htune.
  rewrite Hm in Htune. cbn [bind] in Htune.
  apply bind_ok in Htune. destruct Htune as (tune & Htu & Htune).
  apply log_bind_snd_ok in H. destruct H as (_ & _ & H).
  apply log_bind_snd_ok in H. destruct H as (_ & _ & H).
  apply log_bind_snd_ok in H. destruct H as (_ & _ & H).
  apply log_bind_snd_ok in H. destruct H as ([] & Hpush & _).
  unfold Engine.push_artifacts in Hpush. rewrite task_run_snd in Hpush.
  exists config, root, viz, model, art, dc, load, split, seed, transform, m,
    train, tune, data, a, b, c, d, ds, results, tuner.
  repeat split; assumption.
Qed.

Lemma successful_flow_data_path_witness :
  exists config ROOT_DIR viz_dir model_dir artifact_dir
         data_config load split seed transform model train tune
         data X_train X_test y_train y_test transformed_ds results tuner,
    Engine.Pilot_setup FlowSamples.sample_imports "config.yaml"
    = Ok (config, ROOT_DIR, viz_dir, model_dir, artifact_dir)
    /\ Box.getattr config "data" = Ok data_config
    /\ Box.getattr data_config "load" = Ok load
    /\ Engine.DataEngine_load FlowSamples.sample_imports load = Ok data
    /\ Box.getattr data_config "split" = Ok split
    /\ Box.getattr config "SEED" = Ok seed
    /\ Engine.DataEngine_split FlowSamples.sample_imports split data seed
       = Ok (X_train, X_test, y_train, y_test)
    /\ Box.getattr data_config "transform" = Ok transform
    /\ Engine.DataEngine_transform FlowSamples.sample_imports transform
         X_train X_test y_train y_test artifact_dir = Ok transformed_ds
    /\ Box.getattr config "model" = Ok model
    /\ Box.getattr model "train" = Ok train
    /\ Engine.LearnLab_train_experiments FlowSamples.sample_imports train
         transformed_ds = Ok results
    /\ Box.getattr model "tune" = Ok tune
    /\ Engine.LearnLab_tune_models FlowSamples.sample_imports tune transformed_ds
         model_dir = Ok tuner
    /\ Engine.Pilot_push_artifacts FlowSamples.sample_imports tuner viz_dir
         artifact_dir = Ok tt.
Proof.
  apply (@successful_flow_data_path unit unit unit nat FlowSamples.sample_imports
           "config.yaml").
  reflexivity.
Defined.
